(** * PMP exam prep: session scoring, streak accounting and category statistics

    A shallow embedding of the business logic of the practice screen
    ([src/app/practice.tsx]) and of the statistics screen
    ([src/app/stats.tsx]), with the part of the JavaScript runtime they
    lean on: double precision numbers and [Math.round], string comparison,
    the ECMAScript [Date] algorithms, insertion-ordered [Map]s and the
    stable [Array.prototype.sort].

    Conventions.

    - Counters (streaks, totals, list lengths) are JavaScript numbers
      holding integers far below 2^53, where double arithmetic is exact:
      they are modelled as [Z].  Percentages go through a real division, so
      they are computed on IEEE 754 binary64 values ([PrimFloat]), as the
      engine does.
    - Every event handler runs to completion before the next one starts.
      What a handler meets on its way (clock readings, the host's time
      zone, backend calls that fail, the outcome of the shuffle) is an
      explicit argument.
    - The first part of the file holds the definitions, the second part the
      properties. *)

From Stdlib Require Import ZArith List String Ascii Bool Lia Floats.
From Stdlib Require Import Sorting.Sorted Sorting.Permutation.
Import ListNotations.

Open Scope Z_scope.

(** ** JavaScript numbers and strings

    Strings are sequences of 8-bit characters, compared by character code
    as JavaScript compares code units: the dates, keys and labels at hand
    are ASCII. *)

Module Js.

(** The result of [Math.round]: an integer, or one of the values that are
    not integers. *)
Inductive rounded : Type :=
| RInt (z : Z)
| RNaN
| RInf (negative : bool).

(** [Math.round x]: the integer closest to [x], ties going towards plus
    infinity, that is the floor of [x + 1/2] computed exactly.  A finite
    double is [m * 2^e]. *)
Definition Math_round (x : float) : rounded :=
  match Prim2SF x with
  | S754_zero _ => RInt 0
  | S754_nan => RNaN
  | S754_infinity s => RInf s
  | S754_finite s m e =>
      let v := if s then Z.neg m else Z.pos m in
      RInt (if 0 <=? e then v * 2 ^ e
            else (2 * v + 2 ^ (- e)) / 2 ^ (- e + 1))
  end.

(** A counter as a double (exact below 2^53). *)
Definition num (z : Z) : float := PrimFloat.of_uint63 (Uint63.of_Z z).

(** [Math.round((a / b) * 100)], the expression every screen uses for a
    percentage. *)
Definition percentOf (a b : Z) : rounded :=
  Math_round (PrimFloat.mul (PrimFloat.div (num a) (num b)) (num 100)).

(** Values that may be [null] or [undefined] are options; a string is falsy
    when it is absent or empty. *)
Definition falsy (s : option string) : bool :=
  match s with
  | None => true
  | Some v => String.eqb v EmptyString
  end.

(** [a || b] on strings. *)
Definition orElse (a : option string) (b : string) : string :=
  match a with
  | Some v => if String.eqb v EmptyString then b else v
  | None => b
  end.

(** [s === t] where [t] is a string. *)
Definition strictEq (s : option string) (t : string) : bool :=
  match s with
  | Some v => String.eqb v t
  | None => false
  end.

(** [s < t] where [t] is a string: code unit order on two strings.  An
    absent left operand converts to a number and the comparison with a
    non-numeric string is false. *)
Definition lessThan (s : option string) (t : string) : bool :=
  match s with
  | Some v => String.ltb v t
  | None => false
  end.

(** [s.split(c)[0]]: the part of [s] before the first [c]. *)
Fixpoint splitHead (c : ascii) (s : string) : string :=
  match s with
  | EmptyString => EmptyString
  | String a rest => if Ascii.eqb a c then EmptyString
                     else String a (splitHead c rest)
  end.

(** [String(n).padStart(w, "0")] for [0 <= n < 10^w]: the [w] decimal
    digits of [n]. *)
Definition digitChar (d : Z) : ascii := ascii_of_nat (48 + Z.to_nat d).

Fixpoint padDigits (w : nat) (n : Z) : string :=
  match w with
  | O => EmptyString
  | S w' => (padDigits w' (n / 10)
             ++ String (digitChar (n mod 10)) EmptyString)%string
  end.

End Js.

(** ** The ECMAScript Date algorithms (ECMA-262, Date objects)

    Time values are milliseconds since the epoch, in UTC.  They are taken
    inside the range of valid dates (at most 8.64e15 in absolute value),
    where [TimeClip] changes nothing and [toISOString] does not throw: a
    clock reading always is. *)

Module JsDate.

Definition msPerDay : Z := 86400000.
Definition msPerHour : Z := 3600000.
Definition msPerMinute : Z := 60000.
Definition msPerSecond : Z := 1000.

Definition Day (t : Z) : Z := t / msPerDay.
Definition TimeWithinDay (t : Z) : Z := t mod msPerDay.

Definition DaysInYear (y : Z) : Z :=
  if negb (y mod 4 =? 0) then 365
  else if negb (y mod 100 =? 0) then 366
  else if negb (y mod 400 =? 0) then 365
  else 366.

Definition DayFromYear (y : Z) : Z :=
  365 * (y - 1970) + (y - 1969) / 4 - (y - 1901) / 100 + (y - 1601) / 400.

Definition TimeFromYear (y : Z) : Z := msPerDay * DayFromYear y.

(** The largest [y] with [TimeFromYear y <= t]: an estimate from the mean
    length of a year, off by at most one.  [YearFromTime_spec] below shows
    that this is the year the standard defines. *)
Definition YearFromTime (t : Z) : Z :=
  let y := 1970 + (400 * Day t) / 146097 in
  if t <? TimeFromYear y then y - 1
  else if TimeFromYear (y + 1) <=? t then y + 1
  else y.

Definition InLeapYear (t : Z) : Z :=
  if DaysInYear (YearFromTime t) =? 366 then 1 else 0.

Definition DayWithinYear (t : Z) : Z := Day t - DayFromYear (YearFromTime t).

Definition MonthFromTime (t : Z) : Z :=
  let d := DayWithinYear t in
  let l := InLeapYear t in
  if d <? 31 then 0
  else if d <? 59 + l then 1
  else if d <? 90 + l then 2
  else if d <? 120 + l then 3
  else if d <? 151 + l then 4
  else if d <? 181 + l then 5
  else if d <? 212 + l then 6
  else if d <? 243 + l then 7
  else if d <? 273 + l then 8
  else if d <? 304 + l then 9
  else if d <? 334 + l then 10
  else 11.

Definition DateFromTime (t : Z) : Z :=
  let d := DayWithinYear t in
  let l := InLeapYear t in
  match MonthFromTime t with
  | 0 => d + 1
  | 1 => d - 30
  | 2 => d - 58 - l
  | 3 => d - 89 - l
  | 4 => d - 119 - l
  | 5 => d - 150 - l
  | 6 => d - 180 - l
  | 7 => d - 211 - l
  | 8 => d - 242 - l
  | 9 => d - 272 - l
  | 10 => d - 303 - l
  | _ => d - 333 - l
  end.

Definition HourFromTime (t : Z) : Z := (t / msPerHour) mod 24.
Definition MinFromTime (t : Z) : Z := (t / msPerMinute) mod 60.
Definition SecFromTime (t : Z) : Z := (t / msPerSecond) mod 60.
Definition msFromTime (t : Z) : Z := t mod msPerSecond.

(** Days of the year before the first of month [m] (0 is January). *)
Definition monthStart (m leap : Z) : Z :=
  match m with
  | 0 => 0
  | 1 => 31
  | 2 => 59 + leap
  | 3 => 90 + leap
  | 4 => 120 + leap
  | 5 => 151 + leap
  | 6 => 181 + leap
  | 7 => 212 + leap
  | 8 => 243 + leap
  | 9 => 273 + leap
  | 10 => 304 + leap
  | _ => 334 + leap
  end.

(** [MakeDay]: the day number of the first of the month, plus [date - 1];
    a [date] outside the month carries into the neighbouring months. *)
Definition MakeDay (year month date : Z) : Z :=
  let ym := year + month / 12 in
  let mn := month mod 12 in
  let leap := if DaysInYear ym =? 366 then 1 else 0 in
  DayFromYear ym + monthStart mn leap + date - 1.

Definition MakeDate (day time : Z) : Z := day * msPerDay + time.

(** The host's time zone: the offset of local time from UTC, in
    milliseconds, at a UTC time value ([LocalTZA(t, true)]) and at a local
    one ([LocalTZA(t, false)]). *)
Record TimeZone : Type := {
  offsetAtUTC : Z -> Z;
  offsetAtLocal : Z -> Z
}.

Definition fixedOffset (k : Z) : TimeZone :=
  {| offsetAtUTC := fun _ => k; offsetAtLocal := fun _ => k |}.

Definition UTCZone : TimeZone := fixedOffset 0.

Definition LocalTime (tz : TimeZone) (t : Z) : Z := t + offsetAtUTC tz t.
Definition UTC (tz : TimeZone) (t : Z) : Z := t - offsetAtLocal tz t.

(** [Date.prototype.getDate] and [Date.prototype.setDate] on a date object
    holding time value [tv]; [setDate] gives the new time value. *)
Definition getDate (tz : TimeZone) (tv : Z) : Z :=
  DateFromTime (LocalTime tz tv).

Definition setDate (tz : TimeZone) (tv : Z) (dt : Z) : Z :=
  let t := LocalTime tz tv in
  let newDate :=
    MakeDate (MakeDay (YearFromTime t) (MonthFromTime t) dt) (TimeWithinDay t) in
  UTC tz newDate.

(** [Date.prototype.toISOString]: four digits for the years 0 to 9999, a
    sign and six digits for the others. *)
Definition yearString (y : Z) : string :=
  if (0 <=? y) && (y <=? 9999) then Js.padDigits 4 y
  else String (if y <? 0 then "-"%char else "+"%char) (Js.padDigits 6 (Z.abs y)).

Definition datePart (t : Z) : string :=
  (yearString (YearFromTime t) ++ "-" ++ Js.padDigits 2 (MonthFromTime t + 1)
   ++ "-" ++ Js.padDigits 2 (DateFromTime t))%string.

Definition toISOString (t : Z) : string :=
  (datePart t ++ "T" ++ Js.padDigits 2 (HourFromTime t)
   ++ ":" ++ Js.padDigits 2 (MinFromTime t)
   ++ ":" ++ Js.padDigits 2 (SecFromTime t)
   ++ "." ++ Js.padDigits 3 (msFromTime t) ++ "Z")%string.

End JsDate.

(** [new Date(t).toISOString().split('T')[0]] *)
Definition isoDate (t : Z) : string :=
  Js.splitHead "T" (JsDate.toISOString t).

(** ** Insertion-ordered maps and the stable sort *)

Module JsMap.
Section WithValues.
Context {V : Type}.

(** A [Map] with string keys: its entries in insertion order. *)
Definition t : Type := list (string * V).

Definition empty : t := [].

Fixpoint get (m : t) (k : string) : option V :=
  match m with
  | [] => None
  | (k', v) :: m' => if String.eqb k' k then Some v else get m' k
  end.

(** [set] replaces the value of a key that is present, in place, and
    appends a new key. *)
Fixpoint set (m : t) (k : string) (v : V) : t :=
  match m with
  | [] => [(k, v)]
  | (k', v') :: m' =>
      if String.eqb k' k then (k', v) :: m' else (k', v') :: set m' k v
  end.

Definition entries (m : t) : list (string * V) := m.
End WithValues.
Arguments t : clear implicits.
End JsMap.

Module JsArray.
Section WithElements.
Context {A : Type}.
Variable comparefn : A -> A -> Z.

(** [x] goes in front of the first element it does not follow. *)
Fixpoint insertSorted (x : A) (l : list A) : list A :=
  match l with
  | [] => [x]
  | y :: l' =>
      if comparefn x y <=? 0 then x :: y :: l' else y :: insertSorted x l'
  end.

(** [Array.prototype.sort(comparefn)]: a stable sort; elements that
    compare equal keep their relative order. *)
Definition sort (l : list A) : list A := fold_right insertSorted [] l.
End WithElements.
End JsArray.

(** ** The backend collaborator: record collections *)

Module Backend.

Record UserRow : Type := {
  id : string;
  email : string;
  displayName : string;
  currentStreak : Z;
  longestStreak : Z;
  lastStudyDate : option string;
  totalQuestionsAnswered : Z;
  correctAnswers : Z
}.

Record Question : Type := {
  questionKey : string;          (* id *)
  questionText : string;
  optionA : string;
  optionB : string;
  optionC : string;
  optionD : string;
  correctAnswer : string;
  explanation : string;
  category : string;
  knowledgeArea : string;
  difficulty : string
}.

(** A row of [userAnswers]; [isCorrect] is stored as 1 or 0. *)
Record AnswerRow : Type := {
  answerUserId : string;
  questionId : string;
  selectedOption : string;
  isCorrect : Z;
  answeredAt : string
}.

Record SessionRow : Type := {
  sessionUserId : string;
  sessionDate : string;
  questionsAnswered : Z;
  sessionCorrectAnswers : Z;
  sessionDuration : Z
}.

(** The record ids (built from [Date.now] and [Math.random]) and the
    [createdAt]/[updatedAt] stamps are left out: nothing reads them.  The
    [questions] collection is kept in the order of the practice screen's
    query (most recent first). *)
Record Db : Type := {
  users : list UserRow;
  questions : list Question;
  userAnswers : list AnswerRow;
  studySessions : list SessionRow
}.

(** [users.list({ where: { id }, limit: 1 })] *)
Definition users_list (uid : string) (db : Db) : list UserRow :=
  firstn 1 (filter (fun r => String.eqb (id r) uid) (users db)).

(** [users.update(id, fields)]: [fields] overwrites part of every row with
    that id. *)
Definition users_update (uid : string) (fields : UserRow -> UserRow) (db : Db) : Db :=
  {| users := map (fun r => if String.eqb (id r) uid then fields r else r) (users db);
     questions := questions db;
     userAnswers := userAnswers db;
     studySessions := studySessions db |}.

Definition users_create (row : UserRow) (db : Db) : Db :=
  {| users := users db ++ [row];
     questions := questions db;
     userAnswers := userAnswers db;
     studySessions := studySessions db |}.

Definition userAnswers_create (row : AnswerRow) (db : Db) : Db :=
  {| users := users db;
     questions := questions db;
     userAnswers := userAnswers db ++ [row];
     studySessions := studySessions db |}.

Definition studySessions_create (row : SessionRow) (db : Db) : Db :=
  {| users := users db;
     questions := questions db;
     userAnswers := userAnswers db;
     studySessions := studySessions db ++ [row] |}.

(** [questions.list({ ..., limit })] *)
Definition questions_list (limit : nat) (db : Db) : list Question :=
  firstn limit (questions db).

End Backend.

(** ** The practice screen ([src/app/practice.tsx]) *)

Module Practice.

(** The signed-in user, as the authentication collaborator reports it. *)
Record AuthUser : Type := {
  uid : string;
  authEmail : string;
  authDisplayName : option string
}.

(** An answer of the running session, held in memory. *)
Module UserAnswer.
Record t : Type := {
  questionId : string;
  selectedAnswer : string;
  isCorrect : bool
}.
End UserAnswer.

(** The state variables of the component. *)
Record State : Type := {
  questions : list Backend.Question;
  currentQuestionIndex : nat;
  selectedAnswer : option string;
  showExplanation : bool;
  userAnswers : list UserAnswer.t;
  loading : bool;
  user : option AuthUser;
  sessionComplete : bool
}.

Definition initialState : State :=
  {| questions := []; currentQuestionIndex := 0; selectedAnswer := None;
     showExplanation := false; userAnswers := []; loading := true;
     user := None; sessionComplete := false |}.

Definition setQuestions (v : list Backend.Question) (s : State) : State :=
  {| questions := v; currentQuestionIndex := currentQuestionIndex s;
     selectedAnswer := selectedAnswer s; showExplanation := showExplanation s;
     userAnswers := userAnswers s; loading := loading s; user := user s;
     sessionComplete := sessionComplete s |}.

Definition setCurrentQuestionIndex (v : nat) (s : State) : State :=
  {| questions := questions s; currentQuestionIndex := v;
     selectedAnswer := selectedAnswer s; showExplanation := showExplanation s;
     userAnswers := userAnswers s; loading := loading s; user := user s;
     sessionComplete := sessionComplete s |}.

Definition setSelectedAnswer (v : option string) (s : State) : State :=
  {| questions := questions s; currentQuestionIndex := currentQuestionIndex s;
     selectedAnswer := v; showExplanation := showExplanation s;
     userAnswers := userAnswers s; loading := loading s; user := user s;
     sessionComplete := sessionComplete s |}.

Definition setShowExplanation (v : bool) (s : State) : State :=
  {| questions := questions s; currentQuestionIndex := currentQuestionIndex s;
     selectedAnswer := selectedAnswer s; showExplanation := v;
     userAnswers := userAnswers s; loading := loading s; user := user s;
     sessionComplete := sessionComplete s |}.

Definition setUserAnswers (v : list UserAnswer.t) (s : State) : State :=
  {| questions := questions s; currentQuestionIndex := currentQuestionIndex s;
     selectedAnswer := selectedAnswer s; showExplanation := showExplanation s;
     userAnswers := v; loading := loading s; user := user s;
     sessionComplete := sessionComplete s |}.

Definition setLoading (v : bool) (s : State) : State :=
  {| questions := questions s; currentQuestionIndex := currentQuestionIndex s;
     selectedAnswer := selectedAnswer s; showExplanation := showExplanation s;
     userAnswers := userAnswers s; loading := v; user := user s;
     sessionComplete := sessionComplete s |}.

Definition setUser (v : option AuthUser) (s : State) : State :=
  {| questions := questions s; currentQuestionIndex := currentQuestionIndex s;
     selectedAnswer := selectedAnswer s; showExplanation := showExplanation s;
     userAnswers := userAnswers s; loading := loading s; user := v;
     sessionComplete := sessionComplete s |}.

Definition setSessionComplete (v : bool) (s : State) : State :=
  {| questions := questions s; currentQuestionIndex := currentQuestionIndex s;
     selectedAnswer := selectedAnswer s; showExplanation := showExplanation s;
     userAnswers := userAnswers s; loading := loading s; user := user s;
     sessionComplete := v |}.

(** The component with its surroundings: the record collections, the
    console and the alerts shown so far. *)
Record World : Type := {
  screen : State;
  db : Backend.Db;
  console : list string;
  alerts : list string
}.

Definition onScreen (f : State -> State) (w : World) : World :=
  {| screen := f (screen w); db := db w; console := console w; alerts := alerts w |}.

Definition onDb (f : Backend.Db -> Backend.Db) (w : World) : World :=
  {| screen := screen w; db := f (db w); console := console w; alerts := alerts w |}.

Definition consoleError (msg : string) (w : World) : World :=
  {| screen := screen w; db := db w; console := console w ++ [msg]; alerts := alerts w |}.

Definition alert (msg : string) (w : World) : World :=
  {| screen := screen w; db := db w; console := console w; alerts := alerts w ++ [msg] |}.

(** What one run of [loadQuestions] meets: whether the query fails, and the
    outcome of the random shuffle. *)
Record LoadEnv : Type := {
  fetchFails : bool;
  shuffle : list Backend.Question -> list Backend.Question
}.

Definition loadQuestions (le : LoadEnv) (w : World) : World :=
  let w := onScreen (setLoading true) w in
  let w :=
    if fetchFails le then
      alert "Failed to load questions. Please try again."
            (consoleError "Error loading questions:" w)
    else
      let result := Backend.questions_list 5 (db w) in
      if 0 <? Z.of_nat (List.length result) then
        onScreen (setQuestions (shuffle le result)) w
      else alert "No questions available. Please try again later." w in
  onScreen (setLoading false) w.

(** The callback subscribed to the authentication state. *)
Definition onAuthStateChanged (stateUser : option AuthUser) (isLoading : bool)
    (le : LoadEnv) (w : World) : World :=
  let w :=
    match stateUser with
    | Some u => loadQuestions le (onScreen (setUser (Some u)) w)
    | None => w
    end in
  onScreen (setLoading isLoading) w.

Definition handleAnswerSelect (answer : string) (s : State) : State :=
  if showExplanation s then s else setSelectedAnswer (Some answer) s.

(** [submitAnswer]: the answer joins the session list, then the row is
    written; a failed write is caught and logged.  [now] is the clock
    reading of [answeredAt], [writeOk] tells whether the write succeeds. *)
Definition submitAnswer (now : Z) (writeOk : bool) (w : World) : World :=
  let s := screen w in
  match selectedAnswer s, user s with
  | Some sel, Some u =>
      if String.eqb sel EmptyString then w
      else
        match nth_error (questions s) (currentQuestionIndex s) with
        | None => w   (* reading a field of [undefined]: the handler throws *)
        | Some currentQuestion =>
            let isCorrect := String.eqb sel (Backend.correctAnswer currentQuestion) in
            let userAnswer :=
              {| UserAnswer.questionId := Backend.questionKey currentQuestion;
                 UserAnswer.selectedAnswer := sel;
                 UserAnswer.isCorrect := isCorrect |} in
            let w := onScreen (fun s => setUserAnswers (userAnswers s ++ [userAnswer]) s) w in
            let w :=
              if writeOk then
                onDb (Backend.userAnswers_create
                        {| Backend.answerUserId := uid u;
                           Backend.questionId := Backend.questionKey currentQuestion;
                           Backend.selectedOption := sel;
                           Backend.isCorrect := if isCorrect then 1 else 0;
                           Backend.answeredAt := JsDate.toISOString now |}) w
              else consoleError "Error saving answer:" w in
            onScreen (setShowExplanation true) w
        end
  | _, _ => w
  end.

(** What one run of [completeSession] meets: the two clock readings (the
    one behind [today] and the later one behind [yesterday]), the host's
    time zone, and which of the three backend calls fail. *)
Record SessionEnv : Type := {
  clockToday : Z;
  clockYesterday : Z;
  zone : JsDate.TimeZone;
  listFails : bool;
  userWriteFails : bool;
  sessionCreateFails : bool
}.

(** [const today = new Date().toISOString().split('T')[0]] *)
Definition today (e : SessionEnv) : string := isoDate (clockToday e).

(** [yesterday.setDate(yesterday.getDate() - 1)] on a fresh [Date], then
    the date part of its ISO form. *)
Definition yesterdayStr (e : SessionEnv) : string :=
  let yesterday := clockYesterday e in
  let yesterday :=
    JsDate.setDate (zone e) yesterday (JsDate.getDate (zone e) yesterday - 1) in
  isoDate yesterday.

(** The streak after a session, for a user who has a record. *)
Definition newStreak (today yesterdayStr : string) (existingUser : Backend.UserRow) : Z :=
  let lastStudyDate := Backend.lastStudyDate existingUser in
  if Js.strictEq lastStudyDate today then
    (* Already studied today, don't change streak *)
    Backend.currentStreak existingUser
  else if Js.strictEq lastStudyDate yesterdayStr then
    (* Studied yesterday, increment streak *)
    Backend.currentStreak existingUser + 1
  else if Js.falsy lastStudyDate || Js.lessThan lastStudyDate yesterdayStr then
    (* Missed days, reset streak to 1 *)
    1
  else Backend.currentStreak existingUser.

(** The fields [users.update] receives, laid over the existing row. *)
Definition updatedUser (today yesterdayStr : string) (correctCount totalQuestions : Z)
    (existingUser row : Backend.UserRow) : Backend.UserRow :=
  let newStreak := newStreak today yesterdayStr existingUser in
  let newLongestStreak := Z.max (Backend.longestStreak existingUser) newStreak in
  {| Backend.id := Backend.id row;
     Backend.email := Backend.email row;
     Backend.displayName := Backend.displayName row;
     Backend.currentStreak := newStreak;
     Backend.longestStreak := newLongestStreak;
     Backend.lastStudyDate := Some today;
     Backend.totalQuestionsAnswered :=
       Backend.totalQuestionsAnswered existingUser + totalQuestions;
     Backend.correctAnswers := Backend.correctAnswers existingUser + correctCount |}.

(** The row [users.create] receives. *)
Definition createdUser (u : AuthUser) (today : string) (correctCount totalQuestions : Z)
    : Backend.UserRow :=
  {| Backend.id := uid u;
     Backend.email := authEmail u;
     Backend.displayName :=
       Js.orElse (authDisplayName u) (Js.splitHead "@" (authEmail u));
     Backend.currentStreak := 1;
     Backend.longestStreak := 1;
     Backend.lastStudyDate := Some today;
     Backend.totalQuestionsAnswered := totalQuestions;
     Backend.correctAnswers := correctCount |}.

Definition sessionFailed (w : World) : World :=
  alert "Failed to save progress. Please try again."
        (consoleError "Error completing session:" w).

(** [correctCount] as [completeSession] computes it: the correct answers of
    the session list, plus one when the selected answer is the correct
    answer of the current question. *)
Definition sessionCorrectCount (s : State) (currentQuestion : Backend.Question) : Z :=
  Z.of_nat (List.length (filter UserAnswer.isCorrect (userAnswers s)))
  + (if Js.strictEq (selectedAnswer s) (Backend.correctAnswer currentQuestion)
     then 1 else 0).

Definition completeSession (e : SessionEnv) (w : World) : World :=
  let s := screen w in
  match user s with
  | None => w
  | Some u =>
      match nth_error (questions s) (currentQuestionIndex s) with
      | None => w   (* reading a field of [undefined]: the handler throws *)
      | Some currentQuestion =>
          let correctCount := sessionCorrectCount s currentQuestion in
          let totalQuestions := Z.of_nat (List.length (questions s)) in
          let today := today e in
          if listFails e then sessionFailed w
          else
            let existingUsers := Backend.users_list (uid u) (db w) in
            if userWriteFails e then sessionFailed w
            else
              let w :=
                match existingUsers with
                | existingUser :: _ =>
                    onDb (Backend.users_update (uid u)
                            (updatedUser today (yesterdayStr e)
                                         correctCount totalQuestions existingUser)) w
                | [] =>
                    onDb (Backend.users_create
                            (createdUser u today correctCount totalQuestions)) w
                end in
              if sessionCreateFails e then sessionFailed w
              else
                let w :=
                  onDb (Backend.studySessions_create
                          {| Backend.sessionUserId := uid u;
                             Backend.sessionDate := today;
                             Backend.questionsAnswered := totalQuestions;
                             Backend.sessionCorrectAnswers := correctCount;
                             Backend.sessionDuration := 0 |}) w in
                onScreen (setSessionComplete true) w
      end
  end.

Definition nextQuestion (e : SessionEnv) (w : World) : World :=
  let s := screen w in
  if Z.of_nat (currentQuestionIndex s) <? Z.of_nat (List.length (questions s)) - 1 then
    onScreen (fun s =>
      setShowExplanation false
        (setSelectedAnswer None
           (setCurrentQuestionIndex (currentQuestionIndex s + 1) s))) w
  else completeSession e w.

Definition restartPractice (le : LoadEnv) (w : World) : World :=
  let w :=
    onScreen (fun s =>
      setSessionComplete false
        (setUserAnswers []
           (setShowExplanation false
              (setSelectedAnswer None
                 (setCurrentQuestionIndex 0 s))))) w in
  loadQuestions le w.

(** The results of a finished session, as the results view computes them:
    [correctCount], [totalQuestions] and [percentage]. *)
Definition sessionResults (userAnswers : list UserAnswer.t)
    (questions : list Backend.Question) : Z * Z * Js.rounded :=
  let correctCount := Z.of_nat (List.length (filter UserAnswer.isCorrect userAnswers)) in
  let totalQuestions := Z.of_nat (List.length questions) in
  let percentage := Js.percentOf correctCount totalQuestions in
  (correctCount, totalQuestions, percentage).

(** What the component renders. *)
Inductive View : Type :=
| LoadingView
| NoQuestionsView
| ResultsView (correctCount totalQuestions : Z) (percentage : Js.rounded)
| QuestionView (currentQuestion : Backend.Question) (explained : bool)
| RenderError.

Definition render (s : State) : View :=
  if loading s then LoadingView
  else if Z.of_nat (List.length (questions s)) =? 0 then NoQuestionsView
  else if sessionComplete s then
    let '(correctCount, totalQuestions, percentage) :=
      sessionResults (userAnswers s) (questions s) in
    ResultsView correctCount totalQuestions percentage
  else
    match nth_error (questions s) (currentQuestionIndex s) with
    | Some currentQuestion => QuestionView currentQuestion (showExplanation s)
    | None => RenderError
    end.

(** The four option buttons. *)
Inductive OptionKey : Type := KeyA | KeyB | KeyC | KeyD.

Definition keyLabel (k : OptionKey) : string :=
  match k with
  | KeyA => "A" | KeyB => "B" | KeyC => "C" | KeyD => "D"
  end.

(** What can happen to the screen: a change of the authentication state,
    or a press on one of the controls the current view offers. *)
Inductive Event : Type :=
| AuthStateChanged (stateUser : option AuthUser) (isLoading : bool) (le : LoadEnv)
| PressOption (key : OptionKey)
| PressSubmit (now : Z) (writeOk : bool)
| PressNext (e : SessionEnv)
| PressPracticeAgain (le : LoadEnv)
| PressRetry (le : LoadEnv).

(** A press on a control that is not on screen, or is disabled, does
    nothing. *)
Definition step (w : World) (ev : Event) : World :=
  match ev, render (screen w) with
  | AuthStateChanged stateUser isLoading le, _ =>
      onAuthStateChanged stateUser isLoading le w
  | PressOption key, QuestionView _ explained =>
      if explained then w else onScreen (handleAnswerSelect (keyLabel key)) w
  | PressSubmit now writeOk, QuestionView _ explained =>
      if explained || Js.falsy (selectedAnswer (screen w)) then w
      else submitAnswer now writeOk w
  | PressNext e, QuestionView _ explained =>
      if explained then nextQuestion e w else w
  | PressPracticeAgain le, ResultsView _ _ _ => restartPractice le w
  | PressRetry le, NoQuestionsView => loadQuestions le w
  | _, _ => w
  end.

(** The events one after another, every handler run to its end before the
    next event: the runs in which the backend has answered a handler
    before anything else happens.  [Interleaved] takes the handlers that
    await the backend apart. *)
Definition run (w : World) (evs : list Event) : World := fold_left step evs w.

End Practice.

(** ** The statistics screen ([src/app/stats.tsx]) *)

Module Stats.

Record CategoryStats : Type := {
  category : string;
  total : Z;
  correct : Z;
  accuracy : Js.rounded
}.

(** The value kept per category while counting: [{ total, correct }]. *)
Record Tally : Type := {
  tallyTotal : Z;
  tallyCorrect : Z
}.

(** [new Map(questions.map(q => [q.id, q]))] *)
Definition questionMap (questions : list Backend.Question) : JsMap.t Backend.Question :=
  fold_left (fun m q => JsMap.set m (Backend.questionKey q) q) questions JsMap.empty.

(** The body of [answers.forEach]. *)
Definition countAnswer (questionMap : JsMap.t Backend.Question)
    (categoryMap : JsMap.t Tally) (answer : Backend.AnswerRow) : JsMap.t Tally :=
  match JsMap.get questionMap (Backend.questionId answer) with
  | Some question =>
      let category := Backend.category question in
      let current :=
        match JsMap.get categoryMap category with
        | Some c => c
        | None => {| tallyTotal := 0; tallyCorrect := 0 |}
        end in
      JsMap.set categoryMap category
        {| tallyTotal := tallyTotal current + 1;
           tallyCorrect := tallyCorrect current
                           + (if Backend.isCorrect answer >? 0 then 1 else 0) |}
  | None => categoryMap
  end.

Definition categoryMap (answers : list Backend.AnswerRow)
    (questions : list Backend.Question) : JsMap.t Tally :=
  fold_left (countAnswer (questionMap questions)) answers JsMap.empty.

Definition toStats (entry : string * Tally) : CategoryStats :=
  let '(category, data) := entry in
  {| category := category;
     total := tallyTotal data;
     correct := tallyCorrect data;
     accuracy := if tallyTotal data >? 0
                 then Js.percentOf (tallyCorrect data) (tallyTotal data)
                 else Js.RInt 0 |}.

(** The statistics [calculateCategoryStats] hands to [setCategoryStats]. *)
Definition categoryStats (answers : list Backend.AnswerRow)
    (questions : list Backend.Question) : list CategoryStats :=
  JsArray.sort (fun a b => total b - total a)
    (map toStats (JsMap.entries (categoryMap answers questions))).

(** [calculateCategoryStats]: [fetched] is the outcome of the catalogue
    query ([None] when it fails); the result is the new value of the
    [categoryStats] state variable and the console. *)
Definition calculateCategoryStats (answers : list Backend.AnswerRow)
    (fetched : option (list Backend.Question))
    (shown : list CategoryStats) (console : list string)
    : list CategoryStats * list string :=
  match fetched with
  | Some questions => (categoryStats answers questions, console)
  | None => (shown, console ++ ["Error calculating category stats:"%string])
  end.

End Stats.

(** ** Statement vocabulary *)

(** Round half up of the fraction [n / d], for a positive [d]: the floor of
    [n/d + 1/2]. *)
Definition roundHalfUp (n d : Z) : Z := (2 * n + d) / (2 * d).

(** The number of [true] outcomes of a sequence. *)
Definition countTrue (outcomes : list bool) : Z :=
  Z.of_nat (List.length (filter (fun b => b) outcomes)).

(** The per-question outcomes of the session list. *)
Definition outcomes (userAnswers : list Practice.UserAnswer.t) : list bool :=
  map Practice.UserAnswer.isCorrect userAnswers.

(** [completeSession] gets as far as writing the user's record: a user is
    signed in, the current question exists, and neither the query nor the
    write of the user's record fails. *)
Definition Completes (e : Practice.SessionEnv) (w : Practice.World)
    (u : Practice.AuthUser) (currentQuestion : Backend.Question) : Prop :=
  Practice.user (Practice.screen w) = Some u
  /\ nth_error (Practice.questions (Practice.screen w))
               (Practice.currentQuestionIndex (Practice.screen w))
     = Some currentQuestion
  /\ Practice.listFails e = false
  /\ Practice.userWriteFails e = false.

(** The user's record as the next query would return it. *)
Definition recordOf (u : Practice.AuthUser) (w : Practice.World) : list Backend.UserRow :=
  Backend.users_list (Practice.uid u) (Practice.db w).

(** The tally [completeSession] merges into the user's record:
    its [correctCount] and its [totalQuestions]. *)
Definition mergedCorrect (w : Practice.World) (currentQuestion : Backend.Question) : Z :=
  Practice.sessionCorrectCount (Practice.screen w) currentQuestion.

Definition mergedTotal (w : Practice.World) : Z :=
  Z.of_nat (List.length (Practice.questions (Practice.screen w))).

(** The ISO form of the civil date with day number [d] (days since the
    epoch): [dayString 19732] is 2024-01-10. *)
Definition dayString (d : Z) : string := isoDate (d * JsDate.msPerDay).

(** Day numbers whose year is written with four digits (0000 to 9999). *)
Definition fourDigitYear (d : Z) : Prop :=
  JsDate.DayFromYear 0 <= d < JsDate.DayFromYear 10000.

(** The two clock readings of [completeSession] fall on the same UTC day,
    and the time zone has the same offset one local day earlier (always so
    in a zone without clock changes). *)
Definition SteadyClock (e : Practice.SessionEnv) : Prop :=
  JsDate.Day (Practice.clockYesterday e) = JsDate.Day (Practice.clockToday e)
  /\ JsDate.offsetAtLocal (Practice.zone e)
       (JsDate.LocalTime (Practice.zone e) (Practice.clockYesterday e) - JsDate.msPerDay)
     = JsDate.offsetAtUTC (Practice.zone e) (Practice.clockYesterday e).

(** A last study date that is unset: absent or empty. *)
Definition Unset (last : option string) : Prop := Js.falsy last = true.

(** With a steady clock and years of four digits: a last study date
    strictly earlier than the day before today. *)
Definition EarlierThanYesterday (e : Practice.SessionEnv) (last : option string) : Prop :=
  SteadyClock e
  /\ fourDigitYear (JsDate.Day (Practice.clockToday e))
  /\ exists d, last = Some (dayString d)
               /\ fourDigitYear d
               /\ d < JsDate.Day (Practice.clockToday e) - 1.

(** Strings without a given character. *)
Fixpoint lacks (c : ascii) (s : string) : Prop :=
  match s with
  | EmptyString => True
  | String a rest => Ascii.eqb a c = false /\ lacks c rest
  end.

(** Two worlds that agree on everything but the log of answers, the
    console and the alerts. *)
Definition sameSession (w1 w2 : Practice.World) : Prop :=
  Practice.screen w1 = Practice.screen w2
  /\ Backend.users (Practice.db w1) = Backend.users (Practice.db w2)
  /\ Backend.questions (Practice.db w1) = Backend.questions (Practice.db w2)
  /\ Backend.studySessions (Practice.db w1) = Backend.studySessions (Practice.db w2).

(** An answer whose question is in the catalogue. *)
Definition found (questions : list Backend.Question) (answer : Backend.AnswerRow) : bool :=
  match JsMap.get (Stats.questionMap questions) (Backend.questionId answer) with
  | Some _ => true
  | None => false
  end.

Definition sumTotals (stats : list Stats.CategoryStats) : Z :=
  fold_right (fun c acc => Stats.total c + acc) 0 stats.

Definition sumTallies (m : JsMap.t Stats.Tally) : Z :=
  fold_right (fun entry acc => Stats.tallyTotal (snd entry) + acc) 0 m.

Definition soundTally (c : Stats.Tally) : Prop :=
  0 <= Stats.tallyCorrect c <= Stats.tallyTotal c /\ 0 < Stats.tallyTotal c.

(** The comparison function of the statistics, and the order it yields. *)
Definition byTotal (a b : Stats.CategoryStats) : Z := Stats.total b - Stats.total a.

Definition totalDescending (a b : Stats.CategoryStats) : Prop :=
  Stats.total a >= Stats.total b.

(** The integers from 0 to [n]. *)
Definition upto (n : nat) : list Z := map Z.of_nat (seq 0 (S n)).

(** The value [Math.round((c / t) * 100)] takes for totals up to 100: the
    fraction rounded half up, except at 23/40, where the double product is
    57.49999999999999. *)
Definition expectedPercent (c t : Z) : Z :=
  if c * 40 =? t * 23 then 57 else roundHalfUp (100 * c) t.

Definition percentAgrees (expected : Z -> Z -> Z) (t c : Z) : bool :=
  match Js.percentOf c t with
  | Js.RInt z => z =? expected c t
  | _ => false
  end.

Definition percentTable (expected : Z -> Z -> Z) (n : nat) : bool :=
  forallb (fun t => (t =? 0) || forallb (percentAgrees expected t) (upto (Z.to_nat t)))
          (upto n).

(** A shuffle that keeps the number of questions, and the events whose
    shuffles do. *)
Definition fairShuffle (le : Practice.LoadEnv) : Prop :=
  forall l, List.length (Practice.shuffle le l) = List.length l.

Definition fairEvent (ev : Practice.Event) : Prop :=
  match ev with
  | Practice.AuthStateChanged _ _ le
  | Practice.PressPracticeAgain le
  | Practice.PressRetry le => fairShuffle le
  | _ => True
  end.

(** What holds of the practice screen at every moment, over a backend with
    the given questions: the questions on screen are the (at most five)
    questions fetched; while a session runs, the session list holds one
    answer per question passed, the current one included once its
    explanation is shown; when the session is complete, it holds one answer
    per question. *)
Definition sessionInvariant (catalogue : list Backend.Question) (w : Practice.World) : Prop :=
  let s := Practice.screen w in
  Backend.questions (Practice.db w) = catalogue
  /\ (Practice.questions s = []
      \/ List.length (Practice.questions s) = List.length (firstn 5 catalogue))
  /\ (Practice.sessionComplete s = false ->
      List.length (Practice.userAnswers s)
      = (Practice.currentQuestionIndex s
         + (if Practice.showExplanation s then 1 else 0))%nat)
  /\ (Practice.sessionComplete s = true ->
      Practice.questions s <> []
      /\ List.length (Practice.userAnswers s) = List.length (Practice.questions s)).

(** A freshly mounted screen. *)
Definition mounted (w : Practice.World) : Prop :=
  Practice.screen w = Practice.initialState.

(** ** Sample data *)

Module Sample.
Import Practice.
Open Scope string_scope.

Definition question (key answer category : string) : Backend.Question :=
  {| Backend.questionKey := key; Backend.questionText := "";
     Backend.optionA := ""; Backend.optionB := ""; Backend.optionC := "";
     Backend.optionD := ""; Backend.correctAnswer := answer;
     Backend.explanation := ""; Backend.category := category;
     Backend.knowledgeArea := ""; Backend.difficulty := "" |}.

Definition q5 : Backend.Question := question "q5" "A" "Cost".

Definition catalogue : list Backend.Question :=
  [question "q1" "A" "Risk"; question "q2" "B" "Risk"; question "q3" "C" "Scope";
   question "q4" "D" "Scope"; q5].

Definition alice : AuthUser :=
  {| uid := "u1"; authEmail := "alice@example.com"; authDisplayName := None |}.

Definition row (streak longest : Z) (last : option string) (answered correct : Z)
    : Backend.UserRow :=
  {| Backend.id := "u1"; Backend.email := "alice@example.com";
     Backend.displayName := "alice"; Backend.currentStreak := streak;
     Backend.longestStreak := longest; Backend.lastStudyDate := last;
     Backend.totalQuestionsAnswered := answered; Backend.correctAnswers := correct |}.

(** A freshly mounted screen over a backend holding [rows]. *)
Definition world (rows : list Backend.UserRow) : World :=
  {| screen := initialState;
     db := {| Backend.users := rows; Backend.questions := catalogue;
              Backend.userAnswers := []; Backend.studySessions := [] |};
     console := []; alerts := [] |}.

Definition inOrder : LoadEnv := {| fetchFails := false; shuffle := fun l => l |}.

(** A session at time [t], in UTC, with a backend that answers. *)
Definition sessionAt (t : Z) : SessionEnv :=
  {| clockToday := t; clockYesterday := t + 40; zone := JsDate.UTCZone;
     listFails := false; userWriteFails := false; sessionCreateFails := false |}.

(** A session whose first clock reading is the last millisecond of 10
    January 2024 and whose second one is two milliseconds later. *)
Definition acrossMidnight : SessionEnv :=
  {| clockToday := 1704931199999; clockYesterday := 1704931200001;
     zone := JsDate.UTCZone;
     listFails := false; userWriteFails := false; sessionCreateFails := false |}.

(** Noon UTC on 10 January 2024 (day 19732) and on 1 March 2024 (day
    19783). *)
Definition jan10 : Z := 1704888000000.
Definition mar01 : Z := 1709294400000.

(** Choosing an option for each question in turn, submitting it at time
    [t] and pressing the button under the explanation; the last of these
    presses completes the session. *)
Definition presses (t : Z) (keys : list OptionKey) : list Event :=
  flat_map (fun k => [PressOption k; PressSubmit t true; PressNext (sessionAt t)]) keys.

Definition answering (t : Z) (keys : list OptionKey) : list Event :=
  AuthStateChanged (Some alice) false inOrder :: presses t keys.

(** The world before the last press of a session: everything answered,
    the explanation of the last question on screen. *)
Definition beforeLastPress (rows : list Backend.UserRow) (t : Z)
    (keys : list OptionKey) : World :=
  run (world rows) (removelast (answering t keys)).

(** Four right answers, then a wrong one. *)
Definition fourOfFive : list OptionKey := [KeyA; KeyB; KeyC; KeyD; KeyB].

(** Five right answers. *)
Definition fiveOfFive : list OptionKey := [KeyA; KeyB; KeyC; KeyD; KeyA].

(** A user who studied the day before, about to complete a session. *)
Definition returning : World :=
  beforeLastPress [row 5 5 (Some "2024-01-09") 10 7] jan10 fourOfFive.

(** A user back after a gap. *)
Definition lapsed : World :=
  beforeLastPress [row 5 8 (Some "2024-01-05") 10 7] jan10 fourOfFive.


(** A user who already studied today, and the same user about to complete
    a second session an hour after the first. *)
Definition sameDay : World :=
  beforeLastPress [row 5 5 (Some "2024-01-10") 10 7] jan10 fourOfFive.

Definition sameDayAgain : World :=
  run (completeSession (sessionAt jan10) sameDay)
      (PressPracticeAgain inOrder
       :: removelast (presses (jan10 + 3600000) fiveOfFive)).

(** A first-time user. *)
Definition newcomer : World := beforeLastPress [] mar01 fourOfFive.

(** A screen on which the option that is about to be submitted is chosen. *)
Definition choosing : World :=
  run (world []) [AuthStateChanged (Some alice) false inOrder; PressOption KeyA].

Definition q1 : Backend.Question := question "q1" "A" "Risk".

(** Session answers with the given outcomes. *)
Definition answered (results : list bool) : list UserAnswer.t :=
  map (fun b => {| UserAnswer.questionId := "q1"; UserAnswer.selectedAnswer := "A";
                   UserAnswer.isCorrect := b |}) results.

(** [n] logged answers to the first question, right or wrong. *)
Definition logged (n : nat) (right : bool) : list Backend.AnswerRow :=
  repeat {| Backend.answerUserId := "u1"; Backend.questionId := "q1";
            Backend.selectedOption := if right then "A" else "B";
            Backend.isCorrect := if right then 1 else 0;
            Backend.answeredAt := "2024-01-10T12:00:00.000Z" |} n.

(** A logged answer to a question that is not in the catalogue. *)
Definition stray : Backend.AnswerRow :=
  {| Backend.answerUserId := "u1"; Backend.questionId := "q99";
     Backend.selectedOption := "A"; Backend.isCorrect := 1;
     Backend.answeredAt := "2024-01-10T12:00:00.000Z" |}.

End Sample.

(** ** The other screens and the rest of the practice screen *)

(** The user as the home, statistics and streak screens hold it (their
    [User] interface); the three screens build it from the user's record
    with the same object literal. *)
Module Screens.

Record User : Type := {
  id : string;
  email : string;
  displayName : string;
  currentStreak : Z;
  longestStreak : Z;
  lastStudyDate : string;
  totalQuestionsAnswered : Z;
  correctAnswers : Z
}.

(** [n || 0] on a number. *)
Definition orZero (n : Z) : Z := if n =? 0 then 0 else n.

Definition userOf (userId : string) (authUser : Practice.AuthUser)
    (dbUser : Backend.UserRow) : User :=
  {| id := userId;
     email := Practice.authEmail authUser;
     displayName :=
       Js.orElse (Some (Backend.displayName dbUser))
         (Js.orElse (Practice.authDisplayName authUser)
                    (Js.splitHead "@" (Practice.authEmail authUser)));
     currentStreak := orZero (Backend.currentStreak dbUser);
     longestStreak := orZero (Backend.longestStreak dbUser);
     lastStudyDate := Js.orElse (Backend.lastStudyDate dbUser) EmptyString;
     totalQuestionsAnswered := orZero (Backend.totalQuestionsAnswered dbUser);
     correctAnswers := orZero (Backend.correctAnswers dbUser) |}.

End Screens.

(** *** The practice screen: the progress bar of the question view *)

(** [((currentQuestionIndex + 1) / questions.length) * 100] *)
Definition questionProgress (s : Practice.State) : float :=
  PrimFloat.mul
    (PrimFloat.div (Js.num (Z.of_nat (Practice.currentQuestionIndex s) + 1))
                   (Js.num (Z.of_nat (List.length (Practice.questions s)))))
    (Js.num 100).

(** *** The home screen ([src/app/index.tsx]) *)

Module Home.

Record State : Type := {
  user : option Screens.User;
  loading : bool;
  todayStudied : bool
}.

Definition initialState : State :=
  {| user := None; loading := true; todayStudied := false |}.

Record World : Type := {
  screen : State;
  console : list string;
  alerts : list string
}.

(** What one run of [loadUserData] meets: the answer of [blink.auth.me]
    ([None] when it throws), whether the query fails, and the clock. *)
Record LoadEnv : Type := {
  me : option Practice.AuthUser;
  listFails : bool;
  clock : Z
}.

Definition loadFailed (w : World) : World :=
  {| screen := screen w;
     console := console w ++ ["Error loading user data:"%string];
     alerts := alerts w ++ ["Failed to load user data"%string] |}.

Definition loadUserData (userId : string) (e : LoadEnv) (db : Backend.Db)
    (w : World) : World :=
  match me e with
  | None => loadFailed w
  | Some authUser =>
      if listFails e then loadFailed w
      else
        let existingUsers := Backend.users_list userId db in
        let userData :=
          match existingUsers with
          | dbUser :: _ => Screens.userOf userId authUser dbUser
          | [] =>
              (* Create default user data for new users *)
              {| Screens.id := userId;
                 Screens.email := Practice.authEmail authUser;
                 Screens.displayName :=
                   Js.orElse (Practice.authDisplayName authUser)
                             (Js.splitHead "@" (Practice.authEmail authUser));
                 Screens.currentStreak := 0;
                 Screens.longestStreak := 0;
                 Screens.lastStudyDate := EmptyString;
                 Screens.totalQuestionsAnswered := 0;
                 Screens.correctAnswers := 0 |}
          end in
        (* Check if user studied today *)
        let today := isoDate (clock e) in
        {| screen := {| user := Some userData;
                        loading := loading (screen w);
                        todayStudied :=
                          String.eqb (Screens.lastStudyDate userData) today |};
           console := console w;
           alerts := alerts w |}
  end.

Definition accuracyRate (user : Screens.User) : Js.rounded :=
  if Screens.totalQuestionsAnswered user >? 0
  then Js.percentOf (Screens.correctAnswers user) (Screens.totalQuestionsAnswered user)
  else Js.RInt 0.

(** The daily goal card: [user.totalQuestionsAnswered % 5] questions out
    of 5, and the width of its bar,
    [Math.min((user.totalQuestionsAnswered % 5) * 20, 100)] percent.  The
    remainder has the sign of the dividend. *)
Definition dailyGoalCount (user : Screens.User) : Z :=
  Z.rem (Screens.totalQuestionsAnswered user) 5.

Definition dailyGoalWidth (user : Screens.User) : Z :=
  Z.min (Z.rem (Screens.totalQuestionsAnswered user) 5 * 20) 100.

End Home.

(** *** The statistics screen: what is derived from the state *)

Module StatsScreen.

(** [userAnswers.list({ where: { userId }, orderBy: { answeredAt: 'desc' },
    limit })]: the user's rows, most recent first. *)
Definition latestFirst (a b : Backend.AnswerRow) : Z :=
  match String.compare (Backend.answeredAt b) (Backend.answeredAt a) with
  | Lt => -1
  | Eq => 0
  | Gt => 1
  end.

Definition userAnswers_list (userId : string) (limit : nat) (db : Backend.Db)
    : list Backend.AnswerRow :=
  firstn limit
    (JsArray.sort latestFirst
       (filter (fun r => String.eqb (Backend.answerUserId r) userId)
               (Backend.userAnswers db))).

(** The part of the state [loadUserAnswers] writes. *)
Record State : Type := {
  userAnswers : list Backend.AnswerRow;
  categoryStats : list Stats.CategoryStats;
  console : list string
}.

(** [loadUserAnswers]: [answersFail] and [questionsFail] tell which of the
    two queries fails.  [calculateCategoryStats] catches its own failure,
    so the outer handler only sees the first. *)
Definition loadUserAnswers (userId : string) (answersFail questionsFail : bool)
    (db : Backend.Db) (s : State) : State :=
  if answersFail then
    {| userAnswers := userAnswers s;
       categoryStats := categoryStats s;
       console := console s ++ ["Error loading user answers:"%string] |}
  else
    let answers := userAnswers_list userId 100 db in
    let '(stats, console) :=
      Stats.calculateCategoryStats answers
        (if questionsFail then None else Some (Backend.questions_list 100 db))
        (categoryStats s) (console s) in
    {| userAnswers := answers; categoryStats := stats; console := console |}.

Record ProgressLevel : Type := {
  level : string;
  progress : float;
  nextLevel : string
}.

Definition getProgressLevel (user : option Screens.User) : ProgressLevel :=
  match user with
  | None => {| level := "Beginner"; progress := Js.num 0; nextLevel := "Intermediate" |}
  | Some user =>
      let total := Screens.totalQuestionsAnswered user in
      if total >=? 500 then
        {| level := "Expert"; progress := Js.num 100; nextLevel := "Master" |}
      else if total >=? 200 then
        {| level := "Advanced";
           progress := PrimFloat.mul (PrimFloat.div (Js.num (total - 200)) (Js.num 300))
                                     (Js.num 100);
           nextLevel := "Expert" |}
      else if total >=? 50 then
        {| level := "Intermediate";
           progress := PrimFloat.mul (PrimFloat.div (Js.num (total - 50)) (Js.num 150))
                                     (Js.num 100);
           nextLevel := "Advanced" |}
      else
        {| level := "Beginner";
           progress := PrimFloat.mul (PrimFloat.div (Js.num total) (Js.num 50))
                                     (Js.num 100);
           nextLevel := "Intermediate" |}
  end.

Definition getRecentPerformance (userAnswers : list Backend.AnswerRow) : Js.rounded :=
  let recentAnswers := firstn 20 userAnswers in   (* Last 20 answers *)
  if Z.of_nat (List.length recentAnswers) =? 0 then Js.RInt 0
  else
    let correct :=
      Z.of_nat (List.length (filter (fun answer => Backend.isCorrect answer >? 0)
                                    recentAnswers)) in
    Js.percentOf correct (Z.of_nat (List.length recentAnswers)).

End StatsScreen.

(** *** The streak screen ([src/unnamed/part_001]) *)

Module StreakScreen.

Record CalendarDay : Type := {
  date : string;
  day : Z;
  hasStudied : bool;
  isToday : bool;
  session : option Backend.SessionRow
}.

(** The body of the loop of [generateCalendarDays], for the day [i] days
    back; [today] is the clock reading taken before the loop. *)
Definition calendarDay (tz : JsDate.TimeZone) (today : Z)
    (sessions : list Backend.SessionRow) (i : Z) : CalendarDay :=
  let sessionDates := map Backend.sessionDate sessions in
  let date := JsDate.setDate tz today (JsDate.getDate tz today - i) in
  let dateStr := isoDate date in
  let session := find (fun s => String.eqb (Backend.sessionDate s) dateStr) sessions in
  {| date := dateStr;
     day := JsDate.getDate tz date;
     hasStudied := existsb (fun d => String.eqb d dateStr) sessionDates;
     isToday := String.eqb dateStr (isoDate today);
     session := session |}.

(** [for (let i = 29; i >= 0; i--)] *)
Definition daysBack : list Z := map Z.of_nat (rev (seq 0 30)).

Definition generateCalendarDays (tz : JsDate.TimeZone) (today : Z)
    (sessions : list Backend.SessionRow) : list CalendarDay :=
  map (calendarDay tz today sessions) daysBack.

(** [studySessions.list({ where: { userId }, orderBy: { sessionDate: 'desc' },
    limit })]: the user's rows, latest date first. *)
Definition newestFirst (a b : Backend.SessionRow) : Z :=
  match String.compare (Backend.sessionDate b) (Backend.sessionDate a) with
  | Lt => -1
  | Eq => 0
  | Gt => 1
  end.

Definition studySessions_list (userId : string) (limit : nat) (db : Backend.Db)
    : list Backend.SessionRow :=
  firstn limit
    (JsArray.sort newestFirst
       (filter (fun r => String.eqb (Backend.sessionUserId r) userId)
               (Backend.studySessions db))).

(** The part of the state [loadStudySessions] writes. *)
Record State : Type := {
  studySessions : list Backend.SessionRow;
  calendarDays : list CalendarDay;
  console : list string
}.

(** [loadStudySessions]: [listFails] tells whether the query fails; [tz]
    and [today] are the time zone and the clock [generateCalendarDays]
    meets. *)
Definition loadStudySessions (userId : string) (listFails : bool)
    (tz : JsDate.TimeZone) (today : Z) (db : Backend.Db) (s : State) : State :=
  if listFails then
    {| studySessions := studySessions s;
       calendarDays := calendarDays s;
       console := console s ++ ["Error loading study sessions:"%string] |}
  else
    let sessions := studySessions_list userId 30 db in   (* Last 30 days *)
    {| studySessions := sessions;
       calendarDays := generateCalendarDays tz today sessions;
       console := console s |}.

End StreakScreen.

(** ** Vocabulary of the further properties *)

(** The current question index points into the questions on screen, unless
    no question was loaded yet and nothing was answered. *)
Definition indexInRange (w : Practice.World) : Prop :=
  let s := Practice.screen w in
  (Practice.questions s = []
   /\ Practice.currentQuestionIndex s = 0%nat
   /\ Practice.userAnswers s = []
   /\ Practice.showExplanation s = false
   /\ Practice.sessionComplete s = false)
  \/ (Practice.currentQuestionIndex s < List.length (Practice.questions s))%nat.

(** A press on an option or on the submit button. *)
Definition answerPress (ev : Practice.Event) : Prop :=
  match ev with
  | Practice.PressOption _ | Practice.PressSubmit _ _ => True
  | _ => False
  end.

(** A session at time [t], in UTC, in which the user's record is written
    and the write of the study session row fails. *)
Definition sessionRowLost (t : Z) : Practice.SessionEnv :=
  {| Practice.clockToday := t; Practice.clockYesterday := t + 40;
     Practice.zone := JsDate.UTCZone;
     Practice.listFails := false; Practice.userWriteFails := false;
     Practice.sessionCreateFails := true |}.

(** A session at time [t], in UTC, in which the query for the user's
    record fails. *)
Definition backendDown (t : Z) : Practice.SessionEnv :=
  {| Practice.clockToday := t; Practice.clockYesterday := t + 40;
     Practice.zone := JsDate.UTCZone;
     Practice.listFails := true; Practice.userWriteFails := false;
     Practice.sessionCreateFails := false |}.

(** A user of the screens with the given counters. *)
Definition userWith (total correct : Z) : Screens.User :=
  {| Screens.id := "u1"; Screens.email := "alice@example.com";
     Screens.displayName := "alice"; Screens.currentStreak := 0;
     Screens.longestStreak := 0; Screens.lastStudyDate := EmptyString;
     Screens.totalQuestionsAnswered := total; Screens.correctAnswers := correct |}.

(** What the bar of the progress level shows below the last level: a value
    from 0 to less than 100, which is 0 exactly where a level begins. *)
Definition levelBarChecked (total : Z) : bool :=
  let shown := StatsScreen.getProgressLevel (Some (userWith total 0)) in
  let p := StatsScreen.progress shown in
  PrimFloat.leb (Js.num 0) p && PrimFloat.leb p (Js.num 100)
  && negb (PrimFloat.eqb p (Js.num 100))
  && negb (String.eqb (StatsScreen.level shown) "Expert")
  && Bool.eqb (PrimFloat.eqb p (Js.num 0))
              ((total =? 0) || (total =? 50) || (total =? 200)).

Definition levelBarTable : bool := forallb levelBarChecked (upto 499).

(** The question a [Map] built from the catalogue holds for a key: the
    last question of the catalogue with that key. *)
Definition lastWithKey (questions : list Backend.Question) (key : string)
    : option Backend.Question :=
  find (fun q => String.eqb (Backend.questionKey q) key) (rev questions).

(** The category an answer is counted in, if its question is found. *)
Definition categoryOf (questions : list Backend.Question) (a : Backend.AnswerRow)
    : option string :=
  option_map Backend.category (lastWithKey questions (Backend.questionId a)).

Definition inCategory (questions : list Backend.Question) (cat : string)
    (a : Backend.AnswerRow) : bool :=
  match categoryOf questions a with
  | Some c => String.eqb c cat
  | None => false
  end.

(** The answers counted in a category, and those of them that count as
    correct. *)
Definition answersIn (questions : list Backend.Question) (cat : string)
    (answers : list Backend.AnswerRow) : list Backend.AnswerRow :=
  filter (inCategory questions cat) answers.

Definition correctIn (questions : list Backend.Question) (cat : string)
    (answers : list Backend.AnswerRow) : list Backend.AnswerRow :=
  filter (fun a => Backend.isCorrect a >? 0) (answersIn questions cat answers).

(** The tally a category map holds for a category, 0 and 0 when it has
    none. *)
Definition tallyAt (m : JsMap.t Stats.Tally) (cat : string) : Z * Z :=
  match JsMap.get m cat with
  | Some t => (Stats.tallyTotal t, Stats.tallyCorrect t)
  | None => (0, 0)
  end.

(** The answers of a user in the log. *)
Definition answersOf (userId : string) (db : Backend.Db) : list Backend.AnswerRow :=
  filter (fun r => String.eqb (Backend.answerUserId r) userId) (Backend.userAnswers db).

(** A run of the home screen's [loadUserData] at time [t], signed in as
    the sample user, with a backend that answers. *)
Definition homeAt (t : Z) : Home.LoadEnv :=
  {| Home.me := Some Sample.alice; Home.listFails := false; Home.clock := t |}.

Definition homeMounted : Home.World :=
  {| Home.screen := Home.initialState; Home.console := []; Home.alerts := [] |}.

(** Central European time in the spring of 2024: one hour ahead of UTC
    until 31 March, 01:00 UTC (02:00 local time), two hours from then on. *)
Definition centralEurope2024 : JsDate.TimeZone :=
  {| JsDate.offsetAtUTC := fun t => if t <? 1711846800000 then 3600000 else 7200000;
     JsDate.offsetAtLocal := fun t => if t <? 1711850400000 then 3600000 else 7200000 |}.

(** The study sessions of a user in the backend. *)
Definition sessionsOf (userId : string) (db : Backend.Db) : list Backend.SessionRow :=
  filter (fun r => String.eqb (Backend.sessionUserId r) userId) (Backend.studySessions db).

(** A streak screen on which nothing is loaded yet. *)
Definition streakMounted : StreakScreen.State :=
  {| StreakScreen.studySessions := []; StreakScreen.calendarDays := [];
     StreakScreen.console := [] |}.

(** *** A whole session on the practice screen *)

(** One question of a session: the option pressed, the clock reading and
    the outcome of the write in [submitAnswer], and what the press on the
    button under the explanation meets. *)
Record Round : Type := {
  pressed : Practice.OptionKey;
  submittedAt : Z;
  saved : bool;
  env : Practice.SessionEnv
}.

Definition roundEvents (r : Round) : list Practice.Event :=
  [Practice.PressOption (pressed r);
   Practice.PressSubmit (submittedAt r) (saved r);
   Practice.PressNext (env r)].

Definition sessionEvents (rounds : list Round) : list Practice.Event :=
  flat_map roundEvents rounds.

(** The answer of the session list and the row of the log that a round on
    question [q] should leave. *)
Definition judged (q : Backend.Question) (r : Round) : Practice.UserAnswer.t :=
  {| Practice.UserAnswer.questionId := Backend.questionKey q;
     Practice.UserAnswer.selectedAnswer := Practice.keyLabel (pressed r);
     Practice.UserAnswer.isCorrect :=
       String.eqb (Practice.keyLabel (pressed r)) (Backend.correctAnswer q) |}.

Definition loggedRow (u : Practice.AuthUser) (q : Backend.Question) (r : Round)
    : Backend.AnswerRow :=
  {| Backend.answerUserId := Practice.uid u;
     Backend.questionId := Backend.questionKey q;
     Backend.selectedOption := Practice.keyLabel (pressed r);
     Backend.isCorrect :=
       if String.eqb (Practice.keyLabel (pressed r)) (Backend.correctAnswer q)
       then 1 else 0;
     Backend.answeredAt := JsDate.toISOString (submittedAt r) |}.

Definition judgedAll (questions : list Backend.Question) (rounds : list Round)
    : list Practice.UserAnswer.t :=
  map (fun qr => judged (fst qr) (snd qr)) (combine questions rounds).

Definition loggedAll (u : Practice.AuthUser) (questions : list Backend.Question)
    (rounds : list Round) : list Backend.AnswerRow :=
  flat_map (fun qr => if saved (snd qr) then [loggedRow u (fst qr) (snd qr)] else [])
           (combine questions rounds).

(** A backend that answers the three calls of [completeSession]. *)
Definition answers (e : Practice.SessionEnv) : bool :=
  negb (Practice.listFails e) && negb (Practice.userWriteFails e)
  && negb (Practice.sessionCreateFails e).

(** The environment of the last round. *)
Definition lastEnv (rounds : list Round) : option Practice.SessionEnv :=
  option_map env (List.last (map Some rounds) None).

(** A screen on which a session is about to start: the first question is
    shown, nothing is answered. *)
Definition sessionStarts (w : Practice.World) (u : Practice.AuthUser) : Prop :=
  let s := Practice.screen w in
  Practice.loading s = false
  /\ Practice.sessionComplete s = false
  /\ Practice.showExplanation s = false
  /\ Practice.currentQuestionIndex s = 0%nat
  /\ Practice.userAnswers s = []
  /\ Practice.user s = Some u
  /\ Practice.questions s <> [].

(** The rounds in which the sample user presses the given options at time
    [t], with a backend that answers. *)
Definition roundsAt (t : Z) (keys : list Practice.OptionKey) : list Round :=
  map (fun k => {| pressed := k; submittedAt := t; saved := true;
                   env := Sample.sessionAt t |}) keys.

(** The world a round on question [q] leaves before the press on the
    button under the explanation. *)
Definition afterSubmit (u : Practice.AuthUser) (q : Backend.Question) (r : Round)
    (w : Practice.World) : Practice.World :=
  {| Practice.screen :=
       Practice.setShowExplanation true
         (Practice.setUserAnswers (Practice.userAnswers (Practice.screen w) ++ [judged q r])
            (Practice.setSelectedAnswer (Some (Practice.keyLabel (pressed r)))
                                        (Practice.screen w)));
     Practice.db :=
       if saved r then Backend.userAnswers_create (loggedRow u q r) (Practice.db w)
       else Practice.db w;
     Practice.console :=
       if saved r then Practice.console w
       else Practice.console w ++ ["Error saving answer:"%string];
     Practice.alerts := Practice.alerts w |}.

(** The last round of a session. *)
Definition lastRound (rounds : list Round) : option Round :=
  List.last (map Some rounds) None.

(** The screen before the press that completes a session of [rounds] on
    [questions], with the answers [answered] in the session list:
    the last question with its explanation, the option pressed last still
    selected. *)
Definition screenBeforeCompletion (u : Practice.AuthUser)
    (questions : list Backend.Question) (answered : list Practice.UserAnswer.t)
    (r : Round) : Practice.State :=
  {| Practice.questions := questions;
     Practice.currentQuestionIndex := Nat.pred (List.length questions);
     Practice.selectedAnswer := Some (Practice.keyLabel (pressed r));
     Practice.showExplanation := true;
     Practice.userAnswers := answered;
     Practice.loading := false;
     Practice.user := Some u;
     Practice.sessionComplete := false |}.

(** The counters of a user's record as [completeSession] reads them: those
    of the first row, or none. *)
Definition countersOf (rows : list Backend.UserRow) : Z * Z :=
  match rows with
  | r :: _ => (Backend.totalQuestionsAnswered r, Backend.correctAnswers r)
  | [] => (0, 0)
  end.

(** ** The practice screen with handlers that await the backend *)

(** [Practice.step] runs every handler to its end before the next event.
    In the component [loadQuestions], [submitAnswer] and [completeSession]
    are [async]: each runs up to an [await], and the screen takes further
    events until the backend answers.  Here every [await] is a point at
    which other events may come in between. *)
Module Interleaved.
Import Practice.

(** A handler suspended at an [await], with what its continuation holds:
    - [AwaitQuestions]: [loadQuestions] at [questions.list]; called from the
      authentication callback, [setLoading(state.isLoading)] follows it;
    - [AwaitAnswerWrite]: [submitAnswer] at [userAnswers.create];
    - [AwaitUserList], [AwaitUserWrite], [AwaitSessionWrite]:
      [completeSession] at [users.list], at [users.update] or
      [users.create], and at [studySessions.create], with the counts and
      the date computed before the first of them. *)
Inductive Task : Type :=
| AwaitQuestions (thenLoading : option bool)
| AwaitAnswerWrite (row : Backend.AnswerRow)
| AwaitUserList (u : AuthUser) (correctCount totalQuestions : Z) (today : string)
| AwaitUserWrite (u : AuthUser) (correctCount totalQuestions : Z) (today : string)
    (yesterdayStr : string) (existingUsers : list Backend.UserRow)
| AwaitSessionWrite (row : Backend.SessionRow).

Record Config : Type := {
  world : Practice.World;
  pending : list Task
}.

Definition idle (w : Practice.World) : Config := {| world := w; pending := [] |}.

Definition onWorld (f : Practice.World -> Practice.World) (c : Config) : Config :=
  {| world := f (world c); pending := pending c |}.

Definition spawn (t : Task) (c : Config) : Config :=
  {| world := world c; pending := pending c ++ [t] |}.

(** [loadQuestions] up to its [await], and from the answer on. *)
Definition startLoad (thenLoading : option bool) (c : Config) : Config :=
  spawn (AwaitQuestions thenLoading) (onWorld (onScreen (setLoading true)) c).

Definition finishLoad (le : LoadEnv) (w : Practice.World) : Practice.World :=
  let w :=
    if fetchFails le then
      alert "Failed to load questions. Please try again."
            (consoleError "Error loading questions:" w)
    else
      let result := Backend.questions_list 5 (db w) in
      if 0 <? Z.of_nat (List.length result) then
        onScreen (setQuestions (shuffle le result)) w
      else alert "No questions available. Please try again later." w in
  onScreen (setLoading false) w.

Definition onAuthStateChanged (stateUser : option AuthUser) (isLoading : bool)
    (c : Config) : Config :=
  match stateUser with
  | Some u => startLoad (Some isLoading) (onWorld (onScreen (setUser (Some u))) c)
  | None => onWorld (onScreen (setLoading isLoading)) c
  end.

(** [submitAnswer] up to its [await]: the answer joins the session list and
    the write is issued; and from the outcome of the write on. *)
Definition startSubmit (now : Z) (c : Config) : Config :=
  let s := screen (world c) in
  match selectedAnswer s, user s with
  | Some sel, Some u =>
      if String.eqb sel EmptyString then c
      else
        match nth_error (questions s) (currentQuestionIndex s) with
        | None => c   (* reading a field of [undefined]: the handler throws *)
        | Some currentQuestion =>
            let isCorrect := String.eqb sel (Backend.correctAnswer currentQuestion) in
            let userAnswer :=
              {| UserAnswer.questionId := Backend.questionKey currentQuestion;
                 UserAnswer.selectedAnswer := sel;
                 UserAnswer.isCorrect := isCorrect |} in
            spawn (AwaitAnswerWrite
                     {| Backend.answerUserId := uid u;
                        Backend.questionId := Backend.questionKey currentQuestion;
                        Backend.selectedOption := sel;
                        Backend.isCorrect := if isCorrect then 1 else 0;
                        Backend.answeredAt := JsDate.toISOString now |})
                  (onWorld (onScreen (fun s => setUserAnswers (userAnswers s ++ [userAnswer]) s))
                           c)
        end
  | _, _ => c
  end.

Definition finishSubmit (row : Backend.AnswerRow) (writeOk : bool)
    (w : Practice.World) : Practice.World :=
  let w :=
    if writeOk then onDb (Backend.userAnswers_create row) w
    else consoleError "Error saving answer:" w in
  onScreen (setShowExplanation true) w.

(** [completeSession] up to [users.list]: the counts are taken from the
    screen as it is when the button is pressed. *)
Definition startComplete (e : SessionEnv) (c : Config) : Config :=
  let s := screen (world c) in
  match user s with
  | None => c
  | Some u =>
      match nth_error (questions s) (currentQuestionIndex s) with
      | None => c   (* reading a field of [undefined]: the handler throws *)
      | Some currentQuestion =>
          spawn (AwaitUserList u (sessionCorrectCount s currentQuestion)
                               (Z.of_nat (List.length (questions s))) (today e))
                c
      end
  end.

Definition nextQuestion (e : SessionEnv) (c : Config) : Config :=
  let s := screen (world c) in
  if Z.of_nat (currentQuestionIndex s) <? Z.of_nat (List.length (questions s)) - 1 then
    onWorld (onScreen (fun s =>
      setShowExplanation false
        (setSelectedAnswer None
           (setCurrentQuestionIndex (currentQuestionIndex s + 1) s)))) c
  else startComplete e c.

Definition restartPractice (c : Config) : Config :=
  startLoad None
    (onWorld (onScreen (fun s =>
       setSessionComplete false
         (setUserAnswers []
            (setShowExplanation false
               (setSelectedAnswer None
                  (setCurrentQuestionIndex 0 s)))))) c).

(** The continuation of a suspended handler, when the backend answers; [e]
    and [le] are what it meets then.  A failed call of [completeSession]
    ends in its [catch]; a write takes effect when it is answered. *)
Definition resume (t : Task) (le : LoadEnv) (ok : bool) (e : SessionEnv)
    (c : Config) : Config :=
  match t with
  | AwaitQuestions thenLoading =>
      onWorld (fun w =>
        let w := finishLoad le w in
        match thenLoading with
        | Some isLoading => onScreen (setLoading isLoading) w
        | None => w
        end) c
  | AwaitAnswerWrite row => onWorld (finishSubmit row ok) c
  | AwaitUserList u correctCount totalQuestions today =>
      if listFails e then onWorld sessionFailed c
      else
        spawn (AwaitUserWrite u correctCount totalQuestions today (yesterdayStr e)
                              (Backend.users_list (uid u) (db (world c))))
              c
  | AwaitUserWrite u correctCount totalQuestions today yesterdayStr existingUsers =>
      if userWriteFails e then onWorld sessionFailed c
      else
        spawn (AwaitSessionWrite
                 {| Backend.sessionUserId := uid u;
                    Backend.sessionDate := today;
                    Backend.questionsAnswered := totalQuestions;
                    Backend.sessionCorrectAnswers := correctCount;
                    Backend.sessionDuration := 0 |})
              (onWorld
                 (match existingUsers with
                  | existingUser :: _ =>
                      onDb (Backend.users_update (uid u)
                              (updatedUser today yesterdayStr
                                           correctCount totalQuestions existingUser))
                  | [] =>
                      onDb (Backend.users_create
                              (createdUser u today correctCount totalQuestions))
                  end) c)
  | AwaitSessionWrite row =>
      if sessionCreateFails e then onWorld sessionFailed c
      else
        onWorld (fun w =>
          onScreen (setSessionComplete true) (onDb (Backend.studySessions_create row) w)) c
  end.

(** What can happen: an event of the screen (the presses carry what the
    part of the handler before its first [await] meets), or the answer of
    the backend to the [i]-th suspended handler. *)
Inductive Event : Type :=
| AuthStateChanged (stateUser : option AuthUser) (isLoading : bool)
| PressOption (key : OptionKey)
| PressSubmit (now : Z)
| PressNext (e : SessionEnv)
| PressPracticeAgain
| PressRetry
| Answered (i : nat) (le : LoadEnv) (ok : bool) (e : SessionEnv).

Definition step (c : Config) (ev : Event) : Config :=
  match ev with
  | AuthStateChanged stateUser isLoading => onAuthStateChanged stateUser isLoading c
  | PressOption key =>
      match render (screen (world c)) with
      | QuestionView _ explained =>
          if explained then c
          else onWorld (onScreen (handleAnswerSelect (keyLabel key))) c
      | _ => c
      end
  | PressSubmit now =>
      match render (screen (world c)) with
      | QuestionView _ explained =>
          if explained || Js.falsy (selectedAnswer (screen (world c))) then c
          else startSubmit now c
      | _ => c
      end
  | PressNext e =>
      match render (screen (world c)) with
      | QuestionView _ explained => if explained then nextQuestion e c else c
      | _ => c
      end
  | PressPracticeAgain =>
      match render (screen (world c)) with
      | ResultsView _ _ _ => restartPractice c
      | _ => c
      end
  | PressRetry =>
      match render (screen (world c)) with
      | NoQuestionsView => startLoad None c
      | _ => c
      end
  | Answered i le ok e =>
      match nth_error (pending c) i with
      | Some t =>
          resume t le ok e
            {| world := world c;
               pending := firstn i (pending c) ++ skipn (S i) (pending c) |}
      | None => c
      end
  end.

Definition run (c : Config) (evs : list Event) : Config := fold_left step evs c.

(** The events of [Practice.step] as events of this screen, with the
    backend answering each handler before anything else happens. *)
Definition sequential (ev : Practice.Event) : list Event :=
  match ev with
  | Practice.AuthStateChanged stateUser isLoading le =>
      [AuthStateChanged stateUser isLoading;
       Answered 0 le true (Sample.sessionAt 0)]
  | Practice.PressOption key => [PressOption key]
  | Practice.PressSubmit now writeOk =>
      [PressSubmit now; Answered 0 Sample.inOrder writeOk (Sample.sessionAt 0)]
  | Practice.PressNext e =>
      [PressNext e; Answered 0 Sample.inOrder true e;
       Answered 0 Sample.inOrder true e; Answered 0 Sample.inOrder true e]
  | Practice.PressPracticeAgain le =>
      [PressPracticeAgain; Answered 0 le true (Sample.sessionAt 0)]
  | Practice.PressRetry le => [PressRetry; Answered 0 le true (Sample.sessionAt 0)]
  end.

End Interleaved.

(** The events whose shuffles keep the number of questions. *)
Definition fairAnswer (ev : Interleaved.Event) : Prop :=
  match ev with
  | Interleaved.Answered _ le _ _ => fairShuffle le
  | _ => True
  end.

(** The current question index points into the questions on screen, which
    are as many as the first five of the catalogue, unless no question was
    loaded yet. *)
Definition worldInRange (catalogue : list Backend.Question) (w : Practice.World) : Prop :=
  let s := Practice.screen w in
  Backend.questions (Practice.db w) = catalogue
  /\ ((Practice.questions s = [] /\ Practice.currentQuestionIndex s = 0%nat)
      \/ (List.length (Practice.questions s) = List.length (firstn 5 catalogue)
          /\ (Practice.currentQuestionIndex s < List.length (Practice.questions s))%nat)).

(** A session in which the submit button is pressed twice on the first
    question before the backend has answered the first write; every other
    handler is answered before the next press.  All options pressed are
    the right ones. *)
Definition doubleSubmit : list Interleaved.Event :=
  [Interleaved.AuthStateChanged (Some Sample.alice) false;
   Interleaved.Answered 0 Sample.inOrder true (Sample.sessionAt Sample.mar01);
   Interleaved.PressOption Practice.KeyA;
   Interleaved.PressSubmit Sample.mar01;
   Interleaved.PressSubmit Sample.mar01;
   Interleaved.Answered 0 Sample.inOrder true (Sample.sessionAt Sample.mar01);
   Interleaved.Answered 0 Sample.inOrder true (Sample.sessionAt Sample.mar01);
   Interleaved.PressNext (Sample.sessionAt Sample.mar01)]
  ++ flat_map Interleaved.sequential
       (Sample.presses Sample.mar01
          [Practice.KeyB; Practice.KeyC; Practice.KeyD; Practice.KeyA]).

(** *** Clocks and sessions near a change of the clocks *)

(** Central European time in the autumn of 2024: two hours ahead of UTC
    until 27 October, 01:00 UTC (03:00 local time), one hour from then on;
    a local time of the repeated hour is taken with the earlier offset. *)
Definition berlin2024 : JsDate.TimeZone :=
  {| JsDate.offsetAtUTC := fun t => if t <? 1729990800000 then 7200000 else 3600000;
     JsDate.offsetAtLocal := fun t => if t <? 1729998000000 then 7200000 else 3600000 |}.

(** A session completed in Berlin on 28 October 2024 at 00:30 UTC (01:30
    local time), with a backend that answers. *)
Definition berlinNight : Practice.SessionEnv :=
  {| Practice.clockToday := 1730075400000;
     Practice.clockYesterday := 1730075400040;
     Practice.zone := berlin2024;
     Practice.listFails := false; Practice.userWriteFails := false;
     Practice.sessionCreateFails := false |}.

(** A user with a streak of 5 who last studied on the date [last], about
    to complete a session (four right answers, then a wrong one) at [t]. *)
Definition lastStudied (last : string) (longest : Z) (t : Z) : Practice.World :=
  Sample.beforeLastPress [Sample.row 5 longest (Some last) 10 7] t Sample.fourOfFive.

(** A wrong answer, then four right ones. *)
Definition firstWrong : list Practice.OptionKey :=
  [Practice.KeyB; Practice.KeyB; Practice.KeyC; Practice.KeyD; Practice.KeyA].

(** The rounds of a session at [t] in which the write of the second answer
    fails. *)
Definition secondUnsaved (t : Z) (keys : list Practice.OptionKey) : list Round :=
  match roundsAt t keys with
  | r1 :: r2 :: rest =>
      r1 :: {| pressed := pressed r2; submittedAt := submittedAt r2; saved := false;
               env := env r2 |} :: rest
  | rounds => rounds
  end.

(** * Properties *)

Import JsDate.

(** ** The calendar *)

Example iso_2024_01_10 :
  JsDate.toISOString 1704888000123 = "2024-01-10T12:00:00.123Z"%string.
Proof. vm_compute. reflexivity. Qed.

Example iso_epoch : JsDate.toISOString 0 = "1970-01-01T00:00:00.000Z"%string.
Proof. vm_compute. reflexivity. Qed.

Example iso_leap : JsDate.toISOString 1709251199999 = "2024-02-29T23:59:59.999Z"%string.
Proof. vm_compute. reflexivity. Qed.

Example iso_before_epoch : JsDate.toISOString (-1) = "1969-12-31T23:59:59.999Z"%string.
Proof. vm_compute. reflexivity. Qed.

Example set_date_utc :
  JsDate.toISOString (JsDate.setDate JsDate.UTCZone 1709294400000 (JsDate.getDate JsDate.UTCZone 1709294400000 - 1))
  = "2024-02-29T12:00:00.000Z"%string.
Proof. vm_compute. reflexivity. Qed.

Lemma Day_lt_iff t n : t < msPerDay * n <-> Day t < n.
Proof. unfold Day, msPerDay. split; intros H; Z.div_mod_to_equations; lia. Qed.

Lemma YearFromTime_spec t :
  DayFromYear (YearFromTime t) <= Day t < DayFromYear (YearFromTime t + 1).
Proof.
  unfold YearFromTime, TimeFromYear.
  set (d := Day t). set (y := 1970 + 400 * d / 146097).
  destruct (Z.ltb_spec t (msPerDay * DayFromYear y)) as [H1|H1].
  - apply Day_lt_iff in H1. fold d in H1.
    unfold DayFromYear in *. subst y.
    Z.div_mod_to_equations; lia.
  - destruct (Z.leb_spec (msPerDay * DayFromYear (y + 1)) t) as [H2|H2].
    + assert (H1' : ~ Day t < DayFromYear y) by (rewrite <- Day_lt_iff; lia).
      assert (H2' : ~ Day t < DayFromYear (y + 1)) by (rewrite <- Day_lt_iff; lia).
      fold d in H1', H2'.
      unfold DayFromYear in *. subst y.
      Z.div_mod_to_equations; lia.
    + assert (H1' : ~ Day t < DayFromYear y) by (rewrite <- Day_lt_iff; lia).
      apply Day_lt_iff in H2. fold d in H1', H2. lia.
Qed.

Lemma DayFromYear_succ y : DayFromYear (y + 1) = DayFromYear y + DaysInYear y.
Proof.
  unfold DayFromYear, DaysInYear.
  destruct (Z.eqb_spec (y mod 4) 0), (Z.eqb_spec (y mod 100) 0),
    (Z.eqb_spec (y mod 400) 0); cbn [negb]; Z.div_mod_to_equations; lia.
Qed.

Lemma DayFromYear_mono a b : a <= b -> DayFromYear a <= DayFromYear b.
Proof. unfold DayFromYear. intros H. Z.div_mod_to_equations; lia. Qed.

Lemma DayFromYear_lt a b : a < b -> DayFromYear a < DayFromYear b.
Proof. unfold DayFromYear. intros H. Z.div_mod_to_equations; lia. Qed.

Lemma YearFromTime_unique t y :
  DayFromYear y <= Day t < DayFromYear (y + 1) -> YearFromTime t = y.
Proof.
  intros H. pose proof (YearFromTime_spec t) as S.
  destruct (Z.lt_trichotomy (YearFromTime t) y) as [L|[E|G]]; [|exact E|].
  - pose proof (DayFromYear_mono (YearFromTime t + 1) y ltac:(lia)). lia.
  - pose proof (DayFromYear_mono (y + 1) (YearFromTime t) ltac:(lia)). lia.
Qed.

Lemma YearFromTime_Day t t' : Day t = Day t' -> YearFromTime t = YearFromTime t'.
Proof.
  intros E. apply YearFromTime_unique. rewrite E. apply YearFromTime_spec.
Qed.

Lemma DaysInYear_cases y : DaysInYear y = 365 \/ DaysInYear y = 366.
Proof.
  unfold DaysInYear.
  destruct (y mod 4 =? 0), (y mod 100 =? 0), (y mod 400 =? 0); simpl; auto.
Qed.

Lemma InLeapYear_days t : DaysInYear (YearFromTime t) = 365 + InLeapYear t.
Proof.
  unfold InLeapYear. destruct (DaysInYear_cases (YearFromTime t)) as [E|E];
    rewrite E; reflexivity.
Qed.

Lemma DayWithinYear_range t : 0 <= DayWithinYear t < 365 + InLeapYear t.
Proof.
  rewrite <- InLeapYear_days. unfold DayWithinYear.
  pose proof (YearFromTime_spec t) as S. rewrite DayFromYear_succ in S. lia.
Qed.

Lemma InLeapYear_cases t : InLeapYear t = 0 \/ InLeapYear t = 1.
Proof. unfold InLeapYear. destruct (_ =? _); auto. Qed.

(** The date is the day within the year, counted from the start of the month. *)
Lemma DateFromTime_monthStart t :
  DateFromTime t = DayWithinYear t - monthStart (MonthFromTime t) (InLeapYear t) + 1.
Proof.
  unfold DateFromTime, MonthFromTime.
  generalize (DayWithinYear t) (InLeapYear t). intros d l.
  repeat match goal with
         | |- context [if ?c then _ else _] => destruct c
         end; cbv beta iota delta [monthStart]; lia.
Qed.

Lemma MonthFromTime_range t : 0 <= MonthFromTime t <= 11.
Proof.
  unfold MonthFromTime.
  repeat match goal with
         | |- context [if ?c then _ else _] => destruct c
         end; lia.
Qed.

Lemma DateFromTime_range t : 1 <= DateFromTime t <= 31.
Proof.
  rewrite DateFromTime_monthStart.
  pose proof (DayWithinYear_range t) as R.
  pose proof (InLeapYear_cases t) as L.
  unfold MonthFromTime.
  generalize dependent (DayWithinYear t). generalize dependent (InLeapYear t).
  intros l L d R.
  repeat match goal with
         | |- context [if ?a <? ?b then _ else _] =>
             destruct (Z.ltb_spec a b)
         end; cbv beta iota delta [monthStart]; lia.
Qed.

Lemma MakeDay_of_time t dt :
  MakeDay (YearFromTime t) (MonthFromTime t) dt = Day t - DateFromTime t + dt.
Proof.
  unfold MakeDay. pose proof (MonthFromTime_range t) as R.
  rewrite Z.div_small, Z.mod_small by lia. rewrite Z.add_0_r.
  fold (InLeapYear t). rewrite DateFromTime_monthStart.
  unfold DayWithinYear. lia.
Qed.

Lemma setDate_previous tz tv :
  offsetAtLocal tz (LocalTime tz tv - msPerDay) = offsetAtUTC tz tv ->
  setDate tz tv (getDate tz tv - 1) = tv - msPerDay.
Proof.
  intros Hoff. unfold setDate, getDate. rewrite MakeDay_of_time.
  set (t := LocalTime tz tv) in *.
  assert (E : MakeDate (Day t - DateFromTime t + (DateFromTime t - 1)) (TimeWithinDay t)
              = t - msPerDay).
  { unfold MakeDate, Day, TimeWithinDay, msPerDay.
    generalize (DateFromTime t). intros. Z.div_mod_to_equations; lia. }
  rewrite E. unfold UTC. rewrite Hoff. unfold t, LocalTime. lia.
Qed.

Lemma Day_previous t : Day (t - msPerDay) = Day t - 1.
Proof. unfold Day, msPerDay. Z.div_mod_to_equations; lia. Qed.

Lemma Day_of_day d : Day (d * msPerDay) = d.
Proof. unfold Day, msPerDay. Z.div_mod_to_equations; lia. Qed.

Lemma DayWithinYear_Day t t' : Day t = Day t' -> DayWithinYear t = DayWithinYear t'.
Proof.
  intros E. unfold DayWithinYear. rewrite E, (YearFromTime_Day t t' E). reflexivity.
Qed.

Lemma InLeapYear_Day t t' : Day t = Day t' -> InLeapYear t = InLeapYear t'.
Proof. intros E. unfold InLeapYear. rewrite (YearFromTime_Day t t' E). reflexivity. Qed.

Lemma MonthFromTime_Day t t' : Day t = Day t' -> MonthFromTime t = MonthFromTime t'.
Proof.
  intros E. unfold MonthFromTime.
  rewrite (DayWithinYear_Day t t' E), (InLeapYear_Day t t' E). reflexivity.
Qed.

Lemma DateFromTime_Day t t' : Day t = Day t' -> DateFromTime t = DateFromTime t'.
Proof.
  intros E. unfold DateFromTime.
  rewrite (DayWithinYear_Day t t' E), (InLeapYear_Day t t' E), (MonthFromTime_Day t t' E).
  reflexivity.
Qed.

Lemma datePart_Day t t' : Day t = Day t' -> datePart t = datePart t'.
Proof.
  intros E. unfold datePart.
  rewrite (YearFromTime_Day t t' E), (MonthFromTime_Day t t' E), (DateFromTime_Day t t' E).
  reflexivity.
Qed.

Lemma lacks_app c s1 s2 : lacks c s1 -> lacks c s2 -> lacks c (s1 ++ s2).
Proof. induction s1; simpl; intuition. Qed.

Lemma splitHead_app c s rest :
  lacks c s -> Js.splitHead c (s ++ String c rest) = s.
Proof.
  induction s as [|a s IH]; simpl.
  - rewrite Ascii.eqb_refl. reflexivity.
  - intros [Ha Hs]. rewrite Ha, IH by assumption. reflexivity.
Qed.

Lemma digit_cases d : 0 <= d < 10 ->
  d = 0 \/ d = 1 \/ d = 2 \/ d = 3 \/ d = 4 \/ d = 5 \/ d = 6 \/ d = 7 \/ d = 8 \/ d = 9.
Proof. lia. Qed.

Lemma digitChar_lacks_T n : Ascii.eqb (Js.digitChar (n mod 10)) "T" = false.
Proof.
  pose proof (Z.mod_pos_bound n 10 ltac:(lia)) as R.
  destruct (digit_cases _ R) as [E|[E|[E|[E|[E|[E|[E|[E|[E|E]]]]]]]]];
    rewrite E; reflexivity.
Qed.

Lemma padDigits_lacks_T w n : lacks "T" (Js.padDigits w n).
Proof.
  revert n. induction w as [|w IH]; intros n; cbn [Js.padDigits lacks]; [exact I|].
  apply lacks_app; [apply IH|]. cbn [lacks].
  split; [apply digitChar_lacks_T | exact I].
Qed.

Lemma datePart_lacks_T t : lacks "T" (datePart t).
Proof.
  unfold datePart.
  apply lacks_app.
  - unfold yearString. destruct (_ && _).
    + apply padDigits_lacks_T.
    + cbn [lacks]. split; [destruct (_ <? _); reflexivity | apply padDigits_lacks_T].
  - cbn [String.append lacks]. split; [reflexivity|].
    apply lacks_app; [apply padDigits_lacks_T|].
    cbn [String.append lacks]. split; [reflexivity | apply padDigits_lacks_T].
Qed.

Lemma isoDate_datePart t : isoDate t = datePart t.
Proof.
  unfold isoDate, toISOString.
  change (datePart t ++ "T" ++ ?r)%string with (datePart t ++ String "T" r)%string.
  apply splitHead_app, datePart_lacks_T.
Qed.

Lemma isoDate_dayString t : isoDate t = dayString (Day t).
Proof.
  unfold dayString. rewrite !isoDate_datePart.
  apply datePart_Day. rewrite Day_of_day. reflexivity.
Qed.

Lemma today_dayString e : Practice.today e = dayString (Day (Practice.clockToday e)).
Proof. apply isoDate_dayString. Qed.

Lemma yesterdayStr_dayString e :
  SteadyClock e ->
  Practice.yesterdayStr e = dayString (Day (Practice.clockToday e) - 1).
Proof.
  intros [Hday Hoff]. unfold Practice.yesterdayStr.
  rewrite setDate_previous by exact Hoff.
  rewrite isoDate_dayString, Day_previous, Hday. reflexivity.
Qed.

(** ** The order of ISO dates *)

(** The order of two strings with prefixes of the same length. *)
Lemma compare_app a b s t :
  String.length a = String.length b ->
  String.compare (a ++ s) (b ++ t)
  = match String.compare a b with Eq => String.compare s t | c => c end.
Proof.
  revert b. induction a as [|x a IH]; intros [|y b] H; try discriminate.
  - reflexivity.
  - cbn [String.append String.compare]. injection H as H.
    destruct (Ascii.compare x y); [apply IH; exact H | reflexivity | reflexivity].
Qed.

Lemma length_append a b :
  String.length (a ++ b) = (String.length a + String.length b)%nat.
Proof. induction a as [|x a IH]; cbn [String.append String.length]; [reflexivity | rewrite IH; reflexivity]. Qed.

Lemma padDigits_length w n : String.length (Js.padDigits w n) = w.
Proof.
  revert n. induction w as [|w IH]; intros n; cbn [Js.padDigits]; [reflexivity|].
  rewrite length_append, IH. cbn [String.length]. lia.
Qed.

Lemma digitChar_compare x y :
  0 <= x < 10 -> 0 <= y < 10 ->
  Ascii.compare (Js.digitChar x) (Js.digitChar y) = (x ?= y).
Proof.
  intros Hx Hy.
  destruct (digit_cases _ Hx) as [E|[E|[E|[E|[E|[E|[E|[E|[E|E]]]]]]]]];
    destruct (digit_cases _ Hy) as [F|[F|[F|[F|[F|[F|[F|[F|[F|F]]]]]]]]];
    rewrite E, F; reflexivity.
Qed.

Lemma compare_by_digits a b :
  (a ?= b) = match (a / 10 ?= b / 10) with
             | Eq => (a mod 10 ?= b mod 10)
             | c => c
             end.
Proof.
  destruct (Z.compare_spec (a / 10) (b / 10)) as [E|L|G];
    destruct (Z.compare_spec (a mod 10) (b mod 10)) as [E'|L'|G'];
    first [apply Z.compare_eq_iff | apply Z.compare_lt_iff | apply Z.compare_gt_iff];
    Z.div_mod_to_equations; lia.
Qed.

(** Numbers written with the same number of digits are ordered as their
    digit strings. *)
Lemma padDigits_compare w a b :
  0 <= a < 10 ^ Z.of_nat w -> 0 <= b < 10 ^ Z.of_nat w ->
  String.compare (Js.padDigits w a) (Js.padDigits w b) = (a ?= b).
Proof.
  revert a b. induction w as [|w IH]; intros a b Ha Hb.
  - cbn [Js.padDigits String.compare]. change (10 ^ Z.of_nat 0) with 1 in *.
    symmetry. apply Z.compare_eq_iff. lia.
  - cbn [Js.padDigits]. rewrite compare_app by (rewrite !padDigits_length; reflexivity).
    rewrite Nat2Z.inj_succ, Z.pow_succ_r in Ha, Hb by lia.
    rewrite IH by (Z.div_mod_to_equations; lia).
    rewrite (compare_by_digits a b).
    destruct (a / 10 ?= b / 10); try reflexivity.
    cbn [String.compare].
    rewrite digitChar_compare by (apply Z.mod_pos_bound; lia).
    destruct (a mod 10 ?= b mod 10); reflexivity.
Qed.

Lemma fourDigitYear_year t :
  fourDigitYear (Day t) -> 0 <= YearFromTime t <= 9999.
Proof.
  unfold fourDigitYear. intros R. pose proof (YearFromTime_spec t) as S.
  split.
  - destruct (Z.le_gt_cases 0 (YearFromTime t)) as [|L]; [assumption|].
    pose proof (DayFromYear_mono (YearFromTime t + 1) 0 ltac:(lia)). lia.
  - destruct (Z.le_gt_cases (YearFromTime t) 9999) as [|G]; [assumption|].
    pose proof (DayFromYear_mono 10000 (YearFromTime t) ltac:(lia)). lia.
Qed.

Lemma YearFromTime_mono t t' : Day t <= Day t' -> YearFromTime t <= YearFromTime t'.
Proof.
  intros H. pose proof (YearFromTime_spec t) as S. pose proof (YearFromTime_spec t') as S'.
  destruct (Z.le_gt_cases (YearFromTime t) (YearFromTime t')) as [|G]; [assumption|].
  pose proof (DayFromYear_mono (YearFromTime t' + 1) (YearFromTime t) ltac:(lia)). lia.
Qed.

(** Within a year, months and dates grow with the day. *)
Lemma month_date_mono t t' :
  YearFromTime t = YearFromTime t' -> Day t < Day t' ->
  MonthFromTime t < MonthFromTime t'
  \/ (MonthFromTime t = MonthFromTime t' /\ DateFromTime t < DateFromTime t').
Proof.
  intros Hy Hd.
  assert (Hl : InLeapYear t = InLeapYear t') by (unfold InLeapYear; rewrite Hy; reflexivity).
  assert (Hw : DayWithinYear t < DayWithinYear t') by (unfold DayWithinYear; rewrite Hy; lia).
  rewrite !DateFromTime_monthStart. unfold MonthFromTime. rewrite <- Hl.
  pose proof (InLeapYear_cases t) as L.
  revert Hw L. generalize (DayWithinYear t) (DayWithinYear t') (InLeapYear t).
  intros d d' l Hw L.
  repeat match goal with
         | |- context [if ?a <? ?b then _ else _] => destruct (Z.ltb_spec a b)
         end; cbv beta iota delta [monthStart]; lia.
Qed.

Lemma datePart_fourDigit t :
  fourDigitYear (Day t) ->
  datePart t = (Js.padDigits 4 (YearFromTime t)
                ++ String "-" (Js.padDigits 2 (MonthFromTime t + 1)
                ++ String "-" (Js.padDigits 2 (DateFromTime t))))%string.
Proof.
  intros R. apply fourDigitYear_year in R. unfold datePart, yearString.
  destruct (Z.leb_spec 0 (YearFromTime t)); [|lia].
  destruct (Z.leb_spec (YearFromTime t) 9999); [|lia].
  reflexivity.
Qed.

(** In the years 0000 to 9999 the ISO dates are ordered as the days. *)
Lemma datePart_lt t t' :
  fourDigitYear (Day t) -> fourDigitYear (Day t') -> Day t < Day t' ->
  String.ltb (datePart t) (datePart t') = true.
Proof.
  intros R R' Hd. rewrite (datePart_fourDigit t R), (datePart_fourDigit t' R').
  pose proof (fourDigitYear_year t R) as Y. pose proof (fourDigitYear_year t' R') as Y'.
  pose proof (MonthFromTime_range t) as M. pose proof (MonthFromTime_range t') as M'.
  pose proof (DateFromTime_range t) as D. pose proof (DateFromTime_range t') as D'.
  pose proof (YearFromTime_mono t t' ltac:(lia)) as Hy.
  unfold String.ltb.
  rewrite compare_app by (rewrite !padDigits_length; reflexivity).
  rewrite padDigits_compare by (change (10 ^ Z.of_nat 4) with 10000; lia).
  destruct (Z.compare_spec (YearFromTime t) (YearFromTime t')) as [E|L|G];
    [|reflexivity|lia].
  cbn [String.compare]. change (Ascii.compare "-" "-") with Eq. cbv iota.
  rewrite compare_app by (rewrite !padDigits_length; reflexivity).
  rewrite padDigits_compare by (change (10 ^ Z.of_nat 2) with 100; lia).
  destruct (month_date_mono t t' E Hd) as [Hm | [Hm Hdate]].
  - destruct (Z.compare_spec (MonthFromTime t + 1) (MonthFromTime t' + 1)); [lia|reflexivity|lia].
  - rewrite Hm, Z.compare_refl.
    cbn [String.compare]. change (Ascii.compare "-" "-") with Eq. cbv iota.
    rewrite padDigits_compare by (change (10 ^ Z.of_nat 2) with 100; lia).
    destruct (Z.compare_spec (DateFromTime t) (DateFromTime t')); [lia|reflexivity|lia].
Qed.

Lemma fourDigitYear_of_day d : fourDigitYear d -> fourDigitYear (Day (d * msPerDay)).
Proof. rewrite Day_of_day. auto. Qed.

Lemma dayString_lt d d' :
  fourDigitYear d -> fourDigitYear d' -> d < d' ->
  String.ltb (dayString d) (dayString d') = true.
Proof.
  intros R R' H. unfold dayString. rewrite !isoDate_datePart.
  apply datePart_lt; rewrite ?Day_of_day; assumption.
Qed.

Lemma ltb_irrefl s : String.ltb s s = false.
Proof.
  unfold String.ltb.
  pose proof (String.compare_antisym s s) as A.
  destruct (String.compare s s); simpl in A; try discriminate; reflexivity.
Qed.

Lemma dayString_neq d d' :
  fourDigitYear d -> fourDigitYear d' -> d < d' -> dayString d <> dayString d'.
Proof.
  intros R R' H E. pose proof (dayString_lt d d' R R' H) as L.
  rewrite E, ltb_irrefl in L. discriminate.
Qed.

Lemma dayString_nonempty d : dayString d <> EmptyString.
Proof.
  unfold dayString. rewrite isoDate_datePart. unfold datePart. intros E.
  apply (f_equal String.length) in E.
  rewrite length_append in E. cbn [String.append String.length] in E. lia.
Qed.

(** ** The record collections *)

Section UsersTable.
Variable uid : string.

Lemma users_list_update (fields : Backend.UserRow -> Backend.UserRow) (db : Backend.Db) :
  (forall r, Backend.id (fields r) = Backend.id r) ->
  Backend.users_list uid (Backend.users_update uid fields db)
  = map fields (Backend.users_list uid db).
Proof.
  intros Hid. unfold Backend.users_list, Backend.users_update. simpl.
  induction (Backend.users db) as [|r l IH]; simpl; [reflexivity|].
  destruct (String.eqb (Backend.id r) uid) eqn:E; simpl.
  - rewrite Hid, E. simpl. reflexivity.
  - rewrite E. exact IH.
Qed.

Lemma users_list_nil (db : Backend.Db) :
  Backend.users_list uid db = [] ->
  filter (fun r => String.eqb (Backend.id r) uid) (Backend.users db) = [].
Proof.
  unfold Backend.users_list.
  destruct (filter _ (Backend.users db)); simpl; [reflexivity | discriminate].
Qed.

Lemma users_list_create (row : Backend.UserRow) (db : Backend.Db) :
  Backend.id row = uid ->
  Backend.users_list uid db = [] ->
  Backend.users_list uid (Backend.users_create row db) = [row].
Proof.
  intros Hid Hnil. apply users_list_nil in Hnil.
  unfold Backend.users_list, Backend.users_create. simpl.
  rewrite filter_app, Hnil. simpl.
  rewrite Hid, String.eqb_refl. reflexivity.
Qed.
End UsersTable.

(** ** What [completeSession] writes *)

Lemma completeSession_record e w u q :
  Completes e w u q ->
  recordOf u (Practice.completeSession e w)
  = match recordOf u w with
    | existingUser :: _ =>
        [Practice.updatedUser (Practice.today e) (Practice.yesterdayStr e)
           (mergedCorrect w q) (mergedTotal w) existingUser existingUser]
    | [] => [Practice.createdUser u (Practice.today e) (mergedCorrect w q) (mergedTotal w)]
    end.
Proof.
  intros (Hu & Hq & Hl & Hw).
  assert (Hsess : forall row d,
             Backend.users_list (Practice.uid u) (Backend.studySessions_create row d)
             = Backend.users_list (Practice.uid u) d) by reflexivity.
  unfold recordOf, Practice.completeSession. rewrite Hu, Hq, Hl, Hw.
  fold (mergedCorrect w q). fold (mergedTotal w).
  destruct (Backend.users_list (Practice.uid u) (Practice.db w)) as [|r l] eqn:E.
  - destruct (Practice.sessionCreateFails e);
      cbn [Practice.db Practice.onDb Practice.onScreen Practice.sessionFailed
           Practice.alert Practice.consoleError];
      rewrite ?Hsess; apply users_list_create; auto.
  - assert (Hl1 : l = []).
    { unfold Backend.users_list in E.
      destruct (filter _ (Backend.users (Practice.db w))) as [|a [|b t]];
        simpl in E; inversion E; reflexivity. }
    subst l.
    destruct (Practice.sessionCreateFails e);
      cbn [Practice.db Practice.onDb Practice.onScreen Practice.sessionFailed
           Practice.alert Practice.consoleError];
      rewrite ?Hsess; rewrite users_list_update by reflexivity;
      rewrite E; reflexivity.
Qed.

(** ** Percentages in double precision *)

Lemma In_upto (n : nat) (z : Z) : 0 <= z <= Z.of_nat n -> In z (upto n).
Proof.
  intros H. unfold upto. apply in_map_iff. exists (Z.to_nat z). split.
  - lia.
  - apply in_seq. lia.
Qed.

Lemma percentTable_sound expected n c t :
  percentTable expected n = true ->
  0 <= c <= t -> 0 < t <= Z.of_nat n ->
  Js.percentOf c t = Js.RInt (expected c t).
Proof.
  intros Htab Hc Ht. unfold percentTable in Htab.
  rewrite forallb_forall in Htab.
  specialize (Htab t (In_upto n t ltac:(lia))).
  apply orb_true_iff in Htab. destruct Htab as [Hz | Hrow].
  - apply Z.eqb_eq in Hz. lia.
  - rewrite forallb_forall in Hrow.
    assert (Hin : In c (upto (Z.to_nat t))) by (apply In_upto; lia).
    specialize (Hrow c Hin).
    unfold percentAgrees in Hrow.
    destruct (Js.percentOf c t); try discriminate.
    apply Z.eqb_eq in Hrow. congruence.
Qed.

Lemma percentOf_exact_below_40 c t :
  0 <= c <= t -> 0 < t <= 39 ->
  Js.percentOf c t = Js.RInt (roundHalfUp (100 * c) t).
Proof.
  apply (percentTable_sound (fun c t => roundHalfUp (100 * c) t) 39).
  vm_compute. reflexivity.
Qed.

Lemma percentOf_upto_100 c t :
  0 <= c <= t -> 0 < t <= 100 ->
  Js.percentOf c t = Js.RInt (expectedPercent c t).
Proof.
  apply (percentTable_sound expectedPercent 100).
  vm_compute. reflexivity.
Qed.


(** ** The streak accumulator *)

Lemma yesterdayStr_nonempty e : Practice.yesterdayStr e <> EmptyString.
Proof.
  unfold Practice.yesterdayStr. rewrite isoDate_dayString. apply dayString_nonempty.
Qed.

Lemma today_nonempty e : Practice.today e <> EmptyString.
Proof. rewrite today_dayString. apply dayString_nonempty. Qed.

Lemma fourDigitYear_between a b c :
  fourDigitYear a -> fourDigitYear c -> a <= b <= c -> fourDigitYear b.
Proof. unfold fourDigitYear. lia. Qed.

(** The four branches of the streak computation. *)
Lemma newStreak_today today yesterdayStr r :
  Backend.lastStudyDate r = Some today ->
  Practice.newStreak today yesterdayStr r = Backend.currentStreak r.
Proof.
  intros E. unfold Practice.newStreak. rewrite E. cbn [Js.strictEq].
  rewrite String.eqb_refl. reflexivity.
Qed.

Lemma newStreak_yesterday today yesterdayStr r :
  Backend.lastStudyDate r = Some yesterdayStr -> yesterdayStr <> today ->
  Practice.newStreak today yesterdayStr r = Backend.currentStreak r + 1.
Proof.
  intros E N. unfold Practice.newStreak. rewrite E. cbn [Js.strictEq].
  apply String.eqb_neq in N. rewrite N, String.eqb_refl. reflexivity.
Qed.

Lemma newStreak_unset today yesterdayStr r :
  Unset (Backend.lastStudyDate r) ->
  today <> EmptyString -> yesterdayStr <> EmptyString ->
  Practice.newStreak today yesterdayStr r = 1.
Proof.
  unfold Unset, Practice.newStreak. intros U Nt Ny.
  destruct (Backend.lastStudyDate r) as [s|]; cbn [Js.falsy Js.strictEq] in *.
  - apply String.eqb_eq in U. subst s.
    apply not_eq_sym, String.eqb_neq in Nt. apply not_eq_sym, String.eqb_neq in Ny.
    rewrite Nt, Ny. reflexivity.
  - reflexivity.
Qed.

Lemma newStreak_earlier today yesterdayStr r s :
  Backend.lastStudyDate r = Some s ->
  s <> today -> String.ltb s yesterdayStr = true ->
  Practice.newStreak today yesterdayStr r = 1.
Proof.
  intros E Nt L. unfold Practice.newStreak. rewrite E. cbn [Js.strictEq Js.lessThan Js.falsy].
  apply String.eqb_neq in Nt. rewrite Nt.
  destruct (String.eqb_spec s yesterdayStr) as [->|_].
  - rewrite ltb_irrefl in L. discriminate.
  - rewrite L, orb_true_r. reflexivity.
Qed.


Lemma fourDigitYear_range d : fourDigitYear d <-> -719528 <= d < 2932897.
Proof. unfold fourDigitYear. reflexivity. Qed.

Lemma sample_days :
  dayString 19727 = "2024-01-05"%string /\ dayString 19731 = "2024-01-09"%string
  /\ dayString 19732 = "2024-01-10"%string /\ dayString 19783 = "2024-03-01"%string.
Proof. vm_compute. repeat split; reflexivity. Qed.

Lemma sample_clock t : SteadyClock (Sample.sessionAt t) <-> Day (t + 40) = Day t.
Proof.
  unfold SteadyClock, Sample.sessionAt, UTCZone, fixedOffset.
  cbn [Practice.clockToday Practice.clockYesterday Practice.zone offsetAtLocal offsetAtUTC].
  tauto.
Qed.

(** Without a steady clock the day the code takes for yesterday need not be
    the day before today: readings on either side of midnight give the
    same date twice. *)
Remark yesterdayStr_across_midnight :
  ~ SteadyClock Sample.acrossMidnight
  /\ Practice.today Sample.acrossMidnight = "2024-01-10"%string
  /\ Practice.yesterdayStr Sample.acrossMidnight = "2024-01-10"%string.
Proof.
  split; [|vm_compute; split; reflexivity].
  intros [Hday _]. vm_compute in Hday. discriminate.
Qed.

(** Where [completeSession] finds a record, the streak computation alone
    decides the new streak; the other fields do not depend on the branch. *)
Lemma completeSession_update e w u q existingUser rest :
  Completes e w u q ->
  recordOf u w = existingUser :: rest ->
  exists r,
    recordOf u (Practice.completeSession e w) = [r]
    /\ Backend.currentStreak r
       = Practice.newStreak (Practice.today e) (Practice.yesterdayStr e) existingUser
    /\ Backend.longestStreak r
       = Z.max (Backend.longestStreak existingUser) (Backend.currentStreak r)
    /\ Backend.lastStudyDate r = Some (dayString (Day (Practice.clockToday e)))
    /\ Backend.totalQuestionsAnswered r
       = Backend.totalQuestionsAnswered existingUser + mergedTotal w
    /\ Backend.correctAnswers r
       = Backend.correctAnswers existingUser + mergedCorrect w q.
Proof.
  intros H Hprior.
  rewrite (completeSession_record e w u q H), Hprior.
  eexists. split; [reflexivity|].
  cbn [Practice.updatedUser Backend.currentStreak Backend.longestStreak
       Backend.lastStudyDate Backend.totalQuestionsAnswered Backend.correctAnswers].
  rewrite today_dayString. repeat split; reflexivity.
Qed.

Lemma completeSession_create e w u q :
  Completes e w u q ->
  recordOf u w = [] ->
  exists r,
    recordOf u (Practice.completeSession e w) = [r]
    /\ Backend.currentStreak r = 1
    /\ Backend.longestStreak r = 1
    /\ Backend.lastStudyDate r = Some (dayString (Day (Practice.clockToday e)))
    /\ Backend.totalQuestionsAnswered r = mergedTotal w
    /\ Backend.correctAnswers r = mergedCorrect w q.
Proof.
  intros H Hprior.
  rewrite (completeSession_record e w u q H), Hprior.
  eexists. split; [reflexivity|].
  cbn [Practice.createdUser Backend.currentStreak Backend.longestStreak
       Backend.lastStudyDate Backend.totalQuestionsAnswered Backend.correctAnswers].
  rewrite today_dayString. repeat split; reflexivity.
Qed.

(** The branch taken for a record dated the day before today. *)
Lemma newStreak_day_before e existingUser :
  SteadyClock e ->
  fourDigitYear (Day (Practice.clockToday e) - 1) ->
  fourDigitYear (Day (Practice.clockToday e)) ->
  Backend.lastStudyDate existingUser
  = Some (dayString (Day (Practice.clockToday e) - 1)) ->
  Practice.newStreak (Practice.today e) (Practice.yesterdayStr e) existingUser
  = Backend.currentStreak existingUser + 1.
Proof.
  intros Hclock Ry Rt Hlast.
  rewrite <- (yesterdayStr_dayString e Hclock) in Hlast.
  apply newStreak_yesterday; [exact Hlast|].
  rewrite (yesterdayStr_dayString e Hclock), today_dayString.
  apply dayString_neq; [assumption | assumption | lia].
Qed.

(** The branch taken for a record that is unset or dated before
    yesterday. *)
Lemma newStreak_missed e existingUser :
  Unset (Backend.lastStudyDate existingUser)
  \/ EarlierThanYesterday e (Backend.lastStudyDate existingUser) ->
  Practice.newStreak (Practice.today e) (Practice.yesterdayStr e) existingUser = 1.
Proof.
  intros [U | (Hclock & Rt & d & Hlast & Rd & Hlt)].
  - apply newStreak_unset; [exact U | apply today_nonempty | apply yesterdayStr_nonempty].
  - apply (newStreak_earlier _ _ _ _ Hlast).
    + rewrite today_dayString. apply dayString_neq; [assumption | assumption | lia].
    + rewrite (yesterdayStr_dayString e Hclock).
      apply dayString_lt; [assumption | | lia].
      apply (fourDigitYear_between d _ (Day (Practice.clockToday e)));
        try assumption; lia.
Qed.

(** C3.  Whatever the prior record of the user (none included), the record
    a completed session leaves has [longestStreak >= currentStreak]: the
    update writes [max(previous longestStreak, new currentStreak)] next to
    the new streak, the creation writes 1 and 1. *)
Theorem longestStreak_covers_currentStreak e w u q :
  Completes e w u q ->
  exists r,
    recordOf u (Practice.completeSession e w) = [r]
    /\ Backend.longestStreak r >= Backend.currentStreak r
    /\ (forall existingUser rest, recordOf u w = existingUser :: rest ->
          Backend.longestStreak r
          = Z.max (Backend.longestStreak existingUser) (Backend.currentStreak r)).
Proof.
  intros H. destruct (recordOf u w) as [|existingUser rest] eqn:Hprior.
  - destruct (completeSession_create e w u q H Hprior) as (r & Hr & Hs & Hl & _).
    exists r. split; [exact Hr|]. split; [lia | discriminate].
  - destruct (completeSession_update e w u q _ _ H Hprior) as (r & Hr & _ & Hl & _).
    exists r. split; [exact Hr|]. split; [lia|].
    intros x l [= <- <-]. exact Hl.
Qed.

Lemma longestStreak_covers_currentStreak_witness :
  Completes (Sample.sessionAt Sample.jan10) Sample.returning Sample.alice Sample.q5
  /\ exists r,
       recordOf Sample.alice
         (Practice.completeSession (Sample.sessionAt Sample.jan10) Sample.returning) = [r]
       /\ Backend.longestStreak r >= Backend.currentStreak r.
Proof.
  assert (H : Completes (Sample.sessionAt Sample.jan10) Sample.returning
                Sample.alice Sample.q5)
    by (vm_compute; repeat split; reflexivity).
  split; [exact H|].
  destruct (longestStreak_covers_currentStreak _ _ _ _ H) as (r & Hr & Hge & _).
  exists r. split; [exact Hr | exact Hge].
Defined.

(** The branch of a record whose [lastStudyDate] is today: a completed
    session leaves [currentStreak] as it was and adds the [totalQuestions]
    and the [correctCount] that [completeSession] computes to the totals; a
    second session completed the same day, starting from the record the
    first one left, again leaves the streak as it was and adds the counts
    computed for it. *)
Lemma same_day_session_keeps_streak e w u q existingUser rest :
  Completes e w u q ->
  recordOf u w = existingUser :: rest ->
  Backend.lastStudyDate existingUser = Some (dayString (Day (Practice.clockToday e))) ->
  exists r,
    recordOf u (Practice.completeSession e w) = [r]
    /\ Backend.currentStreak r = Backend.currentStreak existingUser
    /\ Backend.totalQuestionsAnswered r
       = Backend.totalQuestionsAnswered existingUser + mergedTotal w
    /\ Backend.correctAnswers r
       = Backend.correctAnswers existingUser + mergedCorrect w q
    /\ Backend.lastStudyDate r = Backend.lastStudyDate existingUser
    /\ forall e' w' q',
         Completes e' w' u q' ->
         Day (Practice.clockToday e') = Day (Practice.clockToday e) ->
         recordOf u w' = recordOf u (Practice.completeSession e w) ->
         exists r',
           recordOf u (Practice.completeSession e' w') = [r']
           /\ Backend.currentStreak r' = Backend.currentStreak existingUser
           /\ Backend.totalQuestionsAnswered r'
              = Backend.totalQuestionsAnswered existingUser
                + mergedTotal w + mergedTotal w'
           /\ Backend.correctAnswers r'
              = Backend.correctAnswers existingUser
                + mergedCorrect w q + mergedCorrect w' q'.
Proof.
  intros H Hprior Hlast.
  destruct (completeSession_update e w u q _ _ H Hprior)
    as (r & Hr & Hs & _ & Hd & Ht & Hc).
  rewrite newStreak_today in Hs by (rewrite today_dayString; exact Hlast).
  exists r. repeat (split; [congruence|]).
  intros e' w' q' H' Hday Hprior'. rewrite Hr in Hprior'.
  destruct (completeSession_update e' w' u q' _ _ H' Hprior')
    as (r' & Hr' & Hs' & _ & _ & Ht' & Hc').
  rewrite newStreak_today in Hs'
    by (rewrite today_dayString, Hday; exact Hd).
  exists r'. split; [exact Hr'|]. repeat split; lia.
Qed.

Lemma same_day_session_keeps_streak_witness :
  exists r',
    recordOf Sample.alice
      (Practice.completeSession (Sample.sessionAt (Sample.jan10 + 3600000)) Sample.sameDayAgain)
    = [r']
    /\ Backend.currentStreak r' = 5
    /\ Backend.totalQuestionsAnswered r' = 10 + 5 + 5.
Proof.
  assert (H : Completes (Sample.sessionAt Sample.jan10) Sample.sameDay Sample.alice Sample.q5)
    by (vm_compute; repeat split; reflexivity).
  assert (Hprior : recordOf Sample.alice Sample.sameDay
                   = [Sample.row 5 5 (Some "2024-01-10"%string) 10 7])
    by (vm_compute; reflexivity).
  assert (Hlast : Backend.lastStudyDate (Sample.row 5 5 (Some "2024-01-10"%string) 10 7)
                  = Some (dayString (Day (Practice.clockToday (Sample.sessionAt Sample.jan10)))))
    by (vm_compute; reflexivity).
  destruct (same_day_session_keeps_streak _ _ _ _ _ _ H Hprior Hlast)
    as (r & Hr & _ & _ & _ & _ & Hagain).
  assert (H' : Completes (Sample.sessionAt (Sample.jan10 + 3600000)) Sample.sameDayAgain
                 Sample.alice Sample.q5)
    by (vm_compute; repeat split; reflexivity).
  assert (Hday : Day (Practice.clockToday (Sample.sessionAt (Sample.jan10 + 3600000)))
                 = Day (Practice.clockToday (Sample.sessionAt Sample.jan10)))
    by (vm_compute; reflexivity).
  assert (Hprior' : recordOf Sample.alice Sample.sameDayAgain
                    = recordOf Sample.alice
                        (Practice.completeSession (Sample.sessionAt Sample.jan10) Sample.sameDay))
    by (vm_compute; reflexivity).
  destruct (Hagain _ _ _ H' Hday Hprior') as (r' & Hr' & Hs' & Ht' & _).
  exists r'. split; [exact Hr'|]. split; [exact Hs' | exact Ht'].
Defined.

(** With a steady clock: for a prior record whose [lastStudyDate] is the day before today,
    a completed session sets [currentStreak] to the previous value plus one
    and [longestStreak] to the maximum of its previous value and the new
    streak.  In particular the record [{currentStreak: 5, longestStreak: 5,
    lastStudyDate: "2024-01-09"}] becomes [{currentStreak: 6,
    longestStreak: 6, lastStudyDate: "2024-01-10"}] on 10 January 2024
    (day 19732).  The clock is steady and the years have four digits. *)
Lemma studied_yesterday_extends_streak :
  (forall e w u q existingUser rest,
     Completes e w u q ->
     SteadyClock e ->
     fourDigitYear (Day (Practice.clockToday e) - 1) ->
     fourDigitYear (Day (Practice.clockToday e)) ->
     recordOf u w = existingUser :: rest ->
     Backend.lastStudyDate existingUser
     = Some (dayString (Day (Practice.clockToday e) - 1)) ->
     exists r,
       recordOf u (Practice.completeSession e w) = [r]
       /\ Backend.currentStreak r = Backend.currentStreak existingUser + 1
       /\ Backend.longestStreak r
          = Z.max (Backend.longestStreak existingUser) (Backend.currentStreak r)
       /\ Backend.lastStudyDate r = Some (dayString (Day (Practice.clockToday e))))
  /\ (forall e w u q existingUser rest,
        Completes e w u q ->
        SteadyClock e ->
        Day (Practice.clockToday e) = 19732 ->
        recordOf u w = existingUser :: rest ->
        Backend.currentStreak existingUser = 5 ->
        Backend.longestStreak existingUser = 5 ->
        Backend.lastStudyDate existingUser = Some "2024-01-09"%string ->
        exists r,
          recordOf u (Practice.completeSession e w) = [r]
          /\ Backend.currentStreak r = 6
          /\ Backend.longestStreak r = 6
          /\ Backend.lastStudyDate r = Some "2024-01-10"%string).
Proof.
  assert (General : forall e w u q existingUser rest,
     Completes e w u q ->
     SteadyClock e ->
     fourDigitYear (Day (Practice.clockToday e) - 1) ->
     fourDigitYear (Day (Practice.clockToday e)) ->
     recordOf u w = existingUser :: rest ->
     Backend.lastStudyDate existingUser
     = Some (dayString (Day (Practice.clockToday e) - 1)) ->
     exists r,
       recordOf u (Practice.completeSession e w) = [r]
       /\ Backend.currentStreak r = Backend.currentStreak existingUser + 1
       /\ Backend.longestStreak r
          = Z.max (Backend.longestStreak existingUser) (Backend.currentStreak r)
       /\ Backend.lastStudyDate r = Some (dayString (Day (Practice.clockToday e)))).
  { intros e w u q existingUser rest H Hclock Ry Rt Hprior Hlast.
    destruct (completeSession_update e w u q _ _ H Hprior)
      as (r & Hr & Hs & Hl & Hd & _).
    rewrite (newStreak_day_before e existingUser Hclock Ry Rt Hlast) in Hs.
    exists r. repeat split; assumption. }
  split; [exact General|].
  intros e w u q existingUser rest H Hclock Hday Hprior Hs Hl Hlast.
  destruct sample_days as (_ & D9 & D10 & _).
  assert (Hlast' : Backend.lastStudyDate existingUser
                   = Some (dayString (Day (Practice.clockToday e) - 1))).
  { rewrite Hday, Hlast. change (19732 - 1) with 19731. rewrite D9. reflexivity. }
  assert (Ry : fourDigitYear (Day (Practice.clockToday e) - 1))
    by (rewrite Hday; apply fourDigitYear_range; lia).
  assert (Rt : fourDigitYear (Day (Practice.clockToday e)))
    by (rewrite Hday; apply fourDigitYear_range; lia).
  destruct (General e w u q existingUser rest H Hclock Ry Rt Hprior Hlast')
    as (r & Hr & Hs' & Hl' & Hd').
  exists r. rewrite Hday, D10 in Hd'. repeat split; try assumption; lia.
Qed.

Lemma studied_yesterday_extends_streak_witness :
  exists r,
    recordOf Sample.alice
      (Practice.completeSession (Sample.sessionAt Sample.jan10) Sample.returning) = [r]
    /\ Backend.currentStreak r = 6
    /\ Backend.longestStreak r = 6
    /\ Backend.lastStudyDate r = Some "2024-01-10"%string.
Proof.
  assert (H : Completes (Sample.sessionAt Sample.jan10) Sample.returning Sample.alice Sample.q5)
    by (vm_compute; repeat split; reflexivity).
  assert (Hclock : SteadyClock (Sample.sessionAt Sample.jan10))
    by (apply sample_clock; vm_compute; reflexivity).
  assert (Hday : Day (Practice.clockToday (Sample.sessionAt Sample.jan10)) = 19732)
    by (vm_compute; reflexivity).
  assert (Hprior : recordOf Sample.alice Sample.returning
                   = [Sample.row 5 5 (Some "2024-01-09"%string) 10 7])
    by (vm_compute; reflexivity).
  exact (proj2 studied_yesterday_extends_streak _ _ _ _ _ _
           H Hclock Hday Hprior eq_refl eq_refl eq_refl).
Defined.

(** With a steady clock: for a prior record whose [lastStudyDate] is unset, or strictly
    earlier than the day before today, a completed session resets
    [currentStreak] to 1, keeps the previous [longestStreak] (as its
    maximum with 1) and sets [lastStudyDate] to today.  In particular the
    record [{currentStreak: 5, longestStreak: 8, lastStudyDate:
    "2024-01-05"}] becomes [{currentStreak: 1, longestStreak: 8,
    lastStudyDate: "2024-01-10"}] on 10 January 2024. *)
Lemma missed_days_reset_streak :
  (forall e w u q existingUser rest,
     Completes e w u q ->
     recordOf u w = existingUser :: rest ->
     Unset (Backend.lastStudyDate existingUser)
     \/ EarlierThanYesterday e (Backend.lastStudyDate existingUser) ->
     exists r,
       recordOf u (Practice.completeSession e w) = [r]
       /\ Backend.currentStreak r = 1
       /\ Backend.longestStreak r = Z.max (Backend.longestStreak existingUser) 1
       /\ Backend.lastStudyDate r = Some (dayString (Day (Practice.clockToday e))))
  /\ (forall e w u q existingUser rest,
        Completes e w u q ->
        SteadyClock e ->
        Day (Practice.clockToday e) = 19732 ->
        recordOf u w = existingUser :: rest ->
        Backend.currentStreak existingUser = 5 ->
        Backend.longestStreak existingUser = 8 ->
        Backend.lastStudyDate existingUser = Some "2024-01-05"%string ->
        exists r,
          recordOf u (Practice.completeSession e w) = [r]
          /\ Backend.currentStreak r = 1
          /\ Backend.longestStreak r = 8
          /\ Backend.lastStudyDate r = Some "2024-01-10"%string).
Proof.
  assert (General : forall e w u q existingUser rest,
     Completes e w u q ->
     recordOf u w = existingUser :: rest ->
     Unset (Backend.lastStudyDate existingUser)
     \/ EarlierThanYesterday e (Backend.lastStudyDate existingUser) ->
     exists r,
       recordOf u (Practice.completeSession e w) = [r]
       /\ Backend.currentStreak r = 1
       /\ Backend.longestStreak r = Z.max (Backend.longestStreak existingUser) 1
       /\ Backend.lastStudyDate r = Some (dayString (Day (Practice.clockToday e)))).
  { intros e w u q existingUser rest H Hprior Hcase.
    destruct (completeSession_update e w u q _ _ H Hprior)
      as (r & Hr & Hs & Hl & Hd & _).
    rewrite (newStreak_missed e existingUser Hcase) in Hs.
    exists r. rewrite Hs in Hl. repeat split; assumption. }
  split; [exact General|].
  intros e w u q existingUser rest H Hclock Hday Hprior Hs Hl Hlast.
  destruct sample_days as (D5 & _ & D10 & _).
  destruct (General e w u q existingUser rest H Hprior) as (r & Hr & Hs' & Hl' & Hd').
  - right. split; [exact Hclock|]. rewrite Hday.
    split; [apply fourDigitYear_range; lia|].
    exists 19727. rewrite D5.
    split; [exact Hlast|]. split; [apply fourDigitYear_range; lia | lia].
  - exists r. rewrite Hday, D10 in Hd'. repeat split; try assumption; lia.
Qed.

Lemma missed_days_reset_streak_witness :
  exists r,
    recordOf Sample.alice
      (Practice.completeSession (Sample.sessionAt Sample.jan10) Sample.lapsed) = [r]
    /\ Backend.currentStreak r = 1
    /\ Backend.longestStreak r = 8
    /\ Backend.lastStudyDate r = Some "2024-01-10"%string.
Proof.
  assert (H : Completes (Sample.sessionAt Sample.jan10) Sample.lapsed Sample.alice Sample.q5)
    by (vm_compute; repeat split; reflexivity).
  assert (Hclock : SteadyClock (Sample.sessionAt Sample.jan10))
    by (apply sample_clock; vm_compute; reflexivity).
  assert (Hday : Day (Practice.clockToday (Sample.sessionAt Sample.jan10)) = 19732)
    by (vm_compute; reflexivity).
  assert (Hprior : recordOf Sample.alice Sample.lapsed
                   = [Sample.row 5 8 (Some "2024-01-05"%string) 10 7])
    by (vm_compute; reflexivity).
  exact (proj2 missed_days_reset_streak _ _ _ _ _ _
           H Hclock Hday Hprior eq_refl eq_refl eq_refl).
Defined.

(** When the user has no record, a completed session creates one with
    [currentStreak] 1, [longestStreak] 1, [lastStudyDate] today, and the
    [totalQuestions] and [correctCount] that [completeSession] computes as
    totals.  In particular
    on 1 March 2024 (day 19783) a session counted 4 out of 5 creates
    [{currentStreak: 1, longestStreak: 1, lastStudyDate: "2024-03-01",
    totalQuestionsAnswered: 5, correctAnswers: 4}]. *)
Lemma first_session_creates_record :
  (forall e w u q,
     Completes e w u q ->
     recordOf u w = [] ->
     exists r,
       recordOf u (Practice.completeSession e w) = [r]
       /\ Backend.currentStreak r = 1
       /\ Backend.longestStreak r = 1
       /\ Backend.lastStudyDate r = Some (dayString (Day (Practice.clockToday e)))
       /\ Backend.totalQuestionsAnswered r = mergedTotal w
       /\ Backend.correctAnswers r = mergedCorrect w q)
  /\ (forall e w u q,
        Completes e w u q ->
        recordOf u w = [] ->
        Day (Practice.clockToday e) = 19783 ->
        mergedCorrect w q = 4 ->
        mergedTotal w = 5 ->
        exists r,
          recordOf u (Practice.completeSession e w) = [r]
          /\ Backend.currentStreak r = 1
          /\ Backend.longestStreak r = 1
          /\ Backend.lastStudyDate r = Some "2024-03-01"%string
          /\ Backend.totalQuestionsAnswered r = 5
          /\ Backend.correctAnswers r = 4).
Proof.
  split; [exact completeSession_create|].
  intros e w u q H Hprior Hday Hc Ht.
  destruct sample_days as (_ & _ & _ & D).
  destruct (completeSession_create e w u q H Hprior)
    as (r & Hr & Hs & Hl & Hd & Ht' & Hc').
  exists r. rewrite Hday, D in Hd. repeat split; congruence.
Qed.

Lemma first_session_creates_record_witness :
  exists r,
    recordOf Sample.alice
      (Practice.completeSession (Sample.sessionAt Sample.mar01) Sample.newcomer) = [r]
    /\ Backend.currentStreak r = 1
    /\ Backend.longestStreak r = 1
    /\ Backend.lastStudyDate r = Some "2024-03-01"%string
    /\ Backend.totalQuestionsAnswered r = 5
    /\ Backend.correctAnswers r = 4.
Proof.
  assert (H : Completes (Sample.sessionAt Sample.mar01) Sample.newcomer Sample.alice Sample.q5)
    by (vm_compute; repeat split; reflexivity).
  assert (Hprior : recordOf Sample.alice Sample.newcomer = [])
    by (vm_compute; reflexivity).
  assert (Hday : Day (Practice.clockToday (Sample.sessionAt Sample.mar01)) = 19783)
    by (vm_compute; reflexivity).
  assert (Hc : mergedCorrect Sample.newcomer Sample.q5 = 4) by (vm_compute; reflexivity).
  assert (Ht : mergedTotal Sample.newcomer = 5) by (vm_compute; reflexivity).
  exact (proj2 first_session_creates_record _ _ _ _ H Hprior Hday Hc Ht).
Defined.




(** Right after [submitAnswer], the count [completeSession] merges exceeds
    the number of right answers of the session list by one whenever the
    submitted answer is right: that answer is in the list already, and is
    counted again through the selected answer. *)
Lemma last_answer_counted_twice now ok w sel u q :
  Practice.selectedAnswer (Practice.screen w) = Some sel ->
  sel <> EmptyString ->
  Practice.user (Practice.screen w) = Some u ->
  nth_error (Practice.questions (Practice.screen w))
            (Practice.currentQuestionIndex (Practice.screen w)) = Some q ->
  let w' := Practice.submitAnswer now ok w in
  let right := if String.eqb sel (Backend.correctAnswer q) then 1 else 0 in
  countTrue (outcomes (Practice.userAnswers (Practice.screen w')))
  = countTrue (outcomes (Practice.userAnswers (Practice.screen w))) + right
  /\ mergedCorrect w' q
     = countTrue (outcomes (Practice.userAnswers (Practice.screen w'))) + right.
Proof.
  intros Hsel Hne Hu Hq w' right.
  assert (Hscreen : Practice.userAnswers (Practice.screen w')
                    = Practice.userAnswers (Practice.screen w)
                      ++ [{| Practice.UserAnswer.questionId := Backend.questionKey q;
                             Practice.UserAnswer.selectedAnswer := sel;
                             Practice.UserAnswer.isCorrect :=
                               String.eqb sel (Backend.correctAnswer q) |}]
                    /\ Practice.selectedAnswer (Practice.screen w') = Some sel).
  { unfold w', Practice.submitAnswer. rewrite Hsel, Hu, Hq.
    apply String.eqb_neq in Hne. rewrite Hne.
    destruct w as [s d c a]. destruct ok; split; first [reflexivity | exact Hsel]. }
  destruct Hscreen as [Hans Hsel'].
  assert (Hcount : forall l, countTrue (outcomes l)
                             = Z.of_nat (List.length (filter Practice.UserAnswer.isCorrect l))).
  { intros l. unfold countTrue, outcomes.
    induction l as [|a l IH]; [reflexivity|].
    cbn [map filter]. destruct (Practice.UserAnswer.isCorrect a); cbn [List.length]; lia. }
  unfold mergedCorrect, Practice.sessionCorrectCount.
  rewrite Hsel', !Hcount, Hans, filter_app, length_app.
  cbn [filter Practice.UserAnswer.isCorrect Js.strictEq]. unfold right.
  destruct (String.eqb sel (Backend.correctAnswer q)); cbn [List.length]; lia.
Qed.

(** C1.  A session of five questions, all answered right by a first-time
    user on 1 March 2024: the results view shows 5 out of 5, and the record
    and the session row written by [completeSession] count 6 correct
    answers out of 5.  The last answer, already in the session list when
    the session completes, is counted once more through the selected
    answer. *)
Theorem all_correct_session_counts_six_of_five :
  let w := Practice.run (Sample.world []) (Sample.answering Sample.mar01 Sample.fiveOfFive) in
  outcomes (Practice.userAnswers (Practice.screen w)) = [true; true; true; true; true]
  /\ Practice.render (Practice.screen w) = Practice.ResultsView 5 5 (Js.RInt 100)
  /\ recordOf Sample.alice w = [Sample.row 1 1 (Some "2024-03-01"%string) 5 6]
  /\ map (fun s => (Backend.questionsAnswered s, Backend.sessionCorrectAnswers s))
         (Backend.studySessions (Practice.db w)) = [(5, 6)]
  /\ mergedCorrect
       (Sample.beforeLastPress [] Sample.mar01 Sample.fiveOfFive) Sample.q5 = 6
  /\ mergedTotal (Sample.beforeLastPress [] Sample.mar01 Sample.fiveOfFive) = 5.
Proof. vm_compute. repeat split; reflexivity. Qed.

(** * The category aggregator *)

(** ** Insertion-ordered maps *)
Section MapFacts.
Context {V : Type}.

Lemma get_In (m : JsMap.t V) k v : JsMap.get m k = Some v -> In (k, v) m.
Proof.
  induction m as [|[k' v'] m IH]; cbn [JsMap.get]; [discriminate|].
  destruct (String.eqb_spec k' k) as [->|_].
  - intros [= ->]. left. reflexivity.
  - intros H. right. apply IH, H.
Qed.

Lemma In_set (m : JsMap.t V) k v x :
  In x (JsMap.set m k v) -> x = (k, v) \/ In x m.
Proof.
  induction m as [|[k' v'] m IH]; cbn [JsMap.set].
  - intros [<-|[]]. left. reflexivity.
  - destruct (String.eqb_spec k' k) as [->|_].
    + intros [<-|H]; [left; reflexivity | right; right; exact H].
    + intros [<-|H]; [right; left; reflexivity|].
      destruct (IH H) as [->|H']; [left; reflexivity | right; right; exact H'].
Qed.
End MapFacts.

Lemma sumTallies_set m k v :
  sumTallies (JsMap.set m k v)
  = sumTallies m + Stats.tallyTotal v
    - match JsMap.get m k with Some c => Stats.tallyTotal c | None => 0 end.
Proof.
  induction m as [|[k' v'] m IH]; cbn [JsMap.set JsMap.get sumTallies fold_right snd].
  - lia.
  - destruct (String.eqb k' k); cbn [sumTallies fold_right snd].
    + fold (sumTallies m). lia.
    + fold (sumTallies (JsMap.set m k v)). fold (sumTallies m). rewrite IH. lia.
Qed.

(** ** Counting answers by category *)
Section Counting.
Variable questions : list Backend.Question.

Lemma countAnswer_found m a :
  found questions a = true ->
  sumTallies (Stats.countAnswer (Stats.questionMap questions) m a) = sumTallies m + 1.
Proof.
  unfold found, Stats.countAnswer.
  destruct (JsMap.get (Stats.questionMap questions) (Backend.questionId a)) as [question|]; [intros _ | discriminate].
  rewrite sumTallies_set.
  destruct (JsMap.get m (Backend.category question)); cbn [Stats.tallyTotal]; lia.
Qed.

Lemma countAnswer_missing m a :
  found questions a = false -> Stats.countAnswer (Stats.questionMap questions) m a = m.
Proof.
  unfold found, Stats.countAnswer.
  destruct (JsMap.get (Stats.questionMap questions) (Backend.questionId a)); [discriminate | reflexivity].
Qed.

Lemma countAnswer_sound m a :
  Forall (fun entry => soundTally (snd entry)) m ->
  Forall (fun entry => soundTally (snd entry)) (Stats.countAnswer (Stats.questionMap questions) m a).
Proof.
  intros Hm. unfold Stats.countAnswer.
  destruct (JsMap.get (Stats.questionMap questions) (Backend.questionId a)) as [question|]; [|exact Hm].
  rewrite Forall_forall in *. intros x Hx.
  apply In_set in Hx. destruct Hx as [->|Hx]; [|apply Hm, Hx].
  cbn [snd]. unfold soundTally. cbn [Stats.tallyTotal Stats.tallyCorrect].
  destruct (JsMap.get m (Backend.category question)) as [c|] eqn:G.
  - apply get_In in G. specialize (Hm _ G). cbn [snd] in Hm. destruct Hm as [Hc Ht].
    destruct (Backend.isCorrect a >? 0); lia.
  - cbn [Stats.tallyTotal Stats.tallyCorrect].
    destruct (Backend.isCorrect a >? 0); lia.
Qed.

Lemma fold_countAnswer_filter answers m :
  fold_left (Stats.countAnswer (Stats.questionMap questions)) answers m
  = fold_left (Stats.countAnswer (Stats.questionMap questions)) (filter (found questions) answers) m.
Proof.
  revert m. induction answers as [|a answers IH]; intros m; [reflexivity|].
  cbn [fold_left filter]. destruct (found questions a) eqn:F.
  - cbn [fold_left]. apply IH.
  - rewrite countAnswer_missing by exact F. apply IH.
Qed.

Lemma fold_countAnswer_sum answers m :
  sumTallies (fold_left (Stats.countAnswer (Stats.questionMap questions)) answers m)
  = sumTallies m + Z.of_nat (List.length (filter (found questions) answers)).
Proof.
  revert m. induction answers as [|a answers IH]; intros m; cbn [fold_left filter].
  - cbn [List.length]. lia.
  - rewrite IH. destruct (found questions a) eqn:F.
    + rewrite countAnswer_found by exact F. cbn [List.length]. lia.
    + rewrite countAnswer_missing by exact F. reflexivity.
Qed.

Lemma fold_countAnswer_sound answers m :
  Forall (fun entry => soundTally (snd entry)) m ->
  Forall (fun entry => soundTally (snd entry))
         (fold_left (Stats.countAnswer (Stats.questionMap questions)) answers m).
Proof.
  revert m. induction answers as [|a answers IH]; intros m Hm; cbn [fold_left].
  - exact Hm.
  - apply IH, countAnswer_sound, Hm.
Qed.
End Counting.

(** ** Sorting by total *)
Lemma insertSorted_perm {A} (cmp : A -> A -> Z) x l :
  Permutation (JsArray.insertSorted cmp x l) (x :: l).
Proof.
  induction l as [|y l IH]; cbn [JsArray.insertSorted]; [reflexivity|].
  destruct (cmp x y <=? 0); [reflexivity|].
  rewrite IH. apply perm_swap.
Qed.

Lemma sort_perm {A} (cmp : A -> A -> Z) l : Permutation (JsArray.sort cmp l) l.
Proof.
  induction l as [|x l IH]; cbn [JsArray.sort fold_right]; [reflexivity|].
  fold (JsArray.sort cmp l). rewrite insertSorted_perm, IH. reflexivity.
Qed.

Lemma insertSorted_sorted x l :
  StronglySorted totalDescending l ->
  StronglySorted totalDescending (JsArray.insertSorted byTotal x l).
Proof.
  induction 1 as [|y l Hs IH Hy]; cbn [JsArray.insertSorted].
  - repeat constructor.
  - unfold byTotal at 1. destruct (Z.leb_spec (Stats.total y - Stats.total x) 0) as [L|G].
    + constructor; [constructor; assumption|].
      constructor; [unfold totalDescending; lia|].
      rewrite Forall_forall in *. intros z Hz. specialize (Hy z Hz).
      unfold totalDescending in *. lia.
    + constructor; [exact IH|].
      rewrite Forall_forall in *. intros z Hz.
      apply (Permutation_in _ (insertSorted_perm byTotal x l)) in Hz.
      destruct Hz as [<-|Hz]; [unfold totalDescending; lia | apply Hy, Hz].
Qed.

Lemma sort_sorted l : StronglySorted totalDescending (JsArray.sort byTotal l).
Proof.
  induction l as [|x l IH]; cbn [JsArray.sort fold_right]; [constructor|].
  apply insertSorted_sorted, IH.
Qed.

Lemma sumTotals_perm l l' : Permutation l l' -> sumTotals l = sumTotals l'.
Proof.
  induction 1; cbn [sumTotals fold_right] in *; try fold (sumTotals l) in *;
    try fold (sumTotals l') in *; lia.
Qed.

Lemma sumTotals_toStats m : sumTotals (map Stats.toStats m) = sumTallies m.
Proof.
  induction m as [|[k c] m IH]; [reflexivity|].
  cbn [map sumTotals sumTallies fold_right Stats.toStats Stats.total snd].
  fold (sumTotals (map Stats.toStats m)). fold (sumTallies m). rewrite IH. reflexivity.
Qed.

Lemma filter_length_all {A} (p : A -> bool) l :
  List.length (filter p l) = List.length l <-> forallb p l = true.
Proof.
  induction l as [|x l IH]; cbn [filter forallb List.length]; [tauto|].
  pose proof (filter_length_le p l) as Hle.
  destruct (p x); cbn [List.length andb].
  - rewrite <- IH. lia.
  - split; [lia | discriminate].
Qed.

Lemma categoryStats_unfold answers questions :
  Stats.categoryStats answers questions
  = JsArray.sort byTotal (map Stats.toStats (Stats.categoryMap answers questions)).
Proof. reflexivity. Qed.

(** C9, as the code has it.  For every list of answers and every
    catalogue, [calculateCategoryStats] returns normally and leaves the
    console alone; answers whose question is not in the catalogue change
    nothing; the result is sorted by [total], descending; the totals sum to
    the number of answers whose question is in the catalogue, hence to at
    most the number of answers, with equality exactly when every question
    is found; and each category's [accuracy] is [Math.round] of the double
    [(correct / total) * 100], which for totals up to 100 is
    [100 * correct / total] rounded half up, except at 23/40 (23 of 40, 46
    of 80), where it is 57. *)
Theorem category_stats_properties answers questions :
  let stats := Stats.categoryStats answers questions in
  (forall shown console,
     Stats.calculateCategoryStats answers (Some questions) shown console
     = (stats, console))
  /\ stats = Stats.categoryStats (filter (found questions) answers) questions
  /\ StronglySorted totalDescending stats
  /\ sumTotals stats = Z.of_nat (List.length (filter (found questions) answers))
  /\ sumTotals stats <= Z.of_nat (List.length answers)
  /\ (sumTotals stats = Z.of_nat (List.length answers)
      <-> forallb (found questions) answers = true)
  /\ (forall c, In c stats ->
        0 <= Stats.correct c <= Stats.total c /\ 0 < Stats.total c
        /\ Stats.accuracy c = Js.percentOf (Stats.correct c) (Stats.total c)
        /\ (Stats.total c <= 100 ->
            Stats.accuracy c
            = Js.RInt (expectedPercent (Stats.correct c) (Stats.total c)))).
Proof.
  intros stats.
  assert (Hsum : sumTotals stats
                 = Z.of_nat (List.length (filter (found questions) answers))).
  { unfold stats. rewrite categoryStats_unfold.
    rewrite (sumTotals_perm _ _ (sort_perm _ _)), sumTotals_toStats.
    unfold Stats.categoryMap. rewrite fold_countAnswer_sum. reflexivity. }
  pose proof (filter_length_le (found questions) answers) as Hle.
  split; [reflexivity|].
  split.
  { unfold stats, Stats.categoryStats, Stats.categoryMap.
    rewrite <- fold_countAnswer_filter. reflexivity. }
  split; [apply sort_sorted|].
  split; [exact Hsum|].
  split; [lia|].
  split.
  { rewrite Hsum, <- filter_length_all. lia. }
  intros c Hc. unfold stats in Hc. rewrite categoryStats_unfold in Hc.
  apply (Permutation_in _ (sort_perm _ _)) in Hc.
  apply in_map_iff in Hc. destruct Hc as ([k t] & <- & Hin).
  pose proof (fold_countAnswer_sound questions answers JsMap.empty (Forall_nil _)) as Hs.
  rewrite Forall_forall in Hs. specialize (Hs _ Hin). cbn [snd] in Hs.
  destruct Hs as [Hc Ht].
  cbn [Stats.toStats Stats.correct Stats.total Stats.accuracy].
  destruct (Z.gtb_spec (Stats.tallyTotal t) 0) as [_|]; [|lia].
  repeat split; try lia.
  intros Hbound. apply percentOf_upto_100; lia.
Qed.

Lemma category_stats_properties_witness :
  let answers := Sample.logged 3 true ++ [Sample.stray] ++ Sample.logged 1 false in
  let stats := Stats.categoryStats answers Sample.catalogue in
  sumTotals stats = 4
  /\ exists c, In c stats /\ Stats.accuracy c = Js.RInt 75.
Proof.
  intros answers stats.
  destruct (category_stats_properties answers Sample.catalogue)
    as (_ & _ & _ & Hsum & _ & _ & Hacc).
  split; [exact Hsum|].
  exists {| Stats.category := "Risk"; Stats.total := 4; Stats.correct := 3;
            Stats.accuracy := Js.RInt 75 |}.
  assert (Hin : In {| Stats.category := "Risk"; Stats.total := 4; Stats.correct := 3;
                      Stats.accuracy := Js.RInt 75 |}
                   (Stats.categoryStats answers Sample.catalogue))
    by (vm_compute; left; reflexivity).
  split; [exact Hin|].
  destruct (Hacc _ Hin) as (_ & _ & _ & Hexp).
  rewrite Hexp by (cbn [Stats.total]; lia). vm_compute. reflexivity.
Defined.

(** C9, as the specification states it, fails on the accuracy: of 40 answers in one
    category, 23 right, the statistics report 57, while 57.5 rounds to
    58. *)
Lemma forty_answers_round_down :
  Stats.categoryStats (Sample.logged 23 true ++ Sample.logged 17 false) Sample.catalogue
  = [{| Stats.category := "Risk"; Stats.total := 40; Stats.correct := 23;
        Stats.accuracy := Js.RInt 57 |}]
  /\ roundHalfUp (100 * 23) 40 = 58
  /\ Js.RInt 57 <> Js.RInt (roundHalfUp (100 * 23) 40).
Proof. vm_compute. repeat split; try reflexivity. discriminate. Qed.

(** * Writes that fail while answering *)

Ltac same_worlds w1 w2 H :=
  destruct w1 as [s1 [us1 qs1 as1 ss1] c1 a1], w2 as [s2 [us2 qs2 as2 ss2] c2 a2];
  unfold sameSession in H; cbn in H; destruct H as (<- & <- & <- & <-).

Lemma onScreen_same f w1 w2 :
  sameSession w1 w2 -> sameSession (Practice.onScreen f w1) (Practice.onScreen f w2).
Proof. intros H. same_worlds w1 w2 H. repeat split. Qed.

Lemma loadQuestions_same le w1 w2 :
  sameSession w1 w2 -> sameSession (Practice.loadQuestions le w1) (Practice.loadQuestions le w2).
Proof.
  intros H. same_worlds w1 w2 H.
  unfold Practice.loadQuestions, Backend.questions_list, sameSession.
  cbn -[firstn Z.ltb Z.of_nat List.length].
  destruct (Practice.fetchFails le); [repeat split|].
  destruct (0 <? _); repeat split.
Qed.

Lemma completeSession_same e w1 w2 :
  sameSession w1 w2 ->
  sameSession (Practice.completeSession e w1) (Practice.completeSession e w2).
Proof.
  intros H. same_worlds w1 w2 H.
  unfold Practice.completeSession, Backend.users_list. cbn [Practice.screen Practice.db Backend.users].
  destruct (Practice.user s1) as [u|]; [|repeat split].
  destruct (nth_error _ _) as [q|]; [|repeat split].
  destruct (Practice.listFails e); [repeat split|].
  destruct (Practice.userWriteFails e); [repeat split|].
  destruct (firstn 1 _) as [|existingUser rest];
    destruct (Practice.sessionCreateFails e); repeat split.
Qed.

Lemma submitAnswer_same now ok w1 w2 :
  sameSession w1 w2 ->
  sameSession (Practice.submitAnswer now ok w1) (Practice.submitAnswer now ok w2).
Proof.
  intros H. same_worlds w1 w2 H.
  unfold Practice.submitAnswer. cbn [Practice.screen].
  destruct (Practice.selectedAnswer s1) as [sel|]; [|repeat split].
  destruct (Practice.user s1) as [u|]; [|repeat split].
  destruct (String.eqb sel ""); [repeat split|].
  destruct (nth_error _ _) as [q|]; [|repeat split].
  destruct ok; repeat split.
Qed.

Lemma step_same ev w1 w2 :
  sameSession w1 w2 -> sameSession (Practice.step w1 ev) (Practice.step w2 ev).
Proof.
  intros H. assert (Hs : Practice.screen w1 = Practice.screen w2) by apply H.
  unfold Practice.step. rewrite <- Hs.
  destruct ev as [stateUser isLoading le | key | now ok | e | le | le].
  - unfold Practice.onAuthStateChanged. destruct stateUser as [u|].
    + apply onScreen_same, loadQuestions_same, onScreen_same, H.
    + apply onScreen_same, H.
  - destruct (Practice.render _) as [| | | q explained |]; try exact H.
    destruct explained; [exact H | apply onScreen_same, H].
  - destruct (Practice.render _) as [| | | q explained |]; try exact H.
    destruct (_ || _); [exact H | apply submitAnswer_same, H].
  - destruct (Practice.render _) as [| | | q explained |]; try exact H.
    destruct explained; [|exact H].
    unfold Practice.nextQuestion. rewrite <- Hs.
    destruct (_ <? _); [apply onScreen_same, H | apply completeSession_same, H].
  - destruct (Practice.render _) as [| | c t p | |]; try exact H.
    unfold Practice.restartPractice. apply loadQuestions_same, onScreen_same, H.
  - destruct (Practice.render _) as [| | | |]; try exact H.
    apply loadQuestions_same, H.
Qed.

Lemma run_same evs w1 w2 :
  sameSession w1 w2 -> sameSession (Practice.run w1 evs) (Practice.run w2 evs).
Proof.
  revert w1 w2. induction evs as [|ev evs IH]; intros w1 w2 H; [exact H|].
  cbn [Practice.run fold_left]. apply IH, step_same, H.
Qed.

(** When the write of an answer fails in [submitAnswer], the failure
    is only logged on the console: no alert, no change to the record
    collections.  The answer is in the session list all the same and the
    explanation is shown, so the screen is the one a successful write
    leaves; whatever happens next, the screen, the users' records and the
    study sessions are those of the run in which the write succeeded, and
    in particular [completeSession] writes the same record and the same
    session row. *)
Lemma unsaved_submit_same_session now w sel u currentQuestion :
  Practice.selectedAnswer (Practice.screen w) = Some sel ->
  sel <> EmptyString ->
  Practice.user (Practice.screen w) = Some u ->
  nth_error (Practice.questions (Practice.screen w))
            (Practice.currentQuestionIndex (Practice.screen w)) = Some currentQuestion ->
  let saved := Practice.submitAnswer now true w in
  let unsaved := Practice.submitAnswer now false w in
  Practice.userAnswers (Practice.screen unsaved)
  = Practice.userAnswers (Practice.screen w)
    ++ [{| Practice.UserAnswer.questionId := Backend.questionKey currentQuestion;
           Practice.UserAnswer.selectedAnswer := sel;
           Practice.UserAnswer.isCorrect :=
             String.eqb sel (Backend.correctAnswer currentQuestion) |}]
  /\ Practice.showExplanation (Practice.screen unsaved) = true
  /\ Practice.screen unsaved = Practice.screen saved
  /\ Practice.db unsaved = Practice.db w
  /\ Practice.console unsaved = Practice.console w ++ ["Error saving answer:"%string]
  /\ Practice.alerts unsaved = Practice.alerts w
  /\ (forall e,
        recordOf u (Practice.completeSession e unsaved)
        = recordOf u (Practice.completeSession e saved)
        /\ Backend.studySessions (Practice.db (Practice.completeSession e unsaved))
           = Backend.studySessions (Practice.db (Practice.completeSession e saved)))
  /\ (forall evs, sameSession (Practice.run unsaved evs) (Practice.run saved evs)).
Proof.
  intros Hsel Hne Hu Hq saved unsaved.
  assert (Hsame : sameSession unsaved saved).
  { unfold unsaved, saved, Practice.submitAnswer. rewrite Hsel, Hu, Hq.
    apply String.eqb_neq in Hne. rewrite Hne.
    destruct w as [s [us qs ans ss] c a]. repeat split. }
  unfold unsaved, saved, Practice.submitAnswer in *. rewrite Hsel, Hu, Hq in *.
  apply String.eqb_neq in Hne. rewrite Hne in *.
  destruct w as [s [us qs ans ss] c a].
  do 6 (split; [reflexivity|]).
  split.
  - intros e. apply (completeSession_same e) in Hsame.
    destruct Hsame as (_ & Husers & _ & Hsessions).
    split; [|exact Hsessions].
    unfold recordOf, Backend.users_list. rewrite Husers. reflexivity.
  - intros evs. apply run_same, Hsame.
Qed.


(** * The session scorer *)

Lemma filter_outcomes uas :
  List.length (filter Practice.UserAnswer.isCorrect uas)
  = List.length (filter (fun b : bool => b) (outcomes uas)).
Proof.
  induction uas as [|a uas IH]; [reflexivity|].
  cbn [filter outcomes map]. fold (outcomes uas).
  destruct (Practice.UserAnswer.isCorrect a); cbn [List.length]; rewrite IH; reflexivity.
Qed.

Lemma sessionResults_exact userAnswers questions :
  List.length questions = List.length userAnswers ->
  0 < Z.of_nat (List.length userAnswers) <= 39 ->
  Practice.sessionResults userAnswers questions
  = (countTrue (outcomes userAnswers),
     Z.of_nat (List.length (outcomes userAnswers)),
     Js.RInt (roundHalfUp (100 * countTrue (outcomes userAnswers))
                          (Z.of_nat (List.length (outcomes userAnswers))))).
Proof.
  intros Hlen Hbound.
  unfold Practice.sessionResults, countTrue.
  rewrite <- filter_outcomes. unfold outcomes. rewrite length_map, Hlen.
  pose proof (filter_length_le Practice.UserAnswer.isCorrect userAnswers) as Hle.
  rewrite percentOf_exact_below_40 by lia. reflexivity.
Qed.

(** ** The screen, event after event *)

Module SessionInvariant.
Import Practice.

Lemma loadQuestions_invariant Q le w :
  fairShuffle le -> sessionInvariant Q w -> sessionInvariant Q (loadQuestions le w).
Proof.
  intros Hfair (Hq & Hlen & Hrun & Hdone).
  destruct w as [s d c a]. unfold sessionInvariant, loadQuestions, Backend.questions_list in *.
  cbn [screen db onScreen alert consoleError] in *.
  destruct (fetchFails le);
    cbn [screen db onScreen alert consoleError setLoading questions sessionComplete
         userAnswers currentQuestionIndex showExplanation] in *.
  - repeat split; try assumption; apply Hdone; assumption.
  - rewrite Hq.
    destruct (Z.ltb_spec 0 (Z.of_nat (List.length (firstn 5 Q)))) as [Hpos|Hz];
      cbn [screen db onScreen alert consoleError setLoading setQuestions questions
           sessionComplete userAnswers currentQuestionIndex showExplanation] in *.
    + split; [assumption|]. split; [right; apply Hfair|]. split; [assumption|].
      intros Hc. destruct (Hdone Hc) as [Hne Hua].
      destruct Hlen as [Hnil | Hlen]; [contradiction|].
      split.
      * intros E. apply (f_equal (@List.length _)) in E. rewrite Hfair in E.
        cbn [List.length] in E. lia.
      * rewrite Hfair. lia.
    + repeat split; try assumption; apply Hdone; assumption.
Qed.

Lemma render_question s q explained :
  render s = QuestionView q explained ->
  sessionComplete s = false
  /\ nth_error (questions s) (currentQuestionIndex s) = Some q
  /\ explained = showExplanation s.
Proof.
  unfold render. destruct (loading s); [discriminate|].
  destruct (_ =? 0); [discriminate|].
  destruct (sessionComplete s).
  - destruct (sessionResults _ _) as [[c t] p]. discriminate.
  - destruct (nth_error _ _) as [q'|]; [|discriminate].
    intros [= <- <-]. repeat split.
Qed.

Lemma onScreen_invariant Q f w :
  (forall s, questions (f s) = questions s
             /\ sessionComplete (f s) = sessionComplete s
             /\ userAnswers (f s) = userAnswers s
             /\ currentQuestionIndex (f s) = currentQuestionIndex s
             /\ showExplanation (f s) = showExplanation s) ->
  sessionInvariant Q w -> sessionInvariant Q (onScreen f w).
Proof.
  intros Hf H. destruct w as [s d c a].
  destruct (Hf s) as (E1 & E2 & E3 & E4 & E5).
  unfold sessionInvariant in *. cbn [screen db onScreen] in *.
  rewrite E1, E2, E3, E4, E5. exact H.
Qed.

Lemma sessionFailed_invariant Q w :
  sessionInvariant Q w -> sessionInvariant Q (sessionFailed w).
Proof. intros H. destruct w as [s d c a]. exact H. Qed.

Lemma completeSession_invariant Q e w q :
  sessionInvariant Q w ->
  sessionComplete (screen w) = false ->
  showExplanation (screen w) = true ->
  nth_error (questions (screen w)) (currentQuestionIndex (screen w)) = Some q ->
  (Z.of_nat (currentQuestionIndex (screen w))
   <? Z.of_nat (List.length (questions (screen w))) - 1) = false ->
  sessionInvariant Q (completeSession e w).
Proof.
  intros H Hrunning Hexplained Hq Hlast.
  unfold completeSession. rewrite Hq.
  destruct (user (screen w)) as [u|]; [|exact H].
  destruct (listFails e); [apply sessionFailed_invariant, H|].
  destruct (userWriteFails e); [apply sessionFailed_invariant, H|].
  assert (Hidx : (currentQuestionIndex (screen w) < List.length (questions (screen w)))%nat)
    by (apply nth_error_Some; rewrite Hq; discriminate).
  apply Z.ltb_ge in Hlast.
  destruct w as [s d c a]. destruct H as (HQ & Hlen & Hrun & Hdone).
  cbn [screen db] in *. specialize (Hrun Hrunning). rewrite Hexplained in Hrun.
  assert (Hinv : forall d', Backend.questions d' = Q ->
            sessionInvariant Q {| screen := s; db := d'; console := c; alerts := a |}).
  { intros d' Hd'. unfold sessionInvariant. cbn [screen db].
    repeat split; try assumption; try (apply Hdone; assumption).
    intros _. rewrite Hexplained. exact Hrun. }
  assert (Hdone' : forall d', Backend.questions d' = Q ->
            sessionInvariant Q
              (onScreen (setSessionComplete true)
                 {| screen := s; db := d'; console := c; alerts := a |})).
  { intros d' Hd'. unfold sessionInvariant.
    cbn [screen db onScreen setSessionComplete questions sessionComplete userAnswers
         currentQuestionIndex showExplanation].
    split; [assumption|]. split; [assumption|]. split; [discriminate|].
    intros _. split; [|lia].
    intros E. rewrite E in Hidx. cbn [List.length] in Hidx. lia. }
  destruct (Backend.users_list (uid u) d) as [|existingUser rest];
    destruct (sessionCreateFails e);
    first [ apply sessionFailed_invariant, Hinv; exact HQ
          | apply Hdone'; exact HQ ].
Qed.

Lemma submitAnswer_invariant Q now ok w :
  sessionInvariant Q w ->
  sessionComplete (screen w) = false ->
  showExplanation (screen w) = false ->
  sessionInvariant Q (submitAnswer now ok w).
Proof.
  intros H Hrunning Hexplained. unfold submitAnswer.
  destruct (selectedAnswer (screen w)) as [sel|]; [|exact H].
  destruct (user (screen w)) as [u|]; [|exact H].
  destruct (String.eqb sel ""); [exact H|].
  destruct (nth_error _ _) as [q|]; [|exact H].
  destruct w as [s d c a]. destruct H as (HQ & Hlen & Hrun & Hdone).
  cbn [screen db] in *. specialize (Hrun Hrunning). rewrite Hexplained in Hrun.
  destruct ok; unfold sessionInvariant;
    cbn [screen db onScreen onDb consoleError setShowExplanation setUserAnswers
         Backend.userAnswers_create Backend.questions questions sessionComplete
         userAnswers currentQuestionIndex showExplanation];
    (split; [assumption|]); (split; [assumption|]);
    (split; [intros _; rewrite length_app; cbn [List.length]; lia|]);
    rewrite Hrunning; discriminate.
Qed.

Lemma step_invariant Q w ev :
  fairEvent ev -> sessionInvariant Q w -> sessionInvariant Q (step w ev).
Proof.
  intros Hfair H. unfold step.
  destruct ev as [stateUser isLoading le | key | now ok | e | le | le]; cbn [fairEvent] in Hfair.
  - unfold onAuthStateChanged.
    apply onScreen_invariant; [intros s; repeat split|].
    destruct stateUser as [u|]; [|exact H].
    apply loadQuestions_invariant; [exact Hfair|].
    apply onScreen_invariant; [intros s; repeat split | exact H].
  - destruct (render _) as [| | | q explained |]; try exact H.
    destruct explained; [exact H|].
    apply onScreen_invariant; [|exact H].
    intros s. unfold handleAnswerSelect.
    destruct (showExplanation s) eqn:E; repeat split; try (symmetry; exact E); exact E.
  - destruct (render _) as [| | | q explained |] eqn:R; try exact H.
    apply render_question in R. destruct R as (Hrunning & Hq & ->).
    destruct (showExplanation (screen w)) eqn:Hexplained; cbn [orb]; [exact H|].
    destruct (Js.falsy _); [exact H|].
    apply submitAnswer_invariant; assumption.
  - destruct (render _) as [| | | q explained |] eqn:R; try exact H.
    apply render_question in R. destruct R as (Hrunning & Hq & ->).
    destruct (showExplanation (screen w)) eqn:Hexplained; [|exact H].
    unfold nextQuestion.
    destruct (_ <? _) eqn:Hlast; [|apply (completeSession_invariant Q e w q); assumption].
    destruct w as [s d c a]. destruct H as (HQ & Hlen & Hrun & Hdone).
    cbn [screen db] in *. specialize (Hrun Hrunning). rewrite Hexplained in Hrun.
    unfold sessionInvariant.
    cbn [screen db onScreen setShowExplanation setSelectedAnswer setCurrentQuestionIndex
         questions sessionComplete userAnswers currentQuestionIndex showExplanation].
    split; [assumption|]. split; [assumption|]. split; [intros _; lia|].
    rewrite Hrunning. discriminate.
  - destruct (render _) as [| | c t p | |]; try exact H.
    unfold restartPractice. apply loadQuestions_invariant; [exact Hfair|].
    destruct w as [s d c' a]. destruct H as (HQ & Hlen & Hrun & Hdone).
    unfold sessionInvariant.
    cbn [screen db onScreen setSessionComplete setUserAnswers setShowExplanation
         setSelectedAnswer setCurrentQuestionIndex
         questions sessionComplete userAnswers currentQuestionIndex showExplanation] in *.
    split; [assumption|]. split; [assumption|]. split; [reflexivity | discriminate].
  - destruct (render _) as [| | | |]; try exact H.
    apply loadQuestions_invariant; assumption.
Qed.

Lemma run_invariant Q evs w :
  Forall fairEvent evs -> sessionInvariant Q w -> sessionInvariant Q (run w evs).
Proof.
  revert w. induction evs as [|ev evs IH]; intros w Hfair H; [exact H|].
  inversion Hfair as [|? ? Hev Hrest]; subst.
  cbn [run fold_left]. apply IH; [exact Hrest|]. apply step_invariant; assumption.
Qed.

Lemma mounted_invariant w : mounted w -> sessionInvariant (Backend.questions (db w)) w.
Proof.
  unfold mounted, sessionInvariant. intros ->. cbn.
  repeat split; auto; discriminate.
Qed.

(** What the results view shows, whatever happened since the screen was
    mounted. *)
Lemma results_view_exact w evs correctCount totalQuestions percentage :
  mounted w ->
  Forall fairEvent evs ->
  render (screen (run w evs)) = ResultsView correctCount totalQuestions percentage ->
  correctCount = countTrue (outcomes (userAnswers (screen (run w evs))))
  /\ totalQuestions
     = Z.of_nat (List.length (outcomes (userAnswers (screen (run w evs)))))
  /\ 1 <= totalQuestions <= 5
  /\ percentage = Js.RInt (roundHalfUp (100 * correctCount) totalQuestions).
Proof.
  intros Hmounted Hfair Hview.
  pose proof (run_invariant _ evs _ Hfair (mounted_invariant w Hmounted)) as Hinv.
  set (w' := run w evs) in *.
  destruct Hinv as (_ & Hlen & _ & Hdone).
  unfold render in Hview. destruct (loading (screen w')); [discriminate|].
  destruct (Z.eqb_spec (Z.of_nat (List.length (questions (screen w')))) 0) as [|Hne];
    [discriminate|].
  destruct (sessionComplete (screen w')); [|destruct (nth_error _ _); discriminate].
  destruct (Hdone eq_refl) as [Hq Hua].
  destruct Hlen as [Hnil | Hlen]; [contradiction|].
  assert (Hfive : (List.length (questions (screen w')) <= 5)%nat)
    by (rewrite Hlen; apply firstn_le_length).
  assert (Hbound : 0 < Z.of_nat (List.length (userAnswers (screen w'))) <= 39)
    by (rewrite Hua; lia).
  rewrite (sessionResults_exact _ _ (eq_sym Hua) Hbound) in Hview.
  injection Hview as <- <- <-.
  split; [reflexivity|]. split; [reflexivity|].
  split; [unfold outcomes; rewrite length_map; lia | reflexivity].
Qed.

End SessionInvariant.

(** The results view where the session list holds one outcome per
    question, as it does when every handler is answered before the next
    event: for a finished session of 1 to 39 questions, the results
    view computes [correctCount] as the number of [true] outcomes,
    [totalQuestions] as the length of the sequence and [percentage] as
    [100 * correctCount / totalQuestions] rounded half up.  That is the
    case of every results view the screen can reach, with 1 to 5 questions.
    With no question the component renders the no-questions view and the
    results are not computed.  In particular the outcomes
    [[true, false, true, true, false]] give 3, 5 and 60. *)
Lemma session_results_rounded :
  (forall userAnswers questions,
     List.length questions = List.length userAnswers ->
     0 < Z.of_nat (List.length userAnswers) <= 39 ->
     Practice.sessionResults userAnswers questions
     = (countTrue (outcomes userAnswers),
        Z.of_nat (List.length (outcomes userAnswers)),
        Js.RInt (roundHalfUp (100 * countTrue (outcomes userAnswers))
                             (Z.of_nat (List.length (outcomes userAnswers))))))
  /\ (forall w evs correctCount totalQuestions percentage,
        mounted w ->
        Forall fairEvent evs ->
        Practice.render (Practice.screen (Practice.run w evs))
        = Practice.ResultsView correctCount totalQuestions percentage ->
        correctCount
        = countTrue (outcomes (Practice.userAnswers (Practice.screen (Practice.run w evs))))
        /\ totalQuestions
           = Z.of_nat (List.length
                         (outcomes (Practice.userAnswers
                                      (Practice.screen (Practice.run w evs)))))
        /\ 1 <= totalQuestions <= 5
        /\ percentage = Js.RInt (roundHalfUp (100 * correctCount) totalQuestions))
  /\ (forall s,
        Practice.loading s = false ->
        Practice.questions s = [] ->
        Practice.render s = Practice.NoQuestionsView)
  /\ (forall userAnswers questions,
        outcomes userAnswers = [true; false; true; true; false] ->
        List.length questions = 5%nat ->
        Practice.sessionResults userAnswers questions = (3, 5, Js.RInt 60)).
Proof.
  split; [exact sessionResults_exact|].
  split; [exact SessionInvariant.results_view_exact|].
  split.
  - intros s Hl Hq. unfold Practice.render. rewrite Hl, Hq. reflexivity.
  - intros userAnswers questions Hout Hlen.
    assert (Hn : List.length userAnswers = 5%nat).
    { rewrite <- (length_map Practice.UserAnswer.isCorrect).
      fold (outcomes userAnswers). rewrite Hout. reflexivity. }
    rewrite sessionResults_exact by (rewrite ?Hn, ?Hlen; cbn; lia).
    rewrite Hout. vm_compute. reflexivity.
Qed.

Lemma session_results_rounded_witness :
  Practice.sessionResults (Sample.answered [true; false; true; true; false])
                          Sample.catalogue
  = (3, 5, Js.RInt 60)
  /\ Js.RInt 80 = Js.RInt (roundHalfUp (100 * 4) 5).
Proof.
  assert (Hlen : List.length Sample.catalogue
                 = List.length (Sample.answered [true; false; true; true; false]))
    by reflexivity.
  assert (Hbound : 0 < Z.of_nat (List.length
                                   (Sample.answered [true; false; true; true; false]))
                   <= 39) by (cbn; lia).
  split.
  - rewrite (proj1 session_results_rounded _ _ Hlen Hbound).
    vm_compute. reflexivity.
  - assert (Hfair : Forall fairEvent (Sample.answering Sample.mar01 Sample.fourOfFive))
      by (repeat constructor; intros l; reflexivity).
    assert (Hview : Practice.render
                      (Practice.screen
                         (Practice.run (Sample.world [])
                            (Sample.answering Sample.mar01 Sample.fourOfFive)))
                    = Practice.ResultsView 4 5 (Js.RInt 80))
      by (vm_compute; reflexivity).
    assert (Hmounted : mounted (Sample.world [])) by reflexivity.
    destruct (proj1 (proj2 session_results_rounded) _ _ _ _ _ Hmounted Hfair Hview)
      as (_ & _ & _ & Hp).
    exact Hp.
Defined.

(** The expression of the results view on inputs the screen does not
    reach.  With no outcome at all the percentage is not 0: the expression
    gives [NaN].  And of 40 outcomes, 23 of them [true], the percentage is
    57, while 57.5 rounds to 58. *)
Remark empty_session_has_no_percentage :
  Practice.sessionResults [] [] = (0, 0, Js.RNaN)
  /\ Js.RNaN <> Js.RInt 0
  /\ Practice.sessionResults
       (Sample.answered (repeat true 23 ++ repeat false 17)) (repeat Sample.q1 40)
     = (23, 40, Js.RInt 57)
  /\ roundHalfUp (100 * 23) 40 = 58.
Proof. vm_compute. repeat split; try reflexivity. discriminate. Qed.

(** * Further properties of the practice screen *)

Module PracticeFacts.
Import Practice.

Lemma loadQuestions_inRange Q le w :
  fairShuffle le ->
  sessionInvariant Q w -> indexInRange w -> indexInRange (loadQuestions le w).
Proof.
  intros Hfair (HQ & Hlen & _ & _) Hin.
  destruct w as [s d c a]. unfold indexInRange, loadQuestions, Backend.questions_list in *.
  cbn [screen db onScreen alert consoleError] in *.
  destruct (fetchFails le);
    cbn [screen db onScreen alert consoleError setLoading questions sessionComplete
         userAnswers currentQuestionIndex showExplanation] in *; [exact Hin|].
  rewrite HQ.
  destruct (Z.ltb_spec 0 (Z.of_nat (List.length (firstn 5 Q)))) as [Hpos|Hz];
    cbn [screen db onScreen alert consoleError setLoading setQuestions questions
         sessionComplete userAnswers currentQuestionIndex showExplanation] in *;
    [|exact Hin].
  right. rewrite Hfair.
  destruct Hin as [(_ & -> & _) | Hin]; [lia|].
  destruct Hlen as [Hnil | Hlen]; [rewrite Hnil in Hin; cbn in Hin; lia | lia].
Qed.

Lemma onScreen_inRange f w :
  (forall s, questions (f s) = questions s
             /\ sessionComplete (f s) = sessionComplete s
             /\ userAnswers (f s) = userAnswers s
             /\ currentQuestionIndex (f s) = currentQuestionIndex s
             /\ showExplanation (f s) = showExplanation s) ->
  indexInRange w -> indexInRange (onScreen f w).
Proof.
  intros Hf H. destruct w as [s d c a].
  destruct (Hf s) as (E1 & E2 & E3 & E4 & E5).
  unfold indexInRange in *. cbn [screen onScreen] in *.
  rewrite E1, E2, E3, E4, E5. exact H.
Qed.

Lemma inRange_of_index w :
  (currentQuestionIndex (screen w) < List.length (questions (screen w)))%nat ->
  indexInRange w.
Proof. intros H. right. exact H. Qed.

Lemma completeSession_screen e w :
  screen (completeSession e w) = screen w
  \/ screen (completeSession e w) = setSessionComplete true (screen w).
Proof.
  unfold completeSession.
  destruct (user (screen w)) as [u|]; [|left; reflexivity].
  destruct (nth_error _ _) as [q|]; [|left; reflexivity].
  destruct (listFails e); [left; destruct w; reflexivity|].
  destruct (userWriteFails e); [left; destruct w; reflexivity|].
  destruct (Backend.users_list (uid u) (db w)) as [|x l];
    destruct (sessionCreateFails e); destruct w;
    first [left; reflexivity | right; reflexivity].
Qed.

Lemma submitAnswer_index now ok w :
  currentQuestionIndex (screen (submitAnswer now ok w)) = currentQuestionIndex (screen w)
  /\ questions (screen (submitAnswer now ok w)) = questions (screen w).
Proof.
  unfold submitAnswer.
  destruct (selectedAnswer (screen w)) as [sel|]; [|split; reflexivity].
  destruct (user (screen w)) as [u|]; [|split; reflexivity].
  destruct (String.eqb sel ""); [split; reflexivity|].
  destruct (nth_error _ _) as [q|]; [|split; reflexivity].
  destruct w as [s d c a]. destruct ok; split; reflexivity.
Qed.

Lemma step_inRange Q w ev :
  fairEvent ev ->
  sessionInvariant Q w -> indexInRange w -> indexInRange (step w ev).
Proof.
  intros Hfair Hinv H. unfold step.
  destruct ev as [stateUser isLoading le | key | now ok | e | le | le]; cbn [fairEvent] in Hfair.
  - unfold onAuthStateChanged.
    apply onScreen_inRange; [intros s; repeat split|].
    destruct stateUser as [u|]; [|exact H].
    apply (loadQuestions_inRange Q); [exact Hfair | |].
    + apply SessionInvariant.onScreen_invariant; [intros s; repeat split | exact Hinv].
    + apply onScreen_inRange; [intros s; repeat split | exact H].
  - destruct (render _) as [| | | q explained |]; try exact H.
    destruct explained; [exact H|].
    apply onScreen_inRange; [|exact H].
    intros s. unfold handleAnswerSelect.
    destruct (showExplanation s) eqn:E; repeat split; try (symmetry; exact E); exact E.
  - destruct (render _) as [| | | q explained |] eqn:R; try exact H.
    destruct (_ || _); [exact H|].
    apply SessionInvariant.render_question in R. destruct R as (_ & Hq & _).
    apply inRange_of_index.
    destruct (submitAnswer_index now ok w) as [-> ->].
    apply nth_error_Some. rewrite Hq. discriminate.
  - destruct (render _) as [| | | q explained |] eqn:R; try exact H.
    destruct explained; [|exact H].
    apply SessionInvariant.render_question in R. destruct R as (_ & Hq & _).
    assert (Hidx : (currentQuestionIndex (screen w) < List.length (questions (screen w)))%nat)
      by (apply nth_error_Some; rewrite Hq; discriminate).
    unfold nextQuestion.
    destruct (Z.ltb_spec (Z.of_nat (currentQuestionIndex (screen w)))
                         (Z.of_nat (List.length (questions (screen w))) - 1)) as [Hlt|Hge].
    + apply inRange_of_index. destruct w as [s d c a].
      cbn [screen onScreen setShowExplanation setSelectedAnswer setCurrentQuestionIndex
           questions currentQuestionIndex] in *. lia.
    + apply inRange_of_index.
      destruct (completeSession_screen e w) as [-> | ->]; [exact Hidx|].
      destruct (screen w); exact Hidx.
  - destruct (render _) as [| | c t p | |] eqn:R; try exact H.
    unfold restartPractice.
    assert (Hne : questions (screen w) <> []).
    { unfold render in R. destruct (loading (screen w)); [discriminate|].
      destruct (Z.eqb_spec (Z.of_nat (List.length (questions (screen w)))) 0) as [|Hne];
        [discriminate|].
      intros E. rewrite E in Hne. apply Hne. reflexivity. }
    apply (loadQuestions_inRange Q); [exact Hfair | |].
    + destruct w as [s d c' a]. destruct Hinv as (HQ & Hlen & _ & _).
      unfold sessionInvariant.
      cbn [screen db onScreen setSessionComplete setUserAnswers setShowExplanation
           setSelectedAnswer setCurrentQuestionIndex
           questions sessionComplete userAnswers currentQuestionIndex showExplanation] in *.
      split; [assumption|]. split; [assumption|]. split; [reflexivity | discriminate].
    + apply inRange_of_index. destruct w as [s d c' a].
      cbn [screen onScreen setSessionComplete setUserAnswers setShowExplanation
           setSelectedAnswer setCurrentQuestionIndex questions currentQuestionIndex] in *.
      destruct (questions s); [contradiction | cbn; lia].
  - destruct (render _) as [| | | |]; try exact H.
    apply (loadQuestions_inRange Q); assumption.
Qed.

Lemma run_inRange Q evs w :
  Forall fairEvent evs ->
  sessionInvariant Q w -> indexInRange w ->
  sessionInvariant Q (run w evs) /\ indexInRange (run w evs).
Proof.
  revert w. induction evs as [|ev evs IH]; intros w Hfair Hinv H; [split; assumption|].
  inversion Hfair as [|? ? Hev Hrest]; subst.
  cbn [run fold_left]. apply IH; [exact Hrest | |].
  - apply SessionInvariant.step_invariant; assumption.
  - apply (step_inRange Q); assumption.
Qed.

Lemma mounted_inRange w : mounted w -> indexInRange w.
Proof. unfold mounted, indexInRange. intros ->. left. repeat split. Qed.

End PracticeFacts.

(** When every handler is answered before the next event, the question
    view always has a current question, the session list never holds more
    answers than there are questions, and at most 5 questions are on
    screen. *)
Lemma sequential_run_in_range w evs :
  mounted w ->
  Forall fairEvent evs ->
  let s := Practice.screen (Practice.run w evs) in
  Practice.render s <> Practice.RenderError
  /\ (List.length (Practice.userAnswers s) <= List.length (Practice.questions s))%nat
  /\ (List.length (Practice.questions s) <= 5)%nat.
Proof.
  intros Hm Hfair s.
  destruct (PracticeFacts.run_inRange _ evs w Hfair
              (SessionInvariant.mounted_invariant w Hm)
              (PracticeFacts.mounted_inRange w Hm)) as [Hinv Hin].
  fold s in Hinv, Hin. unfold sessionInvariant in Hinv. unfold indexInRange in Hin.
  change (Practice.screen (Practice.run w evs)) with s in Hinv, Hin.
  destruct Hinv as (_ & Hlen & Hrun & Hdone).
  split; [|split].
  - unfold Practice.render. destruct (Practice.loading s); [discriminate|].
    destruct (Z.eqb_spec (Z.of_nat (List.length (Practice.questions s))) 0) as [|Hne];
      [discriminate|].
    destruct (Practice.sessionComplete s).
    + destruct (Practice.sessionResults _ _) as [[c t] p]. discriminate.
    + destruct Hin as [(Hnil & _) | Hidx].
      * rewrite Hnil in Hne. cbn in Hne. lia.
      * apply nth_error_Some in Hidx.
        destruct (nth_error _ _); [discriminate | contradiction].
  - destruct (Practice.sessionComplete s) eqn:Hc.
    + destruct (Hdone eq_refl) as [_ ->]. lia.
    + specialize (Hrun eq_refl).
      destruct Hin as [(_ & _ & -> & _) | Hidx]; [cbn; lia|].
      destruct (Practice.showExplanation s); lia.
  - destruct Hlen as [-> | ->]; [cbn; lia | apply firstn_le_length].
Qed.

(** X2.  Once the explanation of a question is on screen, the answer is
    locked: presses on the options and on the submit button, in any number
    and order, change nothing, neither on the screen nor in the backend. *)
Theorem submitted_answer_is_locked w evs :
  Practice.showExplanation (Practice.screen w) = true ->
  Forall answerPress evs ->
  Practice.run w evs = w.
Proof.
  intros Hexplained Hevs. induction Hevs as [|ev evs Hev _ IH]; [reflexivity|].
  cbn [Practice.run fold_left].
  assert (Hstep : Practice.step w ev = w).
  { unfold Practice.step.
    destruct ev as [stateUser isLoading le | key | now ok | e | le | le];
      cbn [answerPress] in Hev; try contradiction.
    - destruct (Practice.render _) as [| | | q explained |] eqn:R; try reflexivity.
      apply SessionInvariant.render_question in R. destruct R as (_ & _ & ->).
      rewrite Hexplained. reflexivity.
    - destruct (Practice.render _) as [| | | q explained |] eqn:R; try reflexivity.
      apply SessionInvariant.render_question in R. destruct R as (_ & _ & ->).
      rewrite Hexplained. reflexivity. }
  rewrite Hstep. exact IH.
Qed.

Lemma submitted_answer_is_locked_witness :
  Practice.run Sample.newcomer
    [Practice.PressOption Practice.KeyC; Practice.PressSubmit Sample.mar01 true;
     Practice.PressOption Practice.KeyA]
  = Sample.newcomer.
Proof.
  assert (Hexplained : Practice.showExplanation (Practice.screen Sample.newcomer) = true)
    by (vm_compute; reflexivity).
  assert (Hevs : Forall answerPress
                   [Practice.PressOption Practice.KeyC;
                    Practice.PressSubmit Sample.mar01 true;
                    Practice.PressOption Practice.KeyA])
    by (repeat constructor).
  exact (submitted_answer_is_locked _ _ Hexplained Hevs).
Defined.

(** What [loadQuestions] does to the world, case by case. *)
Lemma loadQuestions_cases le w :
  let result := Backend.questions_list 5 (Practice.db w) in
  let w' := Practice.loadQuestions le w in
  Practice.db w' = Practice.db w
  /\ Practice.loading (Practice.screen w') = false
  /\ Practice.currentQuestionIndex (Practice.screen w')
     = Practice.currentQuestionIndex (Practice.screen w)
  /\ Practice.userAnswers (Practice.screen w') = Practice.userAnswers (Practice.screen w)
  /\ Practice.selectedAnswer (Practice.screen w')
     = Practice.selectedAnswer (Practice.screen w)
  /\ Practice.showExplanation (Practice.screen w')
     = Practice.showExplanation (Practice.screen w)
  /\ Practice.sessionComplete (Practice.screen w')
     = Practice.sessionComplete (Practice.screen w)
  /\ Practice.user (Practice.screen w') = Practice.user (Practice.screen w)
  /\ ((Practice.fetchFails le = false /\ result <> []
       /\ Practice.questions (Practice.screen w') = Practice.shuffle le result
       /\ Practice.alerts w' = Practice.alerts w
       /\ Practice.console w' = Practice.console w)
      \/ ((Practice.fetchFails le = true \/ result = [])
          /\ Practice.questions (Practice.screen w') = Practice.questions (Practice.screen w)
          /\ exists msg, Practice.alerts w' = Practice.alerts w ++ [msg])).
Proof.
  intros result w'. subst result w'. destruct w as [s d c a].
  unfold Practice.loadQuestions.
  cbn [Practice.onScreen Practice.screen Practice.db].
  destruct (Practice.fetchFails le).
  - cbn. repeat (split; [reflexivity|]). right.
    split; [left; reflexivity|]. split; [reflexivity|]. eexists; reflexivity.
  - destruct (Backend.questions_list 5 d) as [|q qs] eqn:E.
    + cbn. repeat (split; [reflexivity|]). right.
      split; [right; reflexivity|]. split; [reflexivity|]. eexists; reflexivity.
    + cbn -[Backend.questions_list]. repeat (split; [reflexivity|]). left.
      split; [reflexivity|]. split; [discriminate|]. repeat split; reflexivity.
Qed.

(** X3.  [loadQuestions] never writes to the backend and always ends with
    the loading flag down.  When the query succeeds with at least one
    question, the screen gets the shuffle of the (at most five) questions
    fetched and nothing is reported; when it fails or returns nothing, the
    questions on screen stay and exactly one alert is shown.  The running
    session (index, answers, selection) is not touched in either case. *)
Theorem loadQuestions_outcomes le w :
  let result := Backend.questions_list 5 (Practice.db w) in
  let w' := Practice.loadQuestions le w in
  Practice.db w' = Practice.db w
  /\ Practice.loading (Practice.screen w') = false
  /\ Practice.currentQuestionIndex (Practice.screen w')
     = Practice.currentQuestionIndex (Practice.screen w)
  /\ Practice.userAnswers (Practice.screen w') = Practice.userAnswers (Practice.screen w)
  /\ Practice.selectedAnswer (Practice.screen w')
     = Practice.selectedAnswer (Practice.screen w)
  /\ (List.length result <= 5)%nat
  /\ ((Practice.fetchFails le = false /\ result <> []
       /\ Practice.questions (Practice.screen w') = Practice.shuffle le result
       /\ Practice.alerts w' = Practice.alerts w)
      \/ ((Practice.fetchFails le = true \/ result = [])
          /\ Practice.questions (Practice.screen w') = Practice.questions (Practice.screen w)
          /\ exists msg, Practice.alerts w' = Practice.alerts w ++ [msg])).
Proof.
  intros result w'.
  destruct (loadQuestions_cases le w)
    as (Hdb & Hl & Hi & Ha & Hs & _ & _ & _ & Hcase).
  repeat (split; [assumption|]).
  split; [apply firstn_le_length|].
  destruct Hcase as [(F & N & Q & A & _) | (F & Q & A)]; [left | right]; repeat split;
    assumption.
Qed.

(** X4.  "Practice Again" ([restartPractice]) always starts over from the
    first question, with an empty session list, nothing selected, no
    explanation and the session not complete, and leaves the backend as it
    is, whether or not the questions can be reloaded; when they cannot, the
    previous questions are asked again. *)
Theorem restartPractice_starts_over le w :
  let w' := Practice.restartPractice le w in
  Practice.db w' = Practice.db w
  /\ Practice.currentQuestionIndex (Practice.screen w') = 0%nat
  /\ Practice.userAnswers (Practice.screen w') = []
  /\ Practice.selectedAnswer (Practice.screen w') = None
  /\ Practice.showExplanation (Practice.screen w') = false
  /\ Practice.sessionComplete (Practice.screen w') = false
  /\ Practice.loading (Practice.screen w') = false
  /\ (Practice.fetchFails le = true \/ Backend.questions_list 5 (Practice.db w) = [] ->
      Practice.questions (Practice.screen w') = Practice.questions (Practice.screen w)).
Proof.
  intros w'. subst w'. unfold Practice.restartPractice.
  match goal with |- context [Practice.loadQuestions le ?x] => set (w0 := x) end.
  destruct (loadQuestions_cases le w0)
    as (Hdb & Hl & Hi & Ha & Hs & He & Hc & _ & Hcase).
  rewrite Hdb, Hl, Hi, Ha, Hs, He, Hc.
  destruct w as [s d c a]. cbn [w0 Practice.onScreen Practice.screen Practice.db] in *.
  repeat (split; [reflexivity|]).
  intros Hfail. destruct Hcase as [(F & N & _) | (_ & Q & _)].
  - destruct Hfail as [Hf | Hn]; [congruence | contradiction].
  - rewrite Q. reflexivity.
Qed.

Lemma restartPractice_starts_over_witness :
  Practice.questions
    (Practice.screen
       (Practice.restartPractice
          {| Practice.fetchFails := true; Practice.shuffle := fun l => l |}
          Sample.newcomer))
  = Practice.questions (Practice.screen Sample.newcomer).
Proof.
  exact (proj2 (proj2 (proj2 (proj2 (proj2 (proj2 (proj2
           (restartPractice_starts_over
              {| Practice.fetchFails := true; Practice.shuffle := fun l => l |}
              Sample.newcomer)))))))
           (or_introl eq_refl)).
Defined.

(** [completeSession] reads the screen and the record collections only. *)
Lemma completeSession_reads e w1 w2 :
  Practice.screen w1 = Practice.screen w2 ->
  Practice.db w1 = Practice.db w2 ->
  Practice.screen (Practice.completeSession e w1)
  = Practice.screen (Practice.completeSession e w2)
  /\ Practice.db (Practice.completeSession e w1)
     = Practice.db (Practice.completeSession e w2).
Proof.
  destruct w1 as [s1 d1 c1 a1], w2 as [s2 d2 c2 a2].
  cbn [Practice.screen Practice.db]. intros <- <-.
  unfold Practice.completeSession. cbn [Practice.screen Practice.db].
  destruct (Practice.user s1) as [u|]; [|split; reflexivity].
  destruct (nth_error _ _) as [q|]; [|split; reflexivity].
  destruct (Practice.listFails e); [split; reflexivity|].
  destruct (Practice.userWriteFails e); [split; reflexivity|].
  destruct (Backend.users_list (Practice.uid u) d1) as [|existingUser rest];
    destruct (Practice.sessionCreateFails e); split; reflexivity.
Qed.

(** X5.  When the query for the user's record or the write of that record
    fails, [completeSession] saves nothing and leaves the screen as it is,
    so that the session is still open; it reports the failure once.  A
    second press then behaves as the first press would have without the
    failure. *)
Theorem failed_completion_saves_nothing e w u q :
  Practice.user (Practice.screen w) = Some u ->
  nth_error (Practice.questions (Practice.screen w))
            (Practice.currentQuestionIndex (Practice.screen w)) = Some q ->
  Practice.listFails e = true \/ Practice.userWriteFails e = true ->
  let w' := Practice.completeSession e w in
  Practice.db w' = Practice.db w
  /\ Practice.screen w' = Practice.screen w
  /\ Practice.alerts w'
     = Practice.alerts w ++ ["Failed to save progress. Please try again."%string]
  /\ forall e',
       Practice.db (Practice.completeSession e' w')
       = Practice.db (Practice.completeSession e' w)
       /\ Practice.screen (Practice.completeSession e' w')
          = Practice.screen (Practice.completeSession e' w).
Proof.
  intros Hu Hq Hfail w'.
  assert (Hw' : w' = Practice.sessionFailed w).
  { unfold w', Practice.completeSession. rewrite Hu, Hq.
    destruct (Practice.listFails e); [reflexivity|].
    destruct (Practice.userWriteFails e); [reflexivity|].
    destruct Hfail; discriminate. }
  rewrite Hw'. destruct w as [s d c a].
  split; [reflexivity|]. split; [reflexivity|]. split; [reflexivity|].
  intros e'. destruct (completeSession_reads e'
    (Practice.sessionFailed {| Practice.screen := s; Practice.db := d;
                               Practice.console := c; Practice.alerts := a |})
    {| Practice.screen := s; Practice.db := d;
       Practice.console := c; Practice.alerts := a |} eq_refl eq_refl) as [Hs Hd].
  split; assumption.
Qed.

Lemma failed_completion_saves_nothing_witness :
  Practice.db (Practice.completeSession (backendDown Sample.mar01) Sample.newcomer)
  = Practice.db Sample.newcomer.
Proof.
  assert (Hu : Practice.user (Practice.screen Sample.newcomer) = Some Sample.alice)
    by (vm_compute; reflexivity).
  assert (Hq : nth_error (Practice.questions (Practice.screen Sample.newcomer))
                 (Practice.currentQuestionIndex (Practice.screen Sample.newcomer))
               = Some Sample.q5) by (vm_compute; reflexivity).
  exact (proj1 (failed_completion_saves_nothing (backendDown Sample.mar01)
                  _ _ _ Hu Hq (or_introl eq_refl))).
Defined.

(** The world [completeSession] leaves once the user's record is written. *)
Lemma completeSession_written e w u q :
  Completes e w u q ->
  exists d,
    Backend.users_list (Practice.uid u) d
    = recordOf u (Practice.completeSession e w)
    /\ Backend.questions d = Backend.questions (Practice.db w)
    /\ Backend.userAnswers d = Backend.userAnswers (Practice.db w)
    /\ Backend.studySessions d = Backend.studySessions (Practice.db w)
    /\ (forall other, other <> Practice.uid u ->
          Backend.users_list other d = Backend.users_list other (Practice.db w))
    /\ Practice.completeSession e w
       = if Practice.sessionCreateFails e then
           Practice.sessionFailed
             {| Practice.screen := Practice.screen w; Practice.db := d;
                Practice.console := Practice.console w;
                Practice.alerts := Practice.alerts w |}
         else
           {| Practice.screen := Practice.setSessionComplete true (Practice.screen w);
              Practice.db :=
                Backend.studySessions_create
                  {| Backend.sessionUserId := Practice.uid u;
                     Backend.sessionDate := Practice.today e;
                     Backend.questionsAnswered := mergedTotal w;
                     Backend.sessionCorrectAnswers := mergedCorrect w q;
                     Backend.sessionDuration := 0 |} d;
              Practice.console := Practice.console w;
              Practice.alerts := Practice.alerts w |}.
Proof.
  intros (Hu & Hq & Hl & Hw).
  assert (Hother : forall other f users,
            other <> Practice.uid u ->
            (forall r, Backend.id (f r) = Backend.id r) ->
            filter (fun r => String.eqb (Backend.id r) other)
                   (map (fun r => if String.eqb (Backend.id r) (Practice.uid u)
                                  then f r else r) users)
            = filter (fun r => String.eqb (Backend.id r) other) users).
  { intros other f users Hne Hid. induction users as [|r l IH]; [reflexivity|].
    cbn [map filter]. destruct (String.eqb_spec (Backend.id r) (Practice.uid u)) as [E|N].
    - rewrite Hid. destruct (String.eqb_spec (Backend.id r) other) as [E'|_];
        [congruence | exact IH].
    - rewrite IH. reflexivity. }
  unfold recordOf, Practice.completeSession. rewrite Hu, Hq, Hl, Hw.
  fold (mergedCorrect w q). fold (mergedTotal w).
  destruct w as [s d c a]. cbn [Practice.screen Practice.db Practice.console Practice.alerts].
  destruct (Backend.users_list (Practice.uid u) d) as [|existingUser rest] eqn:E.
  - eexists. split; [|split; [|split; [|split; [|split]]]];
      [| | | | | destruct (Practice.sessionCreateFails e); reflexivity];
      try reflexivity.
    + destruct (Practice.sessionCreateFails e); reflexivity.
    + intros other Hne. unfold Backend.users_list, Backend.users_create.
      cbn [Backend.users]. rewrite filter_app. cbn [filter Practice.createdUser Backend.id].
      destruct (String.eqb_spec (Practice.uid u) other) as [E'|_]; [congruence|].
      rewrite app_nil_r. reflexivity.
  - eexists. split; [|split; [|split; [|split; [|split]]]];
      [| | | | | destruct (Practice.sessionCreateFails e); reflexivity];
      try reflexivity.
    + destruct (Practice.sessionCreateFails e); reflexivity.
    + intros other Hne. unfold Backend.users_list, Backend.users_update.
      cbn [Backend.users]. rewrite Hother; [reflexivity | exact Hne | reflexivity].
Qed.

(** After [completeSession] has written it, the user has one record. *)
Lemma record_after_completion e w u q :
  Completes e w u q -> exists r, recordOf u (Practice.completeSession e w) = [r].
Proof.
  intros H. rewrite (completeSession_record e w u q H).
  destruct (recordOf u w); eexists; reflexivity.
Qed.

(** X6.  When the user's record is written and the write of the study
    session row then fails, the record holds the counters it had (none for
    a user without a record) plus the counts [completeSession] computed, no
    session row is added and the session stays open.  Completing it again,
    with a backend that answers, adds the same counts to the record a
    second time and adds one session row. *)
Theorem retry_merges_the_tally_twice e1 e2 w u q :
  Completes e1 w u q ->
  Practice.sessionCreateFails e1 = true ->
  Practice.listFails e2 = false ->
  Practice.userWriteFails e2 = false ->
  Practice.sessionCreateFails e2 = false ->
  let w1 := Practice.completeSession e1 w in
  let w2 := Practice.completeSession e2 w1 in
  Practice.screen w1 = Practice.screen w
  /\ Backend.studySessions (Practice.db w1) = Backend.studySessions (Practice.db w)
  /\ exists r1 r2,
       recordOf u w1 = [r1]
       /\ recordOf u w2 = [r2]
       /\ Backend.totalQuestionsAnswered r2
          = Backend.totalQuestionsAnswered r1 + mergedTotal w
       /\ Backend.correctAnswers r2 = Backend.correctAnswers r1 + mergedCorrect w q
       /\ Backend.totalQuestionsAnswered r1
          = fst (countersOf (recordOf u w)) + mergedTotal w
       /\ Backend.correctAnswers r1
          = snd (countersOf (recordOf u w)) + mergedCorrect w q
       /\ List.length (Backend.studySessions (Practice.db w2))
          = S (List.length (Backend.studySessions (Practice.db w))).
Proof.
  intros H Hfail Hl2 Hw2 Hs2 w1 w2.
  destruct (completeSession_written e1 w u q H) as (d & Hrec & _ & _ & Hsess & _ & Hw1).
  rewrite Hfail in Hw1. fold w1 in Hw1, Hrec.
  assert (Hscreen : Practice.screen w1 = Practice.screen w) by (rewrite Hw1; reflexivity).
  assert (Hdb : Practice.db w1 = d) by (rewrite Hw1; reflexivity).
  split; [exact Hscreen|]. split; [rewrite Hdb; exact Hsess|].
  assert (Hfirst : exists r1,
             recordOf u w1 = [r1]
             /\ Backend.totalQuestionsAnswered r1
                = fst (countersOf (recordOf u w)) + mergedTotal w
             /\ Backend.correctAnswers r1
                = snd (countersOf (recordOf u w)) + mergedCorrect w q).
  { destruct (recordOf u w) as [|existingUser others] eqn:Hprior.
    - destruct (completeSession_create e1 w u q H Hprior) as (r & Hr & _ & _ & _ & Ht & Hc).
      exists r. cbn [countersOf fst snd]. repeat split; [exact Hr | lia | lia].
    - destruct (completeSession_update e1 w u q _ _ H Hprior)
        as (r & Hr & _ & _ & _ & Ht & Hc).
      exists r. cbn [countersOf fst snd]. repeat split; [exact Hr | lia | lia]. }
  destruct Hfirst as (r1 & Hr1 & Ht1 & Hc1).
  assert (H2 : Completes e2 w1 u q).
  { destruct H as (Hu & Hq & _). unfold Completes. rewrite Hscreen. repeat split; assumption. }
  destruct (completeSession_update e2 w1 u q r1 [] H2 Hr1)
    as (r2 & Hr2 & _ & _ & _ & Ht & Hc).
  fold w2 in Hr2.
  assert (Hmt : mergedTotal w1 = mergedTotal w) by (unfold mergedTotal; rewrite Hscreen; reflexivity).
  assert (Hmc : mergedCorrect w1 q = mergedCorrect w q)
    by (unfold mergedCorrect; rewrite Hscreen; reflexivity).
  exists r1, r2. split; [exact Hr1|]. split; [exact Hr2|].
  split; [lia|]. split; [lia|]. split; [exact Ht1|]. split; [exact Hc1|].
  destruct (completeSession_written e2 w1 u q H2) as (d2 & _ & _ & _ & Hsess2 & _ & Hw2').
  rewrite Hs2 in Hw2'. fold w2 in Hw2'. rewrite Hw2'.
  cbn [Practice.db Backend.studySessions_create Backend.studySessions].
  rewrite length_app, Hsess2, Hdb, Hsess. cbn [List.length]. lia.
Qed.

Lemma retry_merges_the_tally_twice_witness :
  exists r1 r2,
    recordOf Sample.alice
      (Practice.completeSession (sessionRowLost Sample.jan10) Sample.returning) = [r1]
    /\ recordOf Sample.alice
         (Practice.completeSession (Sample.sessionAt Sample.jan10)
            (Practice.completeSession (sessionRowLost Sample.jan10) Sample.returning))
       = [r2]
    /\ Backend.totalQuestionsAnswered r1 = 10 + 5
    /\ Backend.totalQuestionsAnswered r2 = 10 + 5 + 5.
Proof.
  assert (H : Completes (sessionRowLost Sample.jan10) Sample.returning Sample.alice Sample.q5)
    by (vm_compute; repeat split; reflexivity).
  assert (Hprev : fst (countersOf (recordOf Sample.alice Sample.returning)) = 10)
    by (vm_compute; reflexivity).
  assert (Htot : mergedTotal Sample.returning = 5) by (vm_compute; reflexivity).
  destruct (retry_merges_the_tally_twice (sessionRowLost Sample.jan10)
              (Sample.sessionAt Sample.jan10) Sample.returning Sample.alice Sample.q5
              H eq_refl eq_refl eq_refl eq_refl)
    as (_ & _ & r1 & r2 & H1 & H2 & Ht & _ & Ht1 & _).
  rewrite Hprev, Htot in Ht1. rewrite Htot in Ht.
  exists r1, r2. split; [exact H1|]. split; [exact H2|]. split; [exact Ht1 | lia].
Defined.



(** X8.  A submitted answer is logged as it was judged.  When the write
    succeeds, one row joins the log of answers and one answer the session
    list; both name the current question and the chosen option, the row
    names the signed-in user and the time of the submission, and the row
    counts as correct in the statistics exactly when the session judged the
    answer correct, which is when the chosen option is the question's
    correct answer.  Users and study sessions are not written. *)
Theorem logged_answer_matches_verdict now w sel u q :
  Practice.selectedAnswer (Practice.screen w) = Some sel ->
  sel <> EmptyString ->
  Practice.user (Practice.screen w) = Some u ->
  nth_error (Practice.questions (Practice.screen w))
            (Practice.currentQuestionIndex (Practice.screen w)) = Some q ->
  let w' := Practice.submitAnswer now true w in
  exists row a,
    Backend.userAnswers (Practice.db w') = Backend.userAnswers (Practice.db w) ++ [row]
    /\ Practice.userAnswers (Practice.screen w')
       = Practice.userAnswers (Practice.screen w) ++ [a]
    /\ Backend.answerUserId row = Practice.uid u
    /\ Backend.questionId row = Backend.questionKey q
    /\ Practice.UserAnswer.questionId a = Backend.questionKey q
    /\ Backend.selectedOption row = sel
    /\ Practice.UserAnswer.selectedAnswer a = sel
    /\ Backend.answeredAt row = JsDate.toISOString now
    /\ (Backend.isCorrect row >? 0) = Practice.UserAnswer.isCorrect a
    /\ Practice.UserAnswer.isCorrect a = String.eqb sel (Backend.correctAnswer q)
    /\ Backend.users (Practice.db w') = Backend.users (Practice.db w)
    /\ Backend.studySessions (Practice.db w') = Backend.studySessions (Practice.db w).
Proof.
  intros Hsel Hne Hu Hq w'. unfold w', Practice.submitAnswer.
  rewrite Hsel, Hu, Hq.
  destruct (String.eqb_spec sel EmptyString) as [E|_]; [contradiction|].
  destruct w as [s d c a]. cbn [Practice.screen Practice.db] in *.
  eexists. eexists.
  cbn [Practice.onScreen Practice.onDb Practice.screen Practice.db
       Practice.setUserAnswers Practice.setShowExplanation Practice.userAnswers
       Backend.userAnswers_create Backend.userAnswers Backend.users
       Backend.studySessions].
  split; [reflexivity|]. split; [reflexivity|].
  cbn [Backend.answerUserId Backend.questionId Backend.selectedOption
       Backend.answeredAt Backend.isCorrect Practice.UserAnswer.questionId
       Practice.UserAnswer.selectedAnswer Practice.UserAnswer.isCorrect].
  do 6 (split; [reflexivity|]).
  split; [destruct (String.eqb sel (Backend.correctAnswer q)); reflexivity|].
  do 2 (split; [reflexivity|]).
  reflexivity.
Qed.

Lemma logged_answer_matches_verdict_witness :
  exists row,
    Backend.userAnswers (Practice.db (Practice.submitAnswer Sample.jan10 true Sample.choosing))
    = [row]
    /\ Backend.isCorrect row = 1.
Proof.
  assert (Hsel : Practice.selectedAnswer (Practice.screen Sample.choosing) = Some "A"%string)
    by (vm_compute; reflexivity).
  assert (Hne : "A"%string <> EmptyString) by discriminate.
  assert (Hu : Practice.user (Practice.screen Sample.choosing) = Some Sample.alice)
    by (vm_compute; reflexivity).
  assert (Hq : nth_error (Practice.questions (Practice.screen Sample.choosing))
                 (Practice.currentQuestionIndex (Practice.screen Sample.choosing))
               = Some Sample.q1) by (vm_compute; reflexivity).
  destruct (logged_answer_matches_verdict Sample.jan10 Sample.choosing "A" Sample.alice
              Sample.q1 Hsel Hne Hu Hq)
    as (row & a & Hrows & _ & _ & _ & _ & _ & _ & _ & Hflag & Hverdict & _).
  exists row. split; [exact Hrows|].
  rewrite Hverdict in Hflag. change (String.eqb "A" (Backend.correctAnswer Sample.q1)) with true in Hflag.
  destruct (Z.gtb_spec (Backend.isCorrect row) 0) as [Hpos|]; [|discriminate].
  clear - Hrows Hpos.
  assert (Hrow : Backend.userAnswers
                   (Practice.db (Practice.submitAnswer Sample.jan10 true Sample.choosing))
                 = [{| Backend.answerUserId := "u1"; Backend.questionId := "q1";
                       Backend.selectedOption := "A"; Backend.isCorrect := 1;
                       Backend.answeredAt := "2024-01-10T12:00:00.000Z" |}])
    by (vm_compute; reflexivity).
  rewrite Hrow in Hrows. injection Hrows as <-. reflexivity.
Defined.

(** * The bars and percentages of the screens *)

Lemma questionProgress_bounds s :
  (Practice.currentQuestionIndex s < List.length (Practice.questions s) <= 5)%nat ->
  PrimFloat.ltb (Js.num 0) (questionProgress s) = true
  /\ PrimFloat.leb (questionProgress s) (Js.num 100) = true
  /\ (PrimFloat.eqb (questionProgress s) (Js.num 100) = true
      <-> S (Practice.currentQuestionIndex s) = List.length (Practice.questions s)).
Proof.
  unfold questionProgress.
  generalize (Practice.currentQuestionIndex s) as i.
  generalize (List.length (Practice.questions s)) as n.
  intros n i H.
  destruct n as [|[|[|[|[|[|n]]]]]]; [lia | | | | | | lia];
    destruct i as [|[|[|[|[|i]]]]]; try lia;
    vm_compute; (split; [reflexivity|]); (split; [reflexivity|]);
    split; intros E; first [reflexivity | discriminate].
Qed.

(** X9.  Whenever the question view is on screen, the progress bar above
    the question shows more than 0 and at most 100 percent, and 100 percent
    exactly on the last question. *)
Theorem progress_bar_within_bounds w evs q explained :
  mounted w ->
  Forall fairEvent evs ->
  let s := Practice.screen (Practice.run w evs) in
  Practice.render s = Practice.QuestionView q explained ->
  PrimFloat.ltb (Js.num 0) (questionProgress s) = true
  /\ PrimFloat.leb (questionProgress s) (Js.num 100) = true
  /\ (PrimFloat.eqb (questionProgress s) (Js.num 100) = true
      <-> S (Practice.currentQuestionIndex s) = List.length (Practice.questions s)).
Proof.
  intros Hm Hfair s R.
  destruct (PracticeFacts.run_inRange _ evs w Hfair
              (SessionInvariant.mounted_invariant w Hm)
              (PracticeFacts.mounted_inRange w Hm)) as [Hinv _].
  destruct Hinv as (_ & Hlen & _ & _). fold s in Hlen.
  apply SessionInvariant.render_question in R. destruct R as (_ & Hq & _).
  apply questionProgress_bounds. split.
  - apply nth_error_Some. rewrite Hq. discriminate.
  - destruct Hlen as [-> | ->]; [cbn; lia | apply firstn_le_length].
Qed.

Lemma progress_bar_within_bounds_witness :
  PrimFloat.leb (questionProgress (Practice.screen Sample.choosing)) (Js.num 100) = true.
Proof.
  assert (Hm : mounted (Sample.world [])) by reflexivity.
  assert (Hfair : Forall fairEvent
                    [Practice.AuthStateChanged (Some Sample.alice) false Sample.inOrder;
                     Practice.PressOption Practice.KeyA])
    by (repeat constructor; intros l; reflexivity).
  assert (R : Practice.render
                (Practice.screen
                   (Practice.run (Sample.world [])
                      [Practice.AuthStateChanged (Some Sample.alice) false Sample.inOrder;
                       Practice.PressOption Practice.KeyA]))
              = Practice.QuestionView Sample.q1 false) by (vm_compute; reflexivity).
  exact (proj1 (proj2 (progress_bar_within_bounds _ _ _ _ Hm Hfair R))).
Defined.

Lemma getProgressLevel_total user :
  StatsScreen.getProgressLevel (Some user)
  = StatsScreen.getProgressLevel
      (Some (userWith (Screens.totalQuestionsAnswered user) 0)).
Proof. reflexivity. Qed.

Lemma levelBarTable_holds : levelBarTable = true.
Proof. vm_compute. reflexivity. Qed.

(** X10.  The bar of the progress level, for a user with a count of
    answered questions that is not negative: it shows from 0 to 100
    percent; 100 percent exactly from 500 questions on, where the level is
    Expert; and 0 percent exactly at 0, 50 and 200 questions, where a level
    begins. *)
Theorem progress_level_within_bounds user :
  0 <= Screens.totalQuestionsAnswered user ->
  let total := Screens.totalQuestionsAnswered user in
  let shown := StatsScreen.getProgressLevel (Some user) in
  PrimFloat.leb (Js.num 0) (StatsScreen.progress shown) = true
  /\ PrimFloat.leb (StatsScreen.progress shown) (Js.num 100) = true
  /\ (PrimFloat.eqb (StatsScreen.progress shown) (Js.num 100) = true <-> 500 <= total)
  /\ (StatsScreen.level shown = "Expert"%string <-> 500 <= total)
  /\ (PrimFloat.eqb (StatsScreen.progress shown) (Js.num 0) = true
      <-> total = 0 \/ total = 50 \/ total = 200).
Proof.
  intros Hpos total shown.
  destruct (Z.ltb_spec total 500) as [Hlt | Hge].
  - pose proof levelBarTable_holds as T. unfold levelBarTable in T.
    rewrite forallb_forall in T.
    assert (Hin : In total (upto 499)) by (apply In_upto; lia).
    specialize (T total Hin). unfold levelBarChecked in T.
    change (StatsScreen.getProgressLevel (Some (userWith total 0))) with shown in T.
    repeat (apply andb_true_iff in T; destruct T as [T ?]).
    match goal with H : Bool.eqb _ _ = true |- _ => apply Bool.eqb_prop in H; rename H into T0 end.
    match goal with H : negb (PrimFloat.eqb _ _) = true |- _ =>
      apply negb_true_iff in H; rename H into T100 end.
    match goal with H : negb (String.eqb _ _) = true |- _ =>
      apply negb_true_iff, String.eqb_neq in H; rename H into Tlevel end.
    split; [exact T|]. split; [assumption|].
    split; [rewrite T100; split; [discriminate | lia]|].
    split; [split; [contradiction | lia]|].
    rewrite T0, !orb_true_iff, !Z.eqb_eq. tauto.
  - assert (E : shown = {| StatsScreen.level := "Expert";
                           StatsScreen.progress := Js.num 100;
                           StatsScreen.nextLevel := "Master" |}).
    { unfold shown, StatsScreen.getProgressLevel. fold total.
      destruct (Z.geb_spec total 500) as [_|]; [reflexivity | lia]. }
    rewrite E. cbn [StatsScreen.progress StatsScreen.level].
    split; [vm_compute; reflexivity|]. split; [vm_compute; reflexivity|].
    split; [split; [intros _; exact Hge | intros _; vm_compute; reflexivity]|].
    split; [split; [intros _; exact Hge | reflexivity]|].
    split; [vm_compute; discriminate | lia].
Qed.

Lemma progress_level_within_bounds_witness :
  PrimFloat.leb
    (StatsScreen.progress (StatsScreen.getProgressLevel (Some (userWith 120 80))))
    (Js.num 100) = true.
Proof.
  assert (H : 0 <= Screens.totalQuestionsAnswered (userWith 120 80))
    by (vm_compute; discriminate).
  exact (proj1 (proj2 (progress_level_within_bounds (userWith 120 80) H))).
Defined.

Lemma roundHalfUp_range c n : 0 <= c <= n -> 0 < n -> 0 <= roundHalfUp (100 * c) n <= 100.
Proof.
  intros Hc Hn. unfold roundHalfUp. split.
  - apply Z.div_pos; lia.
  - assert (H : (2 * (100 * c) + n) / (2 * n) < 101)
      by (apply Z.div_lt_upper_bound; lia).
    lia.
Qed.

(** X11.  The recent performance of the statistics screen is computed from
    the first twenty answers of the list only (the list is loaded most
    recent first): it is 0 for an empty list, and otherwise the share of
    those answers that count as correct, in percent, rounded half up.  It
    lies between 0 and 100, and answers after the twentieth do not change
    it. *)
Theorem recent_performance_of_first_twenty userAnswers :
  let recentAnswers := firstn 20 userAnswers in
  let n := Z.of_nat (List.length recentAnswers) in
  let correct :=
    Z.of_nat (List.length (filter (fun a => Backend.isCorrect a >? 0) recentAnswers)) in
  exists z,
    StatsScreen.getRecentPerformance userAnswers = Js.RInt z
    /\ 0 <= z <= 100
    /\ (userAnswers = [] -> z = 0)
    /\ (userAnswers <> [] -> z = roundHalfUp (100 * correct) n)
    /\ forall older,
         (20 <= List.length userAnswers)%nat ->
         StatsScreen.getRecentPerformance (userAnswers ++ older)
         = StatsScreen.getRecentPerformance userAnswers.
Proof.
  intros recentAnswers n correct.
  assert (Hn : 0 <= n <= 20).
  { unfold n, recentAnswers. pose proof (firstn_le_length 20 userAnswers).
    rewrite length_firstn. lia. }
  assert (Hc : 0 <= correct <= n).
  { unfold correct, n. pose proof (filter_length_le (fun a => Backend.isCorrect a >? 0)
                                     recentAnswers). lia. }
  assert (Hmore : forall older,
             (20 <= List.length userAnswers)%nat ->
             StatsScreen.getRecentPerformance (userAnswers ++ older)
             = StatsScreen.getRecentPerformance userAnswers).
  { intros older Hlen. unfold StatsScreen.getRecentPerformance.
    rewrite firstn_app.
    replace (20 - List.length userAnswers)%nat with 0%nat by lia.
    cbn [firstn]. rewrite app_nil_r. reflexivity. }
  assert (Hval : StatsScreen.getRecentPerformance userAnswers
                 = if n =? 0 then Js.RInt 0 else Js.percentOf correct n) by reflexivity.
  destruct (Z.eqb_spec n 0) as [Hz | Hnz].
  - exists 0. split; [exact Hval|]. split; [lia|]. split; [reflexivity|].
    split; [|exact Hmore].
    intros Hne. exfalso. apply Hne.
    unfold n, recentAnswers in Hz. destruct userAnswers; [reflexivity | cbn in Hz; lia].
  - exists (roundHalfUp (100 * correct) n).
    split; [rewrite Hval; apply percentOf_exact_below_40; lia|].
    split; [apply roundHalfUp_range; lia|].
    split; [|split; [reflexivity | exact Hmore]].
    intros ->. exfalso. apply Hnz. reflexivity.
Qed.

Lemma recent_performance_of_first_twenty_witness :
  StatsScreen.getRecentPerformance (Sample.logged 3 true ++ Sample.logged 1 false)
  = Js.RInt 75.
Proof.
  destruct (recent_performance_of_first_twenty
              (Sample.logged 3 true ++ Sample.logged 1 false))
    as (z & Hz & _ & _ & Hval & _).
  rewrite Hz. f_equal. rewrite Hval by discriminate. vm_compute. reflexivity.
Defined.

(** X12.  The daily goal card of the home screen, for a count of answered
    questions that is not negative: it shows between 0 and 4 of 5
    questions and a bar of 20 percent per question, at most 80 percent, so
    that the goal is never shown as reached; and five answers more (a whole
    session) leave the card as it was. *)
Theorem daily_goal_never_reached user :
  0 <= Screens.totalQuestionsAnswered user ->
  0 <= Home.dailyGoalCount user <= 4
  /\ Home.dailyGoalWidth user = 20 * Home.dailyGoalCount user
  /\ Home.dailyGoalWidth user <= 80
  /\ forall later,
       Screens.totalQuestionsAnswered later = Screens.totalQuestionsAnswered user + 5 ->
       Home.dailyGoalCount later = Home.dailyGoalCount user
       /\ Home.dailyGoalWidth later = Home.dailyGoalWidth user.
Proof.
  intros Hpos. unfold Home.dailyGoalWidth, Home.dailyGoalCount.
  rewrite Z.rem_mod_nonneg by lia.
  pose proof (Z.mod_pos_bound (Screens.totalQuestionsAnswered user) 5 ltac:(lia)) as B.
  split; [lia|]. split; [lia|]. split; [lia|].
  intros later ->. rewrite Z.rem_mod_nonneg by lia.
  replace (Screens.totalQuestionsAnswered user + 5)
    with (Screens.totalQuestionsAnswered user + 1 * 5) by lia.
  rewrite Z.mod_add by lia. split; reflexivity.
Qed.

Lemma daily_goal_never_reached_witness :
  Home.dailyGoalCount (userWith 5 4) = 0 /\ Home.dailyGoalWidth (userWith 5 4) = 0.
Proof.
  assert (H : 0 <= Screens.totalQuestionsAnswered (userWith 0 0)) by (vm_compute; discriminate).
  destruct (daily_goal_never_reached (userWith 0 0) H) as (_ & _ & _ & Hsame).
  destruct (Hsame (userWith 5 4) eq_refl) as [Hc Hw].
  rewrite Hc, Hw. split; reflexivity.
Defined.

(** * The statistics by category *)

Section MapLookups.
Context {V : Type}.

Lemma get_set (m : JsMap.t V) k v k' :
  JsMap.get (JsMap.set m k v) k'
  = if String.eqb k k' then Some v else JsMap.get m k'.
Proof.
  induction m as [|[k0 v0] m IH]; cbn [JsMap.set JsMap.get]; [reflexivity|].
  destruct (String.eqb_spec k0 k) as [->|Hne]; cbn [JsMap.get].
  - destruct (String.eqb k k'); reflexivity.
  - rewrite IH. destruct (String.eqb_spec k0 k') as [->|_]; [|reflexivity].
    destruct (String.eqb_spec k k') as [->|_]; [contradiction | reflexivity].
Qed.

Lemma get_None_keys (m : JsMap.t V) k : JsMap.get m k = None -> ~ In k (map fst m).
Proof.
  induction m as [|[k0 v0] m IH]; cbn [JsMap.get map fst In]; [tauto|].
  destruct (String.eqb_spec k0 k) as [->|Hne]; [discriminate|].
  intros H [E|Hin]; [contradiction | exact (IH H Hin)].
Qed.

Lemma set_keys (m : JsMap.t V) k v :
  map fst (JsMap.set m k v)
  = match JsMap.get m k with
    | Some _ => map fst m
    | None => map fst m ++ [k]
    end.
Proof.
  induction m as [|[k0 v0] m IH]; cbn [JsMap.set JsMap.get map fst]; [reflexivity|].
  destruct (String.eqb_spec k0 k) as [->|Hne]; cbn [map fst]; [reflexivity|].
  rewrite IH. destruct (JsMap.get m k); reflexivity.
Qed.

Lemma set_NoDup (m : JsMap.t V) k v :
  NoDup (map fst m) -> NoDup (map fst (JsMap.set m k v)).
Proof.
  intros H. rewrite set_keys. destruct (JsMap.get m k) eqn:G; [exact H|].
  apply NoDup_app; [exact H | repeat constructor; intros [] |].
  intros x Hx [E|[]]. subst x. exact (get_None_keys m k G Hx).
Qed.

Lemma In_get (m : JsMap.t V) k v :
  NoDup (map fst m) -> In (k, v) m -> JsMap.get m k = Some v.
Proof.
  induction m as [|[k0 v0] m IH]; cbn [map fst In JsMap.get]; [tauto|].
  intros Hnd [[= -> ->]|Hin].
  - rewrite String.eqb_refl. reflexivity.
  - inversion Hnd as [|? ? Hk Hrest]; subst.
    destruct (String.eqb_spec k0 k) as [->|_]; [|exact (IH Hrest Hin)].
    exfalso. apply Hk. apply in_map_iff. exists (k, v). split; [reflexivity | exact Hin].
Qed.
End MapLookups.

Lemma find_snoc {A} (p : A -> bool) l x :
  find p (l ++ [x])
  = match find p l with
    | Some y => Some y
    | None => if p x then Some x else None
    end.
Proof.
  induction l as [|y l IH]; cbn [app find]; [reflexivity|].
  destruct (p y); [reflexivity | exact IH].
Qed.

(** The [Map] built from the catalogue holds, for each key, the last
    question with that key. *)
Lemma questionMap_get questions key :
  JsMap.get (Stats.questionMap questions) key = lastWithKey questions key.
Proof.
  unfold Stats.questionMap, lastWithKey.
  assert (G : forall m,
             JsMap.get (fold_left (fun m q => JsMap.set m (Backend.questionKey q) q)
                                  questions m) key
             = match find (fun q => String.eqb (Backend.questionKey q) key) (rev questions) with
               | Some q => Some q
               | None => JsMap.get m key
               end).
  { induction questions as [|q l IH]; intros m; cbn [fold_left rev find]; [reflexivity|].
    rewrite IH, find_snoc, get_set.
    destruct (find _ (rev l)); [reflexivity|].
    destruct (String.eqb (Backend.questionKey q) key); reflexivity. }
  rewrite G. cbn [JsMap.get JsMap.empty].
  destruct (find _ _); reflexivity.
Qed.

Lemma countAnswer_get questions m a cat :
  JsMap.get (Stats.countAnswer (Stats.questionMap questions) m a) cat
  = if inCategory questions cat a then
      Some {| Stats.tallyTotal := fst (tallyAt m cat) + 1;
              Stats.tallyCorrect :=
                snd (tallyAt m cat) + (if Backend.isCorrect a >? 0 then 1 else 0) |}
    else JsMap.get m cat.
Proof.
  unfold Stats.countAnswer, inCategory, categoryOf, tallyAt.
  rewrite questionMap_get.
  destruct (lastWithKey questions (Backend.questionId a)) as [q|];
    cbn [option_map]; [|reflexivity].
  rewrite get_set.
  destruct (String.eqb_spec (Backend.category q) cat) as [->|_]; [|reflexivity].
  destruct (JsMap.get m cat); reflexivity.
Qed.

Lemma countAnswer_NoDup questions m a :
  NoDup (map fst m) ->
  NoDup (map fst (Stats.countAnswer (Stats.questionMap questions) m a)).
Proof.
  intros H. unfold Stats.countAnswer.
  destruct (JsMap.get _ _); [apply set_NoDup, H | exact H].
Qed.

Lemma categoryMap_NoDup questions answers :
  NoDup (map fst (Stats.categoryMap answers questions)).
Proof.
  unfold Stats.categoryMap.
  assert (G : forall m, NoDup (map fst m) ->
                        NoDup (map fst (fold_left
                                          (Stats.countAnswer (Stats.questionMap questions))
                                          answers m))).
  { induction answers as [|a l IH]; intros m H; cbn [fold_left]; [exact H|].
    apply IH, countAnswer_NoDup, H. }
  apply G. constructor.
Qed.

(** What the category map holds for a category after the answers are
    counted. *)
Lemma fold_countAnswer_get questions answers m cat :
  JsMap.get (fold_left (Stats.countAnswer (Stats.questionMap questions)) answers m) cat
  = match answersIn questions cat answers with
    | [] => JsMap.get m cat
    | _ :: _ =>
        Some {| Stats.tallyTotal :=
                  fst (tallyAt m cat)
                  + Z.of_nat (List.length (answersIn questions cat answers));
                Stats.tallyCorrect :=
                  snd (tallyAt m cat)
                  + Z.of_nat (List.length (correctIn questions cat answers)) |}
    end.
Proof.
  revert m. induction answers as [|a l IH]; intros m; [reflexivity|].
  cbn [fold_left]. rewrite IH. unfold correctIn, answersIn. cbn [filter].
  pose proof (countAnswer_get questions m a cat) as G.
  destruct (inCategory questions cat a).
  - unfold tallyAt at 1 2. rewrite G. cbn [fst snd Stats.tallyTotal Stats.tallyCorrect filter].
    destruct (filter (inCategory questions cat) l) as [|b l'] eqn:F.
    + cbn [filter List.length]. destruct (Backend.isCorrect a >? 0); cbn [List.length];
        f_equal; f_equal; lia.
    + destruct (Backend.isCorrect a >? 0); cbn [List.length]; f_equal; f_equal; lia.
  - unfold tallyAt. rewrite G. reflexivity.
Qed.

(** An entry of the statistics is the tally of its category. *)
Lemma categoryStats_entry answers questions c :
  In c (Stats.categoryStats answers questions) ->
  answersIn questions (Stats.category c) answers <> []
  /\ Stats.total c
     = Z.of_nat (List.length (answersIn questions (Stats.category c) answers))
  /\ Stats.correct c
     = Z.of_nat (List.length (correctIn questions (Stats.category c) answers))
  /\ Stats.accuracy c = Js.percentOf (Stats.correct c) (Stats.total c).
Proof.
  intros Hc. rewrite categoryStats_unfold in Hc.
  apply (Permutation_in _ (sort_perm _ _)) in Hc.
  apply in_map_iff in Hc. destruct Hc as ([k t] & <- & Hin).
  apply (In_get _ _ _ (categoryMap_NoDup questions answers)) in Hin.
  unfold Stats.categoryMap in Hin. rewrite fold_countAnswer_get in Hin.
  cbn [Stats.toStats Stats.category Stats.total Stats.correct Stats.accuracy].
  destruct (answersIn questions k answers) as [|b l] eqn:F; [discriminate|].
  injection Hin as <-. cbn [Stats.tallyTotal Stats.tallyCorrect tallyAt JsMap.get
                            JsMap.empty fst snd].
  split; [discriminate|]. split; [reflexivity|]. split; reflexivity.
Qed.

(** X13.  The statistics by category count the loaded answers by the
    category of their question, the last question of the catalogue with
    the answer's question id.  No category appears twice; each entry's
    total is the number of answers in its category, which is positive, and
    its count of correct answers the number of those that count as correct;
    and every answer whose question is found is counted in an entry. *)
Theorem category_stats_count_by_category answers questions :
  let stats := Stats.categoryStats answers questions in
  NoDup (map Stats.category stats)
  /\ (forall c, In c stats ->
        0 < Stats.total c
        /\ Stats.total c
           = Z.of_nat (List.length (answersIn questions (Stats.category c) answers))
        /\ Stats.correct c
           = Z.of_nat (List.length (correctIn questions (Stats.category c) answers)))
  /\ (forall a cat, In a answers -> categoryOf questions a = Some cat ->
        exists c, In c stats /\ Stats.category c = cat).
Proof.
  intros stats. split; [|split].
  - unfold stats. rewrite categoryStats_unfold.
    apply (Permutation_NoDup (l := map Stats.category
                                     (map Stats.toStats
                                          (Stats.categoryMap answers questions)))).
    + apply Permutation_map, Permutation_sym, sort_perm.
    + rewrite map_map.
      rewrite (map_ext _ fst) by (intros [k t]; reflexivity).
      apply categoryMap_NoDup.
  - intros c Hc. destruct (categoryStats_entry answers questions c Hc)
      as (Hne & Ht & Hcor & _).
    split; [|split; assumption]. rewrite Ht.
    destruct (answersIn questions (Stats.category c) answers);
      [contradiction | cbn [List.length]; lia].
  - intros a cat Ha Hcat.
    assert (Hin : In a (answersIn questions cat answers)).
    { apply filter_In. split; [exact Ha|]. unfold inCategory. rewrite Hcat.
      apply String.eqb_refl. }
    pose proof (fold_countAnswer_get questions answers JsMap.empty cat) as G.
    destruct (answersIn questions cat answers) as [|b l] eqn:F; [destruct Hin|].
    apply get_In in G.
    eexists. split.
    + unfold stats. rewrite categoryStats_unfold.
      apply (Permutation_in _ (Permutation_sym (sort_perm _ _))).
      apply in_map_iff. eexists. split; [reflexivity | exact G].
    + reflexivity.
Qed.

Lemma category_stats_count_by_category_witness :
  exists c,
    In c (Stats.categoryStats (Sample.logged 3 true ++ [Sample.stray]) Sample.catalogue)
    /\ Stats.category c = "Risk"%string.
Proof.
  destruct (category_stats_count_by_category
              (Sample.logged 3 true ++ [Sample.stray]) Sample.catalogue)
    as (_ & _ & Hall).
  assert (Hin : In (hd Sample.stray (Sample.logged 3 true))
                   (Sample.logged 3 true ++ [Sample.stray]))
    by (vm_compute; left; reflexivity).
  assert (Hcat : categoryOf Sample.catalogue (hd Sample.stray (Sample.logged 3 true))
                 = Some "Risk"%string) by (vm_compute; reflexivity).
  exact (Hall _ _ Hin Hcat).
Defined.

Lemma In_firstn {A} n (l : list A) x : In x (firstn n l) -> In x l.
Proof.
  intros H. rewrite <- (firstn_skipn n l). apply in_or_app. left. exact H.
Qed.

(** X14.  What [loadUserAnswers] puts on the statistics screen when both
    queries succeed: at most 100 answers, each a row of the log that
    belongs to the user, and all of the user's rows when there are no more
    than 100; and the statistics of exactly these answers over the first
    100 questions of the catalogue.  As no category can then hold more
    than 100 answers, each category's accuracy is the share of its correct
    answers in percent rounded half up, except that 23 of 40 and 46 of 80
    show as 57.  The console is left alone. *)
Theorem loaded_statistics_cover_100_answers userId db s :
  let s' := StatsScreen.loadUserAnswers userId false false db s in
  (List.length (StatsScreen.userAnswers s') <= 100)%nat
  /\ (forall a, In a (StatsScreen.userAnswers s') ->
        In a (Backend.userAnswers db) /\ Backend.answerUserId a = userId)
  /\ ((List.length (answersOf userId db) <= 100)%nat ->
      Permutation (StatsScreen.userAnswers s') (answersOf userId db))
  /\ StatsScreen.categoryStats s'
     = Stats.categoryStats (StatsScreen.userAnswers s') (firstn 100 (Backend.questions db))
  /\ (forall c, In c (StatsScreen.categoryStats s') ->
        0 <= Stats.correct c <= Stats.total c
        /\ 0 < Stats.total c <= 100
        /\ Stats.accuracy c = Js.RInt (expectedPercent (Stats.correct c) (Stats.total c)))
  /\ StatsScreen.console s' = StatsScreen.console s.
Proof.
  intros s'.
  assert (Hlen : (List.length (StatsScreen.userAnswers s') <= 100)%nat).
  { cbn [s' StatsScreen.loadUserAnswers StatsScreen.userAnswers Stats.calculateCategoryStats].
    unfold StatsScreen.userAnswers_list. rewrite length_firstn. lia. }
  split; [exact Hlen|]. split; [|split; [|split; [reflexivity|split; [|reflexivity]]]].
  - intros a Ha.
    cbn [s' StatsScreen.loadUserAnswers StatsScreen.userAnswers
         Stats.calculateCategoryStats] in Ha.
    unfold StatsScreen.userAnswers_list in Ha.
    apply In_firstn in Ha. apply (Permutation_in _ (sort_perm _ _)) in Ha.
    apply filter_In in Ha. destruct Ha as [Hin Hid].
    split; [exact Hin | apply String.eqb_eq, Hid].
  - intros Hfew.
    cbn [s' StatsScreen.loadUserAnswers StatsScreen.userAnswers Stats.calculateCategoryStats].
    unfold StatsScreen.userAnswers_list. fold (answersOf userId db).
    rewrite firstn_all2; [apply sort_perm|].
    rewrite (Permutation_length (sort_perm StatsScreen.latestFirst (answersOf userId db))).
    exact Hfew.
  - intros c Hc.
    change (StatsScreen.categoryStats s')
      with (Stats.categoryStats (StatsScreen.userAnswers s')
                                (firstn 100 (Backend.questions db))) in Hc.
    destruct (categoryStats_entry _ _ c Hc) as (Hne & Ht & Hcor & Hacc).
    set (questions := firstn 100 (Backend.questions db)) in *.
    set (answers := StatsScreen.userAnswers s') in *.
    assert (Hin : (List.length (answersIn questions (Stats.category c) answers)
                   <= List.length answers)%nat) by apply filter_length_le.
    assert (Hcin : (List.length (correctIn questions (Stats.category c) answers)
                    <= List.length (answersIn questions (Stats.category c) answers))%nat)
      by apply filter_length_le.
    assert (Hpos : (0 < List.length (answersIn questions (Stats.category c) answers))%nat).
    { destruct (answersIn questions (Stats.category c) answers);
        [contradiction | cbn [List.length]; lia]. }
    split; [lia|]. split; [lia|].
    rewrite Hacc. apply percentOf_upto_100; lia.
Qed.

Lemma loaded_statistics_cover_100_answers_witness :
  let db := {| Backend.users := []; Backend.questions := Sample.catalogue;
               Backend.userAnswers := Sample.logged 3 true ++ Sample.logged 1 false;
               Backend.studySessions := [] |} in
  let s := {| StatsScreen.userAnswers := []; StatsScreen.categoryStats := [];
              StatsScreen.console := [] |} in
  Permutation (StatsScreen.userAnswers (StatsScreen.loadUserAnswers "u1" false false db s))
              (Sample.logged 3 true ++ Sample.logged 1 false).
Proof.
  intros db s.
  destruct (loaded_statistics_cover_100_answers "u1" db s) as (_ & _ & Hall & _).
  assert (Hfew : (List.length (answersOf "u1" db) <= 100)%nat) by (vm_compute; lia).
  exact (Hall Hfew).
Defined.

(** * The home screen *)

Lemma orZero_id n : Screens.orZero n = n.
Proof. unfold Screens.orZero. destruct (Z.eqb_spec n 0) as [->|_]; reflexivity. Qed.

Lemma isoDate_nonempty t : isoDate t <> EmptyString.
Proof. rewrite isoDate_dayString. apply dayString_nonempty. Qed.

(** The comparison behind [todayStudied], for a record's last study
    date. *)
Lemma studied_on last t :
  String.eqb (Js.orElse last EmptyString) (isoDate t) = true <-> last = Some (isoDate t).
Proof.
  pose proof (isoDate_nonempty t) as Hne.
  destruct last as [s|]; cbn [Js.orElse].
  - destruct (String.eqb_spec s EmptyString) as [->|_].
    + split; [intros E; apply String.eqb_eq in E; congruence | intros [= E]; congruence].
    + rewrite String.eqb_eq. split; [intros ->; reflexivity | intros [= ->]; reflexivity].
  - split; [intros E; apply String.eqb_eq in E; congruence | discriminate].
Qed.

Lemma loadUserData_found userId e db w authUser r rest :
  Home.me e = Some authUser ->
  Home.listFails e = false ->
  Backend.users_list userId db = r :: rest ->
  Home.loadUserData userId e db w
  = {| Home.screen :=
         {| Home.user := Some (Screens.userOf userId authUser r);
            Home.loading := Home.loading (Home.screen w);
            Home.todayStudied :=
              String.eqb (Js.orElse (Backend.lastStudyDate r) EmptyString)
                         (isoDate (Home.clock e)) |};
       Home.console := Home.console w;
       Home.alerts := Home.alerts w |}.
Proof.
  intros Hme Hl Hr. unfold Home.loadUserData. rewrite Hme, Hl, Hr. reflexivity.
Qed.

(** X15.  What the home screen shows after [loadUserData], when the user
    is signed in and the query succeeds.  Without a record: a user with
    zero counters and no study date, and "not studied today".  With a
    record: the counters of the record, and "studied today" exactly when
    the record's last study date is the UTC date of the clock.  Nothing is
    reported in either case. *)
Theorem home_shows_the_record userId e db w authUser :
  Home.me e = Some authUser ->
  Home.listFails e = false ->
  let w' := Home.loadUserData userId e db w in
  Home.alerts w' = Home.alerts w
  /\ Home.console w' = Home.console w
  /\ exists user,
       Home.user (Home.screen w') = Some user
       /\ Screens.id user = userId
       /\ match Backend.users_list userId db with
          | [] =>
              Screens.currentStreak user = 0
              /\ Screens.longestStreak user = 0
              /\ Screens.totalQuestionsAnswered user = 0
              /\ Screens.correctAnswers user = 0
              /\ Screens.lastStudyDate user = EmptyString
              /\ Home.todayStudied (Home.screen w') = false
          | r :: _ =>
              Screens.currentStreak user = Backend.currentStreak r
              /\ Screens.longestStreak user = Backend.longestStreak r
              /\ Screens.totalQuestionsAnswered user = Backend.totalQuestionsAnswered r
              /\ Screens.correctAnswers user = Backend.correctAnswers r
              /\ (Home.todayStudied (Home.screen w') = true
                  <-> Backend.lastStudyDate r
                      = Some (dayString (JsDate.Day (Home.clock e))))
          end.
Proof.
  intros Hme Hl w'.
  destruct (Backend.users_list userId db) as [|r rest] eqn:Hr.
  - assert (E : w' = {| Home.screen :=
                          {| Home.user :=
                               Some {| Screens.id := userId;
                                       Screens.email := Practice.authEmail authUser;
                                       Screens.displayName :=
                                         Js.orElse (Practice.authDisplayName authUser)
                                           (Js.splitHead "@" (Practice.authEmail authUser));
                                       Screens.currentStreak := 0;
                                       Screens.longestStreak := 0;
                                       Screens.lastStudyDate := EmptyString;
                                       Screens.totalQuestionsAnswered := 0;
                                       Screens.correctAnswers := 0 |};
                             Home.loading := Home.loading (Home.screen w);
                             Home.todayStudied :=
                               String.eqb EmptyString (isoDate (Home.clock e)) |};
                        Home.console := Home.console w;
                        Home.alerts := Home.alerts w |}).
    { unfold w', Home.loadUserData. rewrite Hme, Hl, Hr. reflexivity. }
    rewrite E. cbn [Home.alerts Home.console Home.screen Home.user Home.todayStudied].
    split; [reflexivity|]. split; [reflexivity|].
    eexists. split; [reflexivity|].
    cbn [Screens.id Screens.currentStreak Screens.longestStreak
         Screens.totalQuestionsAnswered Screens.correctAnswers Screens.lastStudyDate].
    do 6 (split; [reflexivity|]).
    apply String.eqb_neq. apply not_eq_sym, isoDate_nonempty.
  - unfold w'. rewrite (loadUserData_found userId e db w authUser r rest Hme Hl Hr).
    cbn [Home.alerts Home.console Home.screen Home.user Home.todayStudied].
    split; [reflexivity|]. split; [reflexivity|].
    eexists. split; [reflexivity|].
    cbn [Screens.userOf Screens.id Screens.currentStreak Screens.longestStreak
         Screens.totalQuestionsAnswered Screens.correctAnswers Screens.lastStudyDate].
    rewrite !orZero_id. do 5 (split; [reflexivity|]).
    rewrite studied_on, isoDate_dayString. reflexivity.
Qed.

Lemma home_shows_the_record_witness :
  exists user,
    Home.user (Home.screen (Home.loadUserData "u1" (homeAt Sample.jan10)
                              (Practice.db Sample.sameDay) homeMounted))
    = Some user
    /\ Screens.currentStreak user = 5.
Proof.
  destruct (home_shows_the_record "u1" (homeAt Sample.jan10) (Practice.db Sample.sameDay)
              homeMounted Sample.alice eq_refl eq_refl)
    as (_ & _ & user & Hu & _ & Hrec).
  exists user. split; [exact Hu|].
  assert (Hr : Backend.users_list "u1" (Practice.db Sample.sameDay)
               = [Sample.row 5 5 (Some "2024-01-10"%string) 10 7])
    by (vm_compute; reflexivity).
  rewrite Hr in Hrec. destruct Hrec as (Hs & _). exact Hs.
Defined.

(** X16.  The home screen after a session.  Once [completeSession] has
    written the user's record, the home screen shows the counters and the
    streak of that record; it shows "studied today" when its clock is on
    the UTC day of the session, and not on any other day (for years
    written with four digits). *)
Theorem finished_session_shows_on_home e w u q he hw authUser :
  Completes e w u q ->
  Home.me he = Some authUser ->
  Home.listFails he = false ->
  let home :=
    Home.loadUserData (Practice.uid u) he (Practice.db (Practice.completeSession e w)) hw in
  (exists user r,
     Home.user (Home.screen home) = Some user
     /\ recordOf u (Practice.completeSession e w) = [r]
     /\ Screens.currentStreak user = Backend.currentStreak r
     /\ Screens.longestStreak user = Backend.longestStreak r
     /\ Screens.totalQuestionsAnswered user = Backend.totalQuestionsAnswered r
     /\ Screens.correctAnswers user = Backend.correctAnswers r)
  /\ (JsDate.Day (Home.clock he) = JsDate.Day (Practice.clockToday e) ->
      Home.todayStudied (Home.screen home) = true)
  /\ (fourDigitYear (JsDate.Day (Home.clock he)) ->
      fourDigitYear (JsDate.Day (Practice.clockToday e)) ->
      JsDate.Day (Home.clock he) <> JsDate.Day (Practice.clockToday e) ->
      Home.todayStudied (Home.screen home) = false).
Proof.
  intros H Hme Hl home.
  destruct (record_after_completion e w u q H) as (r & Hr).
  assert (Hlast : Backend.lastStudyDate r
                  = Some (dayString (JsDate.Day (Practice.clockToday e)))).
  { pose proof (completeSession_record e w u q H) as Hrec. rewrite Hr in Hrec.
    rewrite <- today_dayString.
    destruct (recordOf u w); injection Hrec as ->; reflexivity. }
  unfold recordOf in Hr.
  unfold home. rewrite (loadUserData_found _ he _ hw authUser r [] Hme Hl Hr).
  cbn [Home.screen Home.user Home.todayStudied].
  split; [|split].
  - exists (Screens.userOf (Practice.uid u) authUser r), r.
    cbn [Screens.userOf Screens.currentStreak Screens.longestStreak
         Screens.totalQuestionsAnswered Screens.correctAnswers].
    rewrite !orZero_id. split; [reflexivity|]. split; [exact Hr|].
    repeat split; reflexivity.
  - intros Hday. apply studied_on. rewrite Hlast, isoDate_dayString, Hday. reflexivity.
  - intros R R' Hne.
    destruct (String.eqb _ _) eqn:E; [|reflexivity].
    apply studied_on in E. rewrite Hlast, isoDate_dayString in E.
    injection E as E. exfalso.
    destruct (Z.lt_total (JsDate.Day (Home.clock he)) (JsDate.Day (Practice.clockToday e)))
      as [Hlt | [Heq | Hgt]]; [| contradiction |].
    + exact (dayString_neq _ _ R R' Hlt (eq_sym E)).
    + exact (dayString_neq _ _ R' R Hgt E).
Qed.

Lemma finished_session_shows_on_home_witness :
  Home.todayStudied
    (Home.screen
       (Home.loadUserData "u1" (homeAt (Sample.mar01 + 3600000))
          (Practice.db (Practice.completeSession (Sample.sessionAt Sample.mar01)
                          Sample.newcomer))
          homeMounted))
  = true.
Proof.
  assert (H : Completes (Sample.sessionAt Sample.mar01) Sample.newcomer Sample.alice Sample.q5)
    by (vm_compute; repeat split; reflexivity).
  assert (Hday : JsDate.Day (Home.clock (homeAt (Sample.mar01 + 3600000)))
                 = JsDate.Day (Practice.clockToday (Sample.sessionAt Sample.mar01)))
    by (vm_compute; reflexivity).
  destruct (finished_session_shows_on_home (Sample.sessionAt Sample.mar01) Sample.newcomer
              Sample.alice Sample.q5 (homeAt (Sample.mar01 + 3600000)) homeMounted
              Sample.alice H eq_refl eq_refl) as (_ & Hsame & _).
  exact (Hsame Hday).
Defined.

(** * The calendar of the streak screen *)

Lemma setDate_back tz tv i :
  offsetAtLocal tz (LocalTime tz tv - i * msPerDay) = offsetAtUTC tz tv ->
  setDate tz tv (getDate tz tv - i) = tv - i * msPerDay.
Proof.
  intros Hoff. unfold setDate, getDate. rewrite MakeDay_of_time.
  set (t := LocalTime tz tv) in *.
  assert (E : MakeDate (Day t - DateFromTime t + (DateFromTime t - i)) (TimeWithinDay t)
              = t - i * msPerDay).
  { unfold MakeDate, Day, TimeWithinDay, msPerDay.
    generalize (DateFromTime t). intros. Z.div_mod_to_equations; lia. }
  rewrite E. unfold UTC. rewrite Hoff. unfold t, LocalTime. lia.
Qed.

Lemma Day_back t i : Day (t - i * msPerDay) = Day t - i.
Proof. unfold Day, msPerDay. Z.div_mod_to_equations; lia. Qed.

Lemma In_daysBack i : In i StreakScreen.daysBack <-> 0 <= i <= 29.
Proof.
  unfold StreakScreen.daysBack. rewrite in_map_iff. split.
  - intros (n & <- & Hn). apply in_rev, in_seq in Hn. lia.
  - intros H. exists (Z.to_nat i). split; [lia|].
    apply -> in_rev. apply in_seq. lia.
Qed.

(** X17.  The calendar of the streak screen has 30 entries, in every time
    zone and whatever the sessions are.  An entry is marked as studied
    exactly when it carries a session, which is exactly when some loaded
    session has the entry's date; the session it carries is a loaded
    session of that date. *)
Theorem calendar_marks_days_with_sessions tz today sessions :
  let days := StreakScreen.generateCalendarDays tz today sessions in
  List.length days = 30%nat
  /\ forall d, In d days ->
       (StreakScreen.hasStudied d = true <-> StreakScreen.session d <> None)
       /\ (StreakScreen.hasStudied d = true
           <-> exists s, In s sessions /\ Backend.sessionDate s = StreakScreen.date d)
       /\ (forall s, StreakScreen.session d = Some s ->
             In s sessions /\ Backend.sessionDate s = StreakScreen.date d).
Proof.
  intros days. split; [reflexivity|].
  intros d Hd. unfold days, StreakScreen.generateCalendarDays in Hd.
  apply in_map_iff in Hd. destruct Hd as (i & <- & _).
  cbn [StreakScreen.calendarDay StreakScreen.hasStudied StreakScreen.session
       StreakScreen.date].
  set (dateStr := isoDate (setDate tz today (getDate tz today - i))).
  assert (Hex : existsb (fun d => String.eqb d dateStr) (map Backend.sessionDate sessions) = true
                <-> exists s, In s sessions /\ Backend.sessionDate s = dateStr).
  { rewrite existsb_exists. split.
    - intros (x & Hx & E). apply in_map_iff in Hx. destruct Hx as (s & <- & Hs).
      exists s. split; [exact Hs | apply String.eqb_eq, E].
    - intros (s & Hs & E). exists (Backend.sessionDate s).
      split; [apply in_map, Hs | apply String.eqb_eq, E]. }
  assert (Hfind : forall s,
             find (fun s => String.eqb (Backend.sessionDate s) dateStr) sessions = Some s ->
             In s sessions /\ Backend.sessionDate s = dateStr).
  { intros s Hs. apply find_some in Hs. destruct Hs as [Hin E].
    split; [exact Hin | apply String.eqb_eq, E]. }
  split; [|split; [exact Hex | exact Hfind]].
  rewrite Hex. split.
  - intros (s & Hs & E) Hnone.
    apply (find_none _ _ Hnone) in Hs. rewrite E, String.eqb_refl in Hs. discriminate.
  - intros Hsome.
    destruct (find _ sessions) as [s|] eqn:F; [|contradiction].
    exists s. apply Hfind. reflexivity.
Qed.

Lemma calendar_marks_days_with_sessions_witness :
  List.length (StreakScreen.generateCalendarDays UTCZone Sample.jan10 []) = 30%nat.
Proof.
  exact (proj1 (calendar_marks_days_with_sessions UTCZone Sample.jan10 [])).
Defined.

Lemma calendarDay_fixed k today sessions i :
  StreakScreen.date (StreakScreen.calendarDay (fixedOffset k) today sessions i)
  = dayString (Day today - i)
  /\ StreakScreen.day (StreakScreen.calendarDay (fixedOffset k) today sessions i)
     = DateFromTime ((Day (today + k) - i) * msPerDay)
  /\ StreakScreen.isToday (StreakScreen.calendarDay (fixedOffset k) today sessions i)
     = String.eqb (dayString (Day today - i)) (dayString (Day today)).
Proof.
  cbn [StreakScreen.calendarDay StreakScreen.date StreakScreen.day StreakScreen.isToday].
  rewrite (setDate_back (fixedOffset k) today i) by reflexivity.
  rewrite !isoDate_dayString, Day_back.
  split; [reflexivity|]. split; [|reflexivity].
  unfold getDate, LocalTime. cbn [fixedOffset offsetAtUTC].
  apply DateFromTime_Day. rewrite Day_of_day.
  replace (today - i * msPerDay + k) with (today + k - i * msPerDay) by lia.
  apply Day_back.
Qed.

(** X18.  In a time zone with a fixed offset from UTC, the calendar holds
    the thirty consecutive UTC dates that end with today's, oldest first,
    each with the day of the month of the local date that many days back
    (the day of another date wherever the local date is not the UTC date);
    for years written with four digits these dates are all different and
    only the last entry is marked as today. *)
Theorem calendar_covers_last_thirty_days k today sessions :
  fourDigitYear (Day today - 29) ->
  fourDigitYear (Day today) ->
  let days := StreakScreen.generateCalendarDays (fixedOffset k) today sessions in
  map StreakScreen.date days
  = map (fun i => dayString (Day today - i)) StreakScreen.daysBack
  /\ map StreakScreen.day days
     = map (fun i => DateFromTime ((Day (today + k) - i) * msPerDay))
           StreakScreen.daysBack
  /\ NoDup (map StreakScreen.date days)
  /\ map StreakScreen.isToday days = repeat false 29 ++ [true].
Proof.
  intros R29 R0 days.
  assert (Hdate : map StreakScreen.date days
                  = map (fun i => dayString (Day today - i)) StreakScreen.daysBack).
  { unfold days, StreakScreen.generateCalendarDays. rewrite map_map.
    apply map_ext. intros i. apply calendarDay_fixed. }
  assert (Hneq : forall i j, 0 <= i <= 29 -> 0 <= j <= 29 -> i <> j ->
                             dayString (Day today - i) <> dayString (Day today - j)).
  { intros i j Hi Hj Hij.
    assert (Ri : fourDigitYear (Day today - i))
      by (apply (fourDigitYear_between (Day today - 29) _ (Day today)); try assumption; lia).
    assert (Rj : fourDigitYear (Day today - j))
      by (apply (fourDigitYear_between (Day today - 29) _ (Day today)); try assumption; lia).
    destruct (Z.lt_total i j) as [Hlt | [Heq | Hgt]]; [| contradiction |].
    - intros E. exact (dayString_neq _ _ Rj Ri ltac:(lia) (eq_sym E)).
    - apply dayString_neq; [assumption | assumption | lia]. }
  split; [exact Hdate|]. split; [|split].
  - unfold days, StreakScreen.generateCalendarDays. rewrite map_map.
    apply map_ext. intros i. apply calendarDay_fixed.
  - rewrite Hdate. apply Finite.Injective_map_NoDup_in.
    + intros i j Hi Hj E. apply In_daysBack in Hi. apply In_daysBack in Hj.
      destruct (Z.eq_dec i j) as [|Hij]; [assumption|].
      exfalso. exact (Hneq i j Hi Hj Hij E).
    + unfold StreakScreen.daysBack. apply Finite.Injective_map_NoDup.
      * intros a b E. lia.
      * apply NoDup_rev, seq_NoDup.
  - unfold days, StreakScreen.generateCalendarDays. rewrite map_map.
    transitivity (map (fun i => i =? 0) StreakScreen.daysBack); [|reflexivity].
    apply map_ext_in. intros i Hi. apply In_daysBack in Hi.
    destruct (calendarDay_fixed k today sessions i) as (_ & _ & ->).
    destruct (Z.eqb_spec i 0) as [->|Hi0].
    + rewrite Z.sub_0_r. apply String.eqb_refl.
    + apply String.eqb_neq. replace (Day today) with (Day today - 0) at 2 by lia.
      apply Hneq; lia.
Qed.

Lemma calendar_covers_last_thirty_days_witness :
  map StreakScreen.isToday
      (StreakScreen.generateCalendarDays (fixedOffset 32400000) Sample.jan10 [])
  = repeat false 29 ++ [true].
Proof.
  assert (R29 : fourDigitYear (Day Sample.jan10 - 29)) by (vm_compute; split; first [discriminate | reflexivity]).
  assert (R0 : fourDigitYear (Day Sample.jan10)) by (vm_compute; split; first [discriminate | reflexivity]).
  destruct (calendar_covers_last_thirty_days 32400000 Sample.jan10 [] R29 R0)
    as (_ & _ & _ & Htoday).
  exact Htoday.
Defined.

(** At 03:00 on 11 January 2024 in a zone nine hours ahead of UTC, the
    entry of today carries the date of 10 January and the day number 11. *)
Remark calendar_day_number_is_local :
  map (fun d => (StreakScreen.date d, StreakScreen.day d, StreakScreen.isToday d))
      (skipn 28 (StreakScreen.generateCalendarDays (fixedOffset 32400000)
                   (Sample.jan10 + 21600000) []))
  = [("2024-01-09"%string, 10, false); ("2024-01-10"%string, 11, true)].
Proof. vm_compute. reflexivity. Qed.

(** Where the clocks change, the dates need not be consecutive: at 01:30
    on 5 April 2024 in central Europe, the entries for 31 March and for
    1 April both carry the date of 31 March. *)
Remark calendar_repeats_a_date_across_a_clock_change :
  map (fun d => (StreakScreen.date d, StreakScreen.day d))
      (firstn 3 (skipn 23 (StreakScreen.generateCalendarDays centralEurope2024
                             1712273400000 [])))
  = [("2024-03-30"%string, 30); ("2024-03-31"%string, 31); ("2024-03-31"%string, 1)].
Proof. vm_compute. reflexivity. Qed.

(** * A whole session *)

Module SessionRun.
Import Practice.

Lemma render_view s q :
  loading s = false -> sessionComplete s = false ->
  nth_error (questions s) (currentQuestionIndex s) = Some q ->
  render s = QuestionView q (showExplanation s).
Proof.
  intros Hl Hc Hq. unfold render. rewrite Hl, Hc, Hq.
  destruct (Z.eqb_spec (Z.of_nat (List.length (questions s))) 0) as [E|_]; [|reflexivity].
  destruct (questions s); [destruct (currentQuestionIndex s); discriminate | cbn in E; lia].
Qed.

Lemma keyLabel_nonempty k : String.eqb (keyLabel k) EmptyString = false.
Proof. destruct k; reflexivity. Qed.

Lemma skipn_nth {A} (l : list A) i x :
  nth_error l i = Some x -> skipn i l = x :: skipn (S i) l.
Proof.
  revert i. induction l as [|y l IH]; intros [|i]; cbn [nth_error skipn]; try discriminate.
  - intros [= ->]. reflexivity.
  - intros H. rewrite (IH i H). reflexivity.
Qed.

Lemma judgedAll_nil questions : judgedAll questions [] = [].
Proof. unfold judgedAll. destruct questions; reflexivity. Qed.

Lemma loggedAll_nil u questions : loggedAll u questions [] = [].
Proof. unfold loggedAll. destruct questions; reflexivity. Qed.

Lemma round_run u q r w :
  loading (screen w) = false ->
  sessionComplete (screen w) = false ->
  showExplanation (screen w) = false ->
  user (screen w) = Some u ->
  nth_error (questions (screen w)) (currentQuestionIndex (screen w)) = Some q ->
  run w (roundEvents r) = nextQuestion (env r) (afterSubmit u q r w).
Proof.
  intros Hl Hc He Hu Hq. destruct w as [s d c a]. cbn [screen] in *.
  unfold run, roundEvents. cbn [fold_left].
  assert (E1 : step {| screen := s; db := d; console := c; alerts := a |}
                    (PressOption (pressed r))
               = {| screen := setSelectedAnswer (Some (keyLabel (pressed r))) s;
                    db := d; console := c; alerts := a |}).
  { unfold step. cbn [screen]. rewrite (render_view s q Hl Hc Hq), He.
    unfold onScreen, handleAnswerSelect. cbn [screen db console alerts].
    rewrite He. reflexivity. }
  rewrite E1.
  assert (E2 : step {| screen := setSelectedAnswer (Some (keyLabel (pressed r))) s;
                       db := d; console := c; alerts := a |}
                    (PressSubmit (submittedAt r) (saved r))
               = afterSubmit u q r {| screen := s; db := d; console := c; alerts := a |}).
  { unfold step. cbn [screen].
    rewrite (render_view _ q); [| exact Hl | exact Hc | exact Hq].
    cbn [setSelectedAnswer showExplanation selectedAnswer Js.falsy].
    rewrite He, keyLabel_nonempty. cbn [orb].
    unfold submitAnswer. cbn [screen selectedAnswer user setSelectedAnswer questions
                              currentQuestionIndex].
    rewrite Hu, keyLabel_nonempty, Hq. unfold afterSubmit.
    destruct (saved r); reflexivity. }
  rewrite E2.
  unfold step. rewrite (render_view _ q); [reflexivity | exact Hl | exact Hc | exact Hq].
Qed.

Lemma completeSession_effect e w u q :
  user (screen w) = Some u ->
  nth_error (questions (screen w)) (currentQuestionIndex (screen w)) = Some q ->
  let w' := completeSession e w in
  userAnswers (screen w') = userAnswers (screen w)
  /\ questions (screen w') = questions (screen w)
  /\ loading (screen w') = loading (screen w)
  /\ currentQuestionIndex (screen w') = currentQuestionIndex (screen w)
  /\ showExplanation (screen w') = showExplanation (screen w)
  /\ Backend.userAnswers (db w') = Backend.userAnswers (db w)
  /\ Backend.questions (db w') = Backend.questions (db w)
  /\ sessionComplete (screen w')
     = if answers e then true else sessionComplete (screen w).
Proof.
  intros Hu Hq. unfold completeSession, answers. rewrite Hu, Hq.
  destruct w as [s d c a]. cbn [screen db].
  destruct (listFails e); [repeat split|].
  destruct (userWriteFails e); [repeat split|].
  destruct (Backend.users_list (uid u) d) as [|existingUser others];
    destruct (sessionCreateFails e); repeat split.
Qed.

(** A session from the current question on: the rounds lead to the press
    that completes the session, on the screen [screenBeforeCompletion]. *)
Lemma rounds_run u rounds :
  rounds <> [] ->
  forall w,
    loading (screen w) = false ->
    sessionComplete (screen w) = false ->
    showExplanation (screen w) = false ->
    user (screen w) = Some u ->
    (currentQuestionIndex (screen w) + List.length rounds
     = List.length (questions (screen w)))%nat ->
    let rest := skipn (currentQuestionIndex (screen w)) (questions (screen w)) in
    exists wpre r q,
      lastRound rounds = Some r
      /\ nth_error (questions (screen w)) (Nat.pred (List.length (questions (screen w))))
         = Some q
      /\ run w (sessionEvents rounds) = completeSession (env r) wpre
      /\ screen wpre
         = screenBeforeCompletion u (questions (screen w))
             (userAnswers (screen w) ++ judgedAll rest rounds) r
      /\ Backend.userAnswers (db wpre)
         = Backend.userAnswers (db w) ++ loggedAll u rest rounds
      /\ Backend.users (db wpre) = Backend.users (db w)
      /\ Backend.questions (db wpre) = Backend.questions (db w)
      /\ Backend.studySessions (db wpre) = Backend.studySessions (db w)
      /\ alerts wpre = alerts w.
Proof.
  induction rounds as [|r rounds IH]; [contradiction|]. intros _ w Hl Hc He Hu Hlen rest.
  assert (Hidx : (currentQuestionIndex (screen w) < List.length (questions (screen w)))%nat)
    by (cbn [List.length] in Hlen; lia).
  destruct (nth_error (questions (screen w)) (currentQuestionIndex (screen w)))
    as [q|] eqn:Hq; [|apply nth_error_None in Hq; lia].
  assert (Hrest : rest = q :: skipn (S (currentQuestionIndex (screen w)))
                                   (questions (screen w)))
    by (apply skipn_nth, Hq).
  unfold sessionEvents. cbn [flat_map]. unfold run. rewrite fold_left_app.
  fold (run w (roundEvents r)). rewrite (round_run u q r w Hl Hc He Hu Hq).
  fold (sessionEvents rounds).
  fold (run (nextQuestion (env r) (afterSubmit u q r w)) (sessionEvents rounds)).
  rewrite Hrest. unfold judgedAll, loggedAll. cbn [combine map flat_map fst snd].
  fold (judgedAll (skipn (S (currentQuestionIndex (screen w))) (questions (screen w))) rounds).
  fold (loggedAll u (skipn (S (currentQuestionIndex (screen w))) (questions (screen w)))
                  rounds).
  assert (Hdb : Backend.userAnswers (db (afterSubmit u q r w))
                = Backend.userAnswers (db w) ++ (if saved r then [loggedRow u q r] else [])
                /\ Backend.users (db (afterSubmit u q r w)) = Backend.users (db w)
                /\ Backend.questions (db (afterSubmit u q r w)) = Backend.questions (db w)
                /\ Backend.studySessions (db (afterSubmit u q r w))
                   = Backend.studySessions (db w)).
  { cbn [afterSubmit db]. destruct (saved r);
      cbn [Backend.userAnswers_create Backend.userAnswers Backend.users Backend.questions
           Backend.studySessions];
      [repeat split | rewrite app_nil_r; repeat split]. }
  destruct Hdb as (Hd1 & Hd2 & Hd3 & Hd4).
  destruct rounds as [|r' rounds'].
  - (* the last question: the press completes the session *)
    rewrite judgedAll_nil, loggedAll_nil, !app_nil_r.
    cbn [sessionEvents flat_map run fold_left].
    assert (Hlast : (Z.of_nat (currentQuestionIndex (screen w))
                     <? Z.of_nat (List.length (questions (screen w))) - 1) = false)
      by (apply Z.ltb_ge; cbn [List.length] in Hlen; lia).
    assert (Hpred : currentQuestionIndex (screen w)
                    = Nat.pred (List.length (questions (screen w))))
      by (cbn [List.length] in Hlen; lia).
    exists (afterSubmit u q r w), r, q.
    split; [reflexivity|]. split; [rewrite <- Hpred; exact Hq|].
    split.
    { unfold nextQuestion.
      cbn [afterSubmit screen setShowExplanation setUserAnswers setSelectedAnswer
           currentQuestionIndex questions].
      rewrite Hlast. reflexivity. }
    split.
    { unfold screenBeforeCompletion. rewrite <- Hpred.
      destruct w as [s d c a]. destruct s. cbn in Hl, Hc, Hu |- *. subst. reflexivity. }
    split; [exact Hd1|]. split; [exact Hd2|]. split; [exact Hd3|].
    split; [exact Hd4 | reflexivity].
  - (* a question before the last: the next question comes on screen *)
    assert (Hnext : (Z.of_nat (currentQuestionIndex (screen w))
                     <? Z.of_nat (List.length (questions (screen w))) - 1) = true)
      by (apply Z.ltb_lt; cbn [List.length] in Hlen; lia).
    assert (En : nextQuestion (env r) (afterSubmit u q r w)
                 = onScreen (fun s =>
                      setShowExplanation false
                        (setSelectedAnswer None
                           (setCurrentQuestionIndex (currentQuestionIndex s + 1) s)))
                     (afterSubmit u q r w)).
    { unfold nextQuestion.
      cbn [afterSubmit screen setShowExplanation setUserAnswers setSelectedAnswer
           currentQuestionIndex questions].
      rewrite Hnext. reflexivity. }
    rewrite En.
    set (w1 := onScreen _ (afterSubmit u q r w)).
    assert (H1 : loading (screen w1) = false) by exact Hl.
    assert (H2 : sessionComplete (screen w1) = false) by exact Hc.
    assert (H3 : showExplanation (screen w1) = false) by reflexivity.
    assert (H4 : user (screen w1) = Some u) by exact Hu.
    assert (H5 : currentQuestionIndex (screen w1) = S (currentQuestionIndex (screen w)))
      by (cbn; lia).
    assert (H6 : questions (screen w1) = questions (screen w)) by reflexivity.
    assert (H7 : userAnswers (screen w1) = userAnswers (screen w) ++ [judged q r])
      by reflexivity.
    assert (H8 : db w1 = db (afterSubmit u q r w)) by reflexivity.
    assert (H9 : alerts w1 = alerts w) by reflexivity.
    assert (Hlen1 : (currentQuestionIndex (screen w1) + List.length (r' :: rounds')
                     = List.length (questions (screen w1)))%nat)
      by (rewrite H5, H6; cbn [List.length] in *; lia).
    destruct (IH ltac:(discriminate) w1 H1 H2 H3 H4 Hlen1)
      as (wpre & rl & ql & Hrl & Hql & Hrun & Hscreen & Ha & Hu' & Hq' & Hs' & Hal).
    rewrite H5, H6, H7 in Hscreen. rewrite H6 in Hql.
    rewrite H5, H6, H8, Hd1 in Ha. rewrite H8, Hd2 in Hu'. rewrite H8, Hd3 in Hq'.
    rewrite H8, Hd4 in Hs'. rewrite H9 in Hal.
    exists wpre, rl, ql.
    split; [exact Hrl|]. split; [exact Hql|]. split; [exact Hrun|].
    split; [rewrite Hscreen, <- app_assoc; reflexivity|].
    split; [rewrite Ha, <- app_assoc; reflexivity|].
    repeat split; assumption.
Qed.

Lemma last_pair (questions : list Backend.Question) (rounds : list Round) q r :
  List.length rounds = List.length questions ->
  nth_error questions (Nat.pred (List.length questions)) = Some q ->
  lastRound rounds = Some r ->
  In (q, r) (combine questions rounds).
Proof.
  revert rounds. induction questions as [|a l IH]; intros [|r0 rounds] Hlen Hq Hr;
    try discriminate.
  destruct l as [|b l'], rounds as [|r1 rounds']; try discriminate.
  - cbn in Hq, Hr. injection Hq as <-. injection Hr as <-. left. reflexivity.
  - right. apply IH.
    + cbn [List.length] in *. lia.
    + exact Hq.
    + exact Hr.
Qed.

Lemma countTrue_all l :
  forallb UserAnswer.isCorrect l = true ->
  countTrue (outcomes l) = Z.of_nat (List.length l).
Proof.
  unfold countTrue, outcomes. induction l as [|a l IH]; [reflexivity|].
  cbn [forallb map filter]. intros H. apply andb_true_iff in H. destruct H as [Ha Hl].
  rewrite Ha. cbn [List.length]. specialize (IH Hl). lia.
Qed.

Lemma judgedAll_length questions rounds :
  List.length rounds = List.length questions ->
  List.length (judgedAll questions rounds) = List.length questions.
Proof.
  intros H. unfold judgedAll. rewrite length_map, length_combine. lia.
Qed.

Lemma percentOf_one_more n :
  (0 < n <= 5)%nat ->
  exists z, Js.percentOf (Z.of_nat n + 1) (Z.of_nat n) = Js.RInt z /\ 100 < z.
Proof.
  intros H. destruct n as [|[|[|[|[|[|n]]]]]]; try lia;
    eexists; (split; [vm_compute; reflexivity | lia]).
Qed.

End SessionRun.

(** X19.  A whole session.  From a screen that shows the first question,
    pressing an option, the submit button and the button under the
    explanation once for each question leaves in the session list one
    answer per question, in order, each judged against its own question,
    and appends to the log of answers the rows of the submissions whose
    write succeeded.  If the backend answers the last press, the results
    view comes on screen with the results of exactly these answers;
    otherwise the last question stays on screen with its explanation. *)
Theorem whole_session_records_every_answer w u rounds :
  sessionStarts w u ->
  List.length rounds = List.length (Practice.questions (Practice.screen w)) ->
  let questions := Practice.questions (Practice.screen w) in
  let w' := Practice.run w (sessionEvents rounds) in
  Practice.userAnswers (Practice.screen w') = judgedAll questions rounds
  /\ Backend.userAnswers (Practice.db w')
     = Backend.userAnswers (Practice.db w) ++ loggedAll u questions rounds
  /\ forall e, lastEnv rounds = Some e ->
       if answers e then
         Practice.render (Practice.screen w')
         = Practice.ResultsView
             (countTrue (outcomes (judgedAll questions rounds)))
             (Z.of_nat (List.length questions))
             (Js.percentOf (countTrue (outcomes (judgedAll questions rounds)))
                           (Z.of_nat (List.length questions)))
       else
         exists q,
           nth_error questions (Nat.pred (List.length questions)) = Some q
           /\ Practice.render (Practice.screen w') = Practice.QuestionView q true.
Proof.
  intros (Hl & Hc & He & Hi & Ha & Hu & Hne) Hlen questions w'.
  assert (Hrounds : rounds <> []).
  { intros ->. apply Hne. destruct (Practice.questions (Practice.screen w));
      [reflexivity | discriminate]. }
  assert (Hsum : (Practice.currentQuestionIndex (Practice.screen w) + List.length rounds
                  = List.length (Practice.questions (Practice.screen w)))%nat)
    by (rewrite Hi, Hlen; reflexivity).
  destruct (SessionRun.rounds_run u rounds Hrounds w Hl Hc He Hu Hsum)
    as (wpre & r & q & Hr & Hq & Hrun & Hscreen & Hdb & _).
  rewrite Hi in Hscreen, Hdb. cbn [skipn] in Hscreen, Hdb.
  rewrite Ha in Hscreen. cbn [app] in Hscreen.
  fold questions in Hscreen, Hdb, Hq. fold w' in Hrun.
  assert (Hupre : Practice.user (Practice.screen wpre) = Some u)
    by (rewrite Hscreen; reflexivity).
  assert (Hqpre : nth_error (Practice.questions (Practice.screen wpre))
                            (Practice.currentQuestionIndex (Practice.screen wpre))
                  = Some q) by (rewrite Hscreen; exact Hq).
  destruct (SessionRun.completeSession_effect (env r) wpre u q Hupre Hqpre)
    as (Ea & Eq & El & Ei & Ee & Ed & _ & Ec).
  rewrite <- Hrun in Ea, Eq, El, Ei, Ee, Ed, Ec. rewrite Hscreen in Ea, Eq, El, Ei, Ee, Ec.
  cbn [screenBeforeCompletion Practice.userAnswers Practice.questions Practice.loading
       Practice.currentQuestionIndex Practice.showExplanation Practice.sessionComplete]
    in Ea, Eq, El, Ei, Ee, Ec.
  split; [exact Ea|]. split; [rewrite Ed; exact Hdb|].
  intros e Hlast. unfold lastEnv in Hlast. unfold lastRound in Hr. rewrite Hr in Hlast.
  injection Hlast as <-.
  assert (Hlen0 : (Z.of_nat (List.length (Practice.questions (Practice.screen w'))) =? 0)
                  = false).
  { rewrite Eq. apply Z.eqb_neq. unfold questions.
    destruct (Practice.questions (Practice.screen w)); [contradiction | cbn; lia]. }
  destruct (answers (env r)).
  - unfold Practice.render. rewrite El, Hlen0, Ec.
    unfold Practice.sessionResults. rewrite Ea, Eq.
    unfold countTrue. rewrite <- filter_outcomes. reflexivity.
  - exists q. split; [exact Hq|].
    rewrite <- Ee. apply SessionRun.render_view; [exact El | exact Ec |].
    rewrite Eq, Ei. exact Hq.
Qed.

Lemma whole_session_records_every_answer_witness :
  let w := Practice.run (Sample.world [])
             [Practice.AuthStateChanged (Some Sample.alice) false Sample.inOrder] in
  Practice.userAnswers
    (Practice.screen (Practice.run w (sessionEvents (roundsAt Sample.mar01 Sample.fourOfFive))))
  = judgedAll Sample.catalogue (roundsAt Sample.mar01 Sample.fourOfFive).
Proof.
  intros w.
  assert (Hstart : sessionStarts w Sample.alice)
    by (vm_compute; repeat split; discriminate).
  assert (Hlen : List.length (roundsAt Sample.mar01 Sample.fourOfFive)
                 = List.length (Practice.questions (Practice.screen w)))
    by (vm_compute; reflexivity).
  exact (proj1 (whole_session_records_every_answer w Sample.alice
                  (roundsAt Sample.mar01 Sample.fourOfFive) Hstart Hlen)).
Defined.

(** X20.  The record after a whole session.  When the backend answers the
    query and the write of the user's record at the last press, the record
    has grown by the number of questions and by the number of right answers
    of the session, plus one more if the last answer was right (it is
    counted again through the option still selected).  So after a first
    session of up to five questions with every answer right, the record
    holds one right answer more than questions, and the home screen shows
    an accuracy above 100 percent. *)
Theorem whole_session_record w u rounds e :
  sessionStarts w u ->
  List.length rounds = List.length (Practice.questions (Practice.screen w)) ->
  lastEnv rounds = Some e ->
  Practice.listFails e = false ->
  Practice.userWriteFails e = false ->
  let questions := Practice.questions (Practice.screen w) in
  let n := Z.of_nat (List.length questions) in
  let right := countTrue (outcomes (judgedAll questions rounds)) in
  let w' := Practice.run w (sessionEvents rounds) in
  (exists row r q,
     recordOf u w' = [row]
     /\ lastRound rounds = Some r
     /\ nth_error questions (Nat.pred (List.length questions)) = Some q
     /\ Backend.totalQuestionsAnswered row = fst (countersOf (recordOf u w)) + n
     /\ Backend.correctAnswers row
        = snd (countersOf (recordOf u w)) + right
          + (if Practice.UserAnswer.isCorrect (judged q r) then 1 else 0))
  /\ (recordOf u w = [] ->
      forallb Practice.UserAnswer.isCorrect (judgedAll questions rounds) = true ->
      (List.length questions <= 5)%nat ->
      forall he hw authUser,
        Home.me he = Some authUser ->
        Home.listFails he = false ->
        exists user z,
          Home.user (Home.screen (Home.loadUserData (Practice.uid u) he (Practice.db w') hw))
          = Some user
          /\ Screens.totalQuestionsAnswered user = n
          /\ Screens.correctAnswers user = n + 1
          /\ Home.accuracyRate user = Js.RInt z
          /\ 100 < z).
Proof.
  intros Hstart Hlen Hlast Hlf Hwf questions n right w'.
  pose proof Hstart as (Hl & Hc & He & Hi & Ha & Hu & Hne).
  assert (Hrounds : rounds <> []).
  { intros ->. apply Hne. destruct (Practice.questions (Practice.screen w));
      [reflexivity | discriminate]. }
  assert (Hsum : (Practice.currentQuestionIndex (Practice.screen w) + List.length rounds
                  = List.length (Practice.questions (Practice.screen w)))%nat)
    by (rewrite Hi, Hlen; reflexivity).
  destruct (SessionRun.rounds_run u rounds Hrounds w Hl Hc He Hu Hsum)
    as (wpre & r & q & Hr & Hq & Hrun & Hscreen & _ & Husers & _).
  rewrite Hi in Hscreen. cbn [skipn] in Hscreen. rewrite Ha in Hscreen. cbn [app] in Hscreen.
  fold questions in Hscreen, Hq. fold w' in Hrun.
  assert (He' : env r = e).
  { unfold lastEnv in Hlast. unfold lastRound in Hr. rewrite Hr in Hlast.
    injection Hlast as <-. reflexivity. }
  rewrite He' in Hrun.
  assert (Hcomp : Completes e wpre u q).
  { unfold Completes. rewrite Hscreen. repeat split; assumption. }
  assert (Hprev : recordOf u wpre = recordOf u w).
  { unfold recordOf, Backend.users_list. rewrite Husers. reflexivity. }
  assert (Htot : mergedTotal wpre = n) by (unfold mergedTotal; rewrite Hscreen; reflexivity).
  assert (Hcor : mergedCorrect wpre q
                 = right + (if Practice.UserAnswer.isCorrect (judged q r) then 1 else 0)).
  { unfold mergedCorrect, Practice.sessionCorrectCount. rewrite Hscreen.
    cbn [screenBeforeCompletion Practice.userAnswers Practice.selectedAnswer Js.strictEq
         judged Practice.UserAnswer.isCorrect].
    unfold right, countTrue. rewrite <- filter_outcomes. reflexivity. }
  pose proof (completeSession_record e wpre u q Hcomp) as Hrec.
  rewrite <- Hrun, Hprev, Htot, Hcor in Hrec.
  assert (Hrow : exists row,
             recordOf u w' = [row]
             /\ Backend.totalQuestionsAnswered row = fst (countersOf (recordOf u w)) + n
             /\ Backend.correctAnswers row
                = snd (countersOf (recordOf u w)) + right
                  + (if Practice.UserAnswer.isCorrect (judged q r) then 1 else 0)).
  { destruct (recordOf u w) as [|existingUser others]; eexists;
      (split; [exact Hrec|]);
      cbn [Practice.updatedUser Practice.createdUser Backend.totalQuestionsAnswered
           Backend.correctAnswers countersOf fst snd]; split; lia. }
  destruct Hrow as (row & Hrow & Ht & Hk).
  split.
  - exists row, r, q. repeat split; assumption.
  - intros Hnew Hall Hfive he hw authUser Hme Hhl.
    rewrite Hnew in Ht, Hk. cbn [countersOf fst snd] in Ht, Hk.
    assert (Hin : In (judged q r) (judgedAll questions rounds)).
    { unfold judgedAll. apply in_map_iff. exists (q, r).
      split; [reflexivity | apply SessionRun.last_pair; assumption]. }
    rewrite forallb_forall in Hall. rewrite (Hall _ Hin) in Hk.
    assert (Hright : right = n).
    { unfold right, n. rewrite SessionRun.countTrue_all
        by (apply forallb_forall; exact Hall).
      rewrite SessionRun.judgedAll_length by exact Hlen. reflexivity. }
    rewrite Hright in Hk.
    unfold recordOf in Hrow.
    rewrite (loadUserData_found _ he _ hw authUser row [] Hme Hhl Hrow).
    cbn [Home.screen Home.user].
    assert (Hpos : (0 < List.length questions <= 5)%nat).
    { split; [|exact Hfive]. unfold questions.
      destruct (Practice.questions (Practice.screen w)); [contradiction | cbn; lia]. }
    destruct (SessionRun.percentOf_one_more _ Hpos) as (z & Hz & Hbig).
    exists (Screens.userOf (Practice.uid u) authUser row), z.
    split; [reflexivity|].
    unfold Home.accuracyRate.
    cbn [Screens.userOf Screens.totalQuestionsAnswered Screens.correctAnswers].
    rewrite !orZero_id, Ht, Hk.
    split; [lia|]. split; [lia|].
    replace (0 + n) with n by lia. replace (0 + n + 1) with (n + 1) by lia.
    destruct (Z.gtb_spec n 0) as [_|Hz0]; [|unfold n in Hz0; lia].
    split; [exact Hz | exact Hbig].
Qed.

Lemma whole_session_record_witness :
  let w := Practice.run (Sample.world [])
             [Practice.AuthStateChanged (Some Sample.alice) false Sample.inOrder] in
  exists user z,
    Home.user
      (Home.screen
         (Home.loadUserData "u1" (homeAt Sample.mar01)
            (Practice.db (Practice.run w (sessionEvents (roundsAt Sample.mar01
                                                                  Sample.fiveOfFive))))
            homeMounted))
    = Some user
    /\ Screens.totalQuestionsAnswered user = 5
    /\ Screens.correctAnswers user = 5 + 1
    /\ Home.accuracyRate user = Js.RInt z
    /\ 100 < z.
Proof.
  intros w.
  assert (Hstart : sessionStarts w Sample.alice)
    by (vm_compute; repeat split; discriminate).
  assert (Hlen : List.length (roundsAt Sample.mar01 Sample.fiveOfFive)
                 = List.length (Practice.questions (Practice.screen w)))
    by (vm_compute; reflexivity).
  assert (Hlast : lastEnv (roundsAt Sample.mar01 Sample.fiveOfFive)
                  = Some (Sample.sessionAt Sample.mar01)) by reflexivity.
  assert (Hnew : recordOf Sample.alice w = []) by (vm_compute; reflexivity).
  assert (Hall : forallb Practice.UserAnswer.isCorrect
                   (judgedAll (Practice.questions (Practice.screen w))
                              (roundsAt Sample.mar01 Sample.fiveOfFive)) = true)
    by (vm_compute; reflexivity).
  assert (Hfive : (List.length (Practice.questions (Practice.screen w)) <= 5)%nat)
    by (vm_compute; lia).
  destruct (whole_session_record w Sample.alice (roundsAt Sample.mar01 Sample.fiveOfFive)
              (Sample.sessionAt Sample.mar01) Hstart Hlen Hlast eq_refl eq_refl)
    as (_ & Hhome).
  exact (Hhome Hnew Hall Hfive (homeAt Sample.mar01) homeMounted Sample.alice
           eq_refl eq_refl).
Defined.

(** * From the practice screen to the calendar *)

(** X21.  A session completed today shows in the calendar.  After
    [completeSession] has logged a session, for a user with fewer than 30
    sessions logged before, [loadStudySessions] on the streak screen, on
    the same UTC day (and at a time at which the zone's offset is
    unambiguous), loads that session and yields a calendar whose last
    entry carries today's date, is marked as today and as studied, and
    holds a session of that date. *)
Theorem todays_session_shows_in_calendar e w u q tz now s :
  Completes e w u q ->
  Practice.sessionCreateFails e = false ->
  Day now = Day (Practice.clockToday e) ->
  offsetAtLocal tz (LocalTime tz now) = offsetAtUTC tz now ->
  (List.length (sessionsOf (Practice.uid u) (Practice.db w)) < 30)%nat ->
  let s' :=
    StreakScreen.loadStudySessions (Practice.uid u) false tz now
      (Practice.db (Practice.completeSession e w)) s in
  (exists row,
     In row (StreakScreen.studySessions s')
     /\ Backend.sessionUserId row = Practice.uid u
     /\ Backend.sessionDate row = Practice.today e
     /\ Backend.questionsAnswered row = mergedTotal w)
  /\ exists d,
       nth_error (StreakScreen.calendarDays s') 29 = Some d
       /\ StreakScreen.date d = Practice.today e
       /\ StreakScreen.isToday d = true
       /\ StreakScreen.hasStudied d = true
       /\ exists shown,
            StreakScreen.session d = Some shown
            /\ Backend.sessionDate shown = Practice.today e.
Proof.
  intros H Hs Hday Hoff Hfew s'.
  destruct (completeSession_written e w u q H) as (d0 & _ & _ & _ & Hsess & _ & Hw').
  rewrite Hs in Hw'.
  set (row := {| Backend.sessionUserId := Practice.uid u;
                 Backend.sessionDate := Practice.today e;
                 Backend.questionsAnswered := mergedTotal w;
                 Backend.sessionCorrectAnswers := mergedCorrect w q;
                 Backend.sessionDuration := 0 |}) in *.
  assert (Hall : sessionsOf (Practice.uid u) (Practice.db (Practice.completeSession e w))
                 = sessionsOf (Practice.uid u) (Practice.db w) ++ [row]).
  { rewrite Hw'. unfold sessionsOf.
    cbn [Practice.db Backend.studySessions_create Backend.studySessions].
    rewrite Hsess, filter_app. cbn [filter row Backend.sessionUserId].
    rewrite String.eqb_refl. reflexivity. }
  assert (Hloaded : StreakScreen.studySessions s'
                    = JsArray.sort StreakScreen.newestFirst
                        (sessionsOf (Practice.uid u) (Practice.db w) ++ [row])).
  { cbn [s' StreakScreen.loadStudySessions StreakScreen.studySessions].
    unfold StreakScreen.studySessions_list.
    fold (sessionsOf (Practice.uid u) (Practice.db (Practice.completeSession e w))).
    rewrite Hall. apply firstn_all2.
    rewrite (Permutation_length (sort_perm _ _)), length_app. cbn [List.length]. lia. }
  assert (Hin : In row (StreakScreen.studySessions s')).
  { rewrite Hloaded. apply (Permutation_in _ (Permutation_sym (sort_perm _ _))).
    apply in_or_app. right. left. reflexivity. }
  split; [exists row; repeat split; exact Hin|].
  assert (Hdate : isoDate (setDate tz now (getDate tz now - 0)) = Practice.today e).
  { rewrite (setDate_back tz now 0)
      by (replace (LocalTime tz now - 0 * msPerDay) with (LocalTime tz now) by lia;
          exact Hoff).
    replace (now - 0 * msPerDay) with now by lia.
    rewrite isoDate_dayString, Hday, <- today_dayString. reflexivity. }
  assert (Hnow : isoDate now = Practice.today e)
    by (rewrite isoDate_dayString, Hday, <- today_dayString; reflexivity).
  exists (StreakScreen.calendarDay tz now (StreakScreen.studySessions s') 0).
  split; [reflexivity|].
  cbn [StreakScreen.calendarDay StreakScreen.date StreakScreen.isToday
       StreakScreen.hasStudied StreakScreen.session].
  rewrite Hdate, Hnow.
  split; [reflexivity|]. split; [apply String.eqb_refl|].
  split.
  - apply existsb_exists. exists (Backend.sessionDate row).
    split; [apply in_map, Hin | apply String.eqb_refl].
  - destruct (find (fun s0 => String.eqb (Backend.sessionDate s0) (Practice.today e))
                   (StreakScreen.studySessions s')) as [shown|] eqn:F.
    + exists shown. split; [reflexivity|].
      apply find_some in F. apply String.eqb_eq, F.
    + exfalso. apply (find_none _ _ F) in Hin.
      cbn [row Backend.sessionDate] in Hin. rewrite String.eqb_refl in Hin. discriminate.
Qed.

Lemma todays_session_shows_in_calendar_witness :
  exists d,
    nth_error
      (StreakScreen.calendarDays
         (StreakScreen.loadStudySessions "u1" false UTCZone (Sample.mar01 + 3600000)
            (Practice.db (Practice.completeSession (Sample.sessionAt Sample.mar01)
                            Sample.newcomer))
            streakMounted)) 29
    = Some d
    /\ StreakScreen.hasStudied d = true.
Proof.
  assert (H : Completes (Sample.sessionAt Sample.mar01) Sample.newcomer Sample.alice Sample.q5)
    by (vm_compute; repeat split; reflexivity).
  assert (Hday : Day (Sample.mar01 + 3600000)
                 = Day (Practice.clockToday (Sample.sessionAt Sample.mar01)))
    by (vm_compute; reflexivity).
  assert (Hfew : (List.length (sessionsOf (Practice.uid Sample.alice)
                                          (Practice.db Sample.newcomer)) < 30)%nat)
    by (vm_compute; lia).
  destruct (todays_session_shows_in_calendar (Sample.sessionAt Sample.mar01) Sample.newcomer
              Sample.alice Sample.q5 UTCZone (Sample.mar01 + 3600000) streakMounted
              H eq_refl Hday eq_refl Hfew)
    as (_ & d & Hd & _ & _ & Hstudied & _).
  exists d. split; [exact Hd | exact Hstudied].
Defined.

(** * Handlers that await the backend *)

Module InterleavedFacts.
Import Practice.

(** [Practice.step] is this screen with the backend answering each handler
    at once. *)
Lemma loadQuestions_finish le w :
  loadQuestions le w = Interleaved.finishLoad le (onScreen (setLoading true) w).
Proof. reflexivity. Qed.

Lemma sequential_step w ev :
  Interleaved.run (Interleaved.idle w) (Interleaved.sequential ev)
  = Interleaved.idle (step w ev).
Proof.
  destruct ev as [stateUser isLoading le | key | now ok | e | le | le];
    unfold Interleaved.run, Interleaved.sequential; cbn [fold_left].
  - destruct stateUser as [u|]; reflexivity.
  - unfold Interleaved.idle. cbn [Interleaved.step Interleaved.world]. unfold step.
    destruct (render (screen w)) as [| | | q explained |]; try reflexivity.
    destruct explained; reflexivity.
  - unfold Interleaved.idle. cbn [Interleaved.step Interleaved.world]. unfold step.
    destruct (render (screen w)) as [| | | q explained |]; try reflexivity.
    destruct (explained || Js.falsy (selectedAnswer (screen w))); [reflexivity|].
    unfold Interleaved.startSubmit, submitAnswer. cbn [Interleaved.world].
    destruct (selectedAnswer (screen w)) as [sel|]; [|reflexivity].
    destruct (user (screen w)) as [u|]; [|reflexivity].
    destruct (String.eqb sel EmptyString); [reflexivity|].
    destruct (nth_error (questions (screen w)) (currentQuestionIndex (screen w)))
      as [currentQuestion|]; [|reflexivity].
    destruct ok; reflexivity.
  - unfold Interleaved.idle. cbn [Interleaved.step Interleaved.world]. unfold step.
    destruct (render (screen w)) as [| | | q explained |]; try reflexivity.
    destruct explained; [|reflexivity].
    unfold Interleaved.nextQuestion, nextQuestion. cbn [Interleaved.world].
    destruct (_ <? _); [reflexivity|].
    unfold Interleaved.startComplete, completeSession. cbn [Interleaved.world].
    destruct (user (screen w)) as [u|]; [|reflexivity].
    destruct (nth_error (questions (screen w)) (currentQuestionIndex (screen w)))
      as [currentQuestion|]; [|reflexivity].
    cbn [Interleaved.step Interleaved.spawn Interleaved.pending Interleaved.world
         app nth_error firstn skipn Interleaved.resume].
    destruct (listFails e); [reflexivity|].
    cbn [Interleaved.step Interleaved.spawn Interleaved.pending Interleaved.world
         app nth_error firstn skipn Interleaved.resume].
    destruct (userWriteFails e); [reflexivity|].
    cbn [Interleaved.step Interleaved.spawn Interleaved.pending Interleaved.world
         Interleaved.onWorld app nth_error firstn skipn Interleaved.resume].
    destruct (Backend.users_list (uid u) (db w)) as [|existingUser rest];
      destruct (sessionCreateFails e); reflexivity.
  - unfold Interleaved.idle. cbn [Interleaved.step Interleaved.world]. unfold step.
    destruct (render (screen w)) as [| | | |]; reflexivity.
  - unfold Interleaved.idle. cbn [Interleaved.step Interleaved.world]. unfold step.
    destruct (render (screen w)) as [| | | |]; reflexivity.
Qed.

Lemma sequential_run evs w :
  Interleaved.run (Interleaved.idle w) (flat_map Interleaved.sequential evs)
  = Interleaved.idle (run w evs).
Proof.
  revert w. induction evs as [|ev evs IH]; intros w; [reflexivity|].
  cbn [flat_map run fold_left]. unfold Interleaved.run. rewrite fold_left_app.
  fold (Interleaved.run (Interleaved.idle w) (Interleaved.sequential ev)).
  rewrite sequential_step. apply IH.
Qed.

(** The index stays in range whatever comes in between. *)
Lemma onScreen_range Q f w :
  (forall s, questions (f s) = questions s
             /\ currentQuestionIndex (f s) = currentQuestionIndex s) ->
  worldInRange Q w -> worldInRange Q (onScreen f w).
Proof.
  intros Hf H. destruct w as [s d c a]. destruct (Hf s) as [E1 E2].
  unfold worldInRange in *. cbn [screen db onScreen] in *. rewrite E1, E2. exact H.
Qed.

Lemma onDb_range Q f w :
  (forall d, Backend.questions (f d) = Backend.questions d) ->
  worldInRange Q w -> worldInRange Q (onDb f w).
Proof.
  intros Hf H. destruct w as [s d c a].
  unfold worldInRange in *. cbn [screen db onDb] in *. rewrite Hf. exact H.
Qed.

Lemma sessionFailed_range Q w : worldInRange Q w -> worldInRange Q (sessionFailed w).
Proof. intros H. destruct w as [s d c a]. exact H. Qed.

Lemma finishLoad_range Q le w :
  fairShuffle le -> worldInRange Q w -> worldInRange Q (Interleaved.finishLoad le w).
Proof.
  intros Hfair H. unfold Interleaved.finishLoad.
  apply onScreen_range; [intros s; split; reflexivity|].
  destruct (fetchFails le); [destruct w; exact H|].
  destruct (Z.ltb_spec 0 (Z.of_nat (List.length (Backend.questions_list 5 (db w)))))
    as [Hpos|_]; [|destruct w; exact H].
  destruct w as [s d c a]. unfold worldInRange in *.
  cbn [screen db onScreen setQuestions questions currentQuestionIndex] in *.
  destruct H as [HQ Hcase]. split; [exact HQ|]. right.
  unfold Backend.questions_list in *. rewrite HQ in *. rewrite Hfair.
  split; [reflexivity|].
  destruct Hcase as [[_ ->] | [<- Hidx]]; [lia | exact Hidx].
Qed.

Lemma render_range Q w :
  worldInRange Q w ->
  render (screen w) <> RenderError /\ (List.length (questions (screen w)) <= 5)%nat.
Proof.
  intros [_ Hcase]. split.
  - unfold render. destruct (loading (screen w)); [discriminate|].
    destruct (Z.eqb_spec (Z.of_nat (List.length (questions (screen w)))) 0) as [|Hne];
      [discriminate|].
    destruct (sessionComplete (screen w)).
    + destruct (sessionResults _ _) as [[c t] p]. discriminate.
    + destruct Hcase as [[Hnil _] | [_ Hidx]].
      * rewrite Hnil in Hne. cbn in Hne. lia.
      * apply nth_error_Some in Hidx.
        destruct (nth_error _ _); [discriminate | contradiction].
  - destruct Hcase as [[-> _] | [-> _]]; [cbn; lia | apply firstn_le_length].
Qed.

Ltac keeps_range :=
  repeat first
    [ assumption
    | apply sessionFailed_range
    | apply onScreen_range; [intros ?; split; reflexivity|]
    | apply onDb_range; [intros ?; reflexivity|] ].

Lemma resume_range Q t le ok e c :
  fairShuffle le ->
  worldInRange Q (Interleaved.world c) ->
  worldInRange Q (Interleaved.world (Interleaved.resume t le ok e c)).
Proof.
  intros Hfair H.
  destruct t as [thenLoading | row | u cc tq today | u cc tq today y existingUsers | row];
    cbn [Interleaved.resume].
  - cbn [Interleaved.onWorld Interleaved.world].
    destruct thenLoading; keeps_range; apply finishLoad_range; assumption.
  - cbn [Interleaved.onWorld Interleaved.world]. unfold Interleaved.finishSubmit.
    destruct ok; keeps_range.
  - destruct (listFails e); cbn [Interleaved.onWorld Interleaved.spawn Interleaved.world];
      keeps_range.
  - destruct (userWriteFails e);
      cbn [Interleaved.onWorld Interleaved.spawn Interleaved.world]; keeps_range.
    destruct existingUsers; keeps_range.
  - destruct (sessionCreateFails e); cbn [Interleaved.onWorld Interleaved.world];
      keeps_range.
Qed.

Lemma step_range Q c ev :
  fairAnswer ev ->
  worldInRange Q (Interleaved.world c) ->
  worldInRange Q (Interleaved.world (Interleaved.step c ev)).
Proof.
  intros Hfair H.
  destruct ev as [stateUser isLoading | key | now | e | | | i le ok e];
    cbn [Interleaved.step fairAnswer] in *.
  - unfold Interleaved.onAuthStateChanged, Interleaved.startLoad.
    destruct stateUser;
      cbn [Interleaved.onWorld Interleaved.spawn Interleaved.world]; keeps_range.
  - destruct (render _) as [| | | q explained |]; try exact H.
    destruct explained; [exact H|].
    cbn [Interleaved.onWorld Interleaved.world].
    apply onScreen_range; [|exact H].
    intros s. unfold handleAnswerSelect. destruct (showExplanation s); split; reflexivity.
  - destruct (render _) as [| | | q explained |]; try exact H.
    destruct (_ || _); [exact H|].
    unfold Interleaved.startSubmit.
    destruct (selectedAnswer _) as [sel|]; [|exact H].
    destruct (user _) as [u|]; [|exact H].
    destruct (String.eqb sel EmptyString); [exact H|].
    destruct (nth_error _ _) as [currentQuestion|]; [|exact H].
    cbn [Interleaved.onWorld Interleaved.spawn Interleaved.world]. keeps_range.
  - destruct (render _) as [| | | q explained |] eqn:R; try exact H.
    destruct explained; [|exact H].
    unfold Interleaved.nextQuestion.
    destruct (Z.ltb_spec (Z.of_nat (currentQuestionIndex (screen (Interleaved.world c))))
                (Z.of_nat (List.length (questions (screen (Interleaved.world c)))) - 1))
      as [Hlt|_].
    + cbn [Interleaved.onWorld Interleaved.world].
      destruct (Interleaved.world c) as [s d co a]. unfold worldInRange in *.
      cbn [screen db onScreen setShowExplanation setSelectedAnswer setCurrentQuestionIndex
           questions currentQuestionIndex] in *.
      destruct H as [HQ Hcase]. split; [exact HQ|].
      destruct Hcase as [[Hnil _] | [Hlen _]].
      * rewrite Hnil in Hlt. cbn in Hlt. lia.
      * right. split; [exact Hlen | lia].
    + unfold Interleaved.startComplete.
      destruct (user _); [|exact H]. destruct (nth_error _ _); exact H.
  - destruct (render _) as [| | co t p | |]; try exact H.
    unfold Interleaved.restartPractice, Interleaved.startLoad.
    cbn [Interleaved.onWorld Interleaved.spawn Interleaved.world].
    apply onScreen_range; [intros s; split; reflexivity|].
    destruct (Interleaved.world c) as [s d co' a]. unfold worldInRange in *.
    cbn [screen db onScreen setSessionComplete setUserAnswers setShowExplanation
         setSelectedAnswer setCurrentQuestionIndex questions currentQuestionIndex] in *.
    destruct H as [HQ Hcase]. split; [exact HQ|].
    destruct Hcase as [[Hnil _] | [Hlen Hidx]]; [left; split; [exact Hnil | reflexivity]|].
    right. split; [exact Hlen | lia].
  - destruct (render _) as [| | | |]; exact H.
  - destruct (nth_error (Interleaved.pending c) i) as [t|]; [|exact H].
    apply resume_range; [exact Hfair | exact H].
Qed.

Lemma run_range Q evs c :
  Forall fairAnswer evs ->
  worldInRange Q (Interleaved.world c) ->
  worldInRange Q (Interleaved.world (Interleaved.run c evs)).
Proof.
  revert c. induction evs as [|ev evs IH]; intros c Hfair H; [exact H|].
  inversion Hfair as [|? ? Hev Hrest]; subst.
  cbn [Interleaved.run fold_left]. apply IH; [exact Hrest|].
  apply step_range; assumption.
Qed.

End InterleavedFacts.

(** X1.  Whatever happens after the practice screen is mounted, in
    whatever order the presses, the changes of the authentication state
    and the answers of the backend come (with shuffles that keep the number
    of questions, and a catalogue that only this screen's backend calls
    touch), the component never reads past the questions on screen: the
    render never meets an undefined current question, and at most 5
    questions are on screen. *)
Theorem practice_never_reads_out_of_range w evs :
  mounted w ->
  Forall fairAnswer evs ->
  let s := Practice.screen (Interleaved.world (Interleaved.run (Interleaved.idle w) evs)) in
  Practice.render s <> Practice.RenderError
  /\ (List.length (Practice.questions s) <= 5)%nat.
Proof.
  intros Hm Hfair s.
  apply (InterleavedFacts.render_range (Backend.questions (Practice.db w))).
  apply InterleavedFacts.run_range; [exact Hfair|].
  unfold worldInRange. cbn [Interleaved.idle Interleaved.world].
  unfold mounted in Hm. rewrite Hm. split; [reflexivity|]. left. split; reflexivity.
Qed.

Lemma practice_never_reads_out_of_range_witness :
  Practice.render
    (Practice.screen
       (Interleaved.world (Interleaved.run (Interleaved.idle (Sample.world [])) doubleSubmit)))
  <> Practice.RenderError.
Proof.
  assert (Hm : mounted (Sample.world [])) by reflexivity.
  assert (Hfair : Forall fairAnswer doubleSubmit)
    by (repeat constructor; intros l; reflexivity).
  exact (proj1 (practice_never_reads_out_of_range _ _ Hm Hfair)).
Defined.

(** C8.  The submit button stays enabled while [submitAnswer] awaits the
    write of the answer.  A first session of five questions, every option
    pressed the right one, the submit button pressed twice on the first
    question before the first write is answered: the session list holds six
    outcomes, all true, for five questions, and the results view shows 6 of
    5 and 120 percent, where the count of true outcomes over the length of
    the sequence is 6 of 6 and 100 percent. *)
Theorem double_submit_shows_six_of_five :
  let s := Practice.screen
             (Interleaved.world (Interleaved.run (Interleaved.idle (Sample.world []))
                                                 doubleSubmit)) in
  outcomes (Practice.userAnswers s) = [true; true; true; true; true; true]
  /\ List.length (Practice.questions s) = 5%nat
  /\ Practice.render s = Practice.ResultsView 6 5 (Js.RInt 120)
  /\ countTrue (outcomes (Practice.userAnswers s)) = 6
  /\ Z.of_nat (List.length (outcomes (Practice.userAnswers s))) = 6
  /\ roundHalfUp (100 * 6) 6 = 100.
Proof. vm_compute. repeat split; reflexivity. Qed.

(** * The record of a completed session, at particular sessions *)

(** C4.  A second session on the same day, five questions, every answer
    right.  The record, dated today with a streak of 5, keeps the streak
    and gains the 5 questions; its [correctAnswers] grows by 6, from 11 to
    17, while the session has 5 right answers and the results view shows
    5 of 5: [completeSession] counts the last answer again through the
    option still selected. *)
Theorem same_day_session_adds_six_for_five :
  let e := Sample.sessionAt (Sample.jan10 + 3600000) in
  let w := Sample.sameDayAgain in
  Completes e w Sample.alice Sample.q5
  /\ Practice.today e = "2024-01-10"%string
  /\ recordOf Sample.alice w = [Sample.row 5 5 (Some "2024-01-10"%string) 15 11]
  /\ outcomes (Practice.userAnswers (Practice.screen w)) = [true; true; true; true; true]
  /\ countTrue (outcomes (Practice.userAnswers (Practice.screen w))) = 5
  /\ mergedCorrect w Sample.q5 = 6
  /\ recordOf Sample.alice (Practice.completeSession e w)
     = [Sample.row 5 5 (Some "2024-01-10"%string) 20 17]
  /\ Practice.render (Practice.screen (Practice.completeSession e w))
     = Practice.ResultsView 5 5 (Js.RInt 100).
Proof. vm_compute. repeat split; reflexivity. Qed.

(** C5.  A record dated the day before today that does not get its streak
    extended.  In Berlin on 28 October 2024 at 00:30 UTC, the night after
    the clocks were set back, the date the code takes for yesterday is
    26 October: a record dated 27 October, with a streak of 5, keeps 5.
    And with the clock read at the last millisecond of 10 January for today
    and two milliseconds later for yesterday, the date taken for yesterday
    is 10 January: a record dated 9 January, with a streak of 5, is reset
    to 1. *)
Theorem day_before_today_not_extended :
  (let e := berlinNight in
   let w := lastStudied "2024-10-27" 5 (Practice.clockToday e) in
   Completes e w Sample.alice Sample.q5
   /\ Practice.today e = "2024-10-28"%string
   /\ dayString (Day (Practice.clockToday e) - 1) = "2024-10-27"%string
   /\ Practice.yesterdayStr e = "2024-10-26"%string
   /\ recordOf Sample.alice w = [Sample.row 5 5 (Some "2024-10-27"%string) 10 7]
   /\ recordOf Sample.alice (Practice.completeSession e w)
      = [Sample.row 5 5 (Some "2024-10-28"%string) 15 11])
  /\ (let e := Sample.acrossMidnight in
      let w := Sample.returning in
      Completes e w Sample.alice Sample.q5
      /\ Practice.today e = "2024-01-10"%string
      /\ dayString (Day (Practice.clockToday e) - 1) = "2024-01-09"%string
      /\ Practice.yesterdayStr e = "2024-01-10"%string
      /\ recordOf Sample.alice w = [Sample.row 5 5 (Some "2024-01-09"%string) 10 7]
      /\ recordOf Sample.alice (Practice.completeSession e w)
         = [Sample.row 1 5 (Some "2024-01-10"%string) 15 11]).
Proof. vm_compute. repeat split; reflexivity. Qed.

(** C6.  A record dated two days before today that is not reset.  In Berlin
    on 28 October 2024 at 00:30 UTC the date the code takes for yesterday
    is 26 October: a record dated 26 October, with a streak of 5 and a
    longest streak of 8, gets the streak 6. *)
Theorem missed_day_not_reset :
  let e := berlinNight in
  let w := lastStudied "2024-10-26" 8 (Practice.clockToday e) in
  Completes e w Sample.alice Sample.q5
  /\ Practice.today e = "2024-10-28"%string
  /\ dayString (Day (Practice.clockToday e) - 1) = "2024-10-27"%string
  /\ String.ltb "2024-10-26" (dayString (Day (Practice.clockToday e) - 1)) = true
  /\ Practice.yesterdayStr e = "2024-10-26"%string
  /\ recordOf Sample.alice w = [Sample.row 5 8 (Some "2024-10-26"%string) 10 7]
  /\ recordOf Sample.alice (Practice.completeSession e w)
     = [Sample.row 6 8 (Some "2024-10-28"%string) 15 11].
Proof. vm_compute. repeat split; reflexivity. Qed.

(** C7.  A first session on 1 March 2024, a wrong answer and then four
    right ones: the session has 4 right answers of 5 and the results view
    shows 4 of 5, and the record created holds [totalQuestionsAnswered] 5
    and [correctAnswers] 5.  [completeSession] counts the last answer again
    through the option still selected. *)
Theorem first_session_of_four_right_stores_five :
  let w := Sample.beforeLastPress [] Sample.mar01 firstWrong in
  let e := Sample.sessionAt Sample.mar01 in
  Completes e w Sample.alice Sample.q5
  /\ recordOf Sample.alice w = []
  /\ outcomes (Practice.userAnswers (Practice.screen w)) = [false; true; true; true; true]
  /\ countTrue (outcomes (Practice.userAnswers (Practice.screen w))) = 4
  /\ mergedCorrect w Sample.q5 = 5
  /\ recordOf Sample.alice (Practice.completeSession e w)
     = [Sample.row 1 1 (Some "2024-03-01"%string) 5 5]
  /\ Practice.render (Practice.screen (Practice.completeSession e w))
     = Practice.ResultsView 4 5 (Js.RInt 80).
Proof. vm_compute. repeat split; reflexivity. Qed.

(** What a whole session leaves when the backend answers the last press:
    the screen, the log of answers, the record and the session row. *)
Lemma session_outcome w u rounds e :
  sessionStarts w u ->
  List.length rounds = List.length (Practice.questions (Practice.screen w)) ->
  lastEnv rounds = Some e ->
  answers e = true ->
  let questions := Practice.questions (Practice.screen w) in
  let n := Z.of_nat (List.length questions) in
  let right := countTrue (outcomes (judgedAll questions rounds)) in
  let w' := Practice.run w (sessionEvents rounds) in
  Practice.userAnswers (Practice.screen w') = judgedAll questions rounds
  /\ Backend.userAnswers (Practice.db w')
     = Backend.userAnswers (Practice.db w) ++ loggedAll u questions rounds
  /\ Practice.render (Practice.screen w')
     = Practice.ResultsView right n (Js.percentOf right n)
  /\ exists row r q,
       lastRound rounds = Some r
       /\ nth_error questions (Nat.pred (List.length questions)) = Some q
       /\ recordOf u w' = [row]
       /\ Backend.totalQuestionsAnswered row = fst (countersOf (recordOf u w)) + n
       /\ Backend.correctAnswers row
          = snd (countersOf (recordOf u w)) + right
            + (if Practice.UserAnswer.isCorrect (judged q r) then 1 else 0)
       /\ Backend.studySessions (Practice.db w')
          = Backend.studySessions (Practice.db w)
            ++ [{| Backend.sessionUserId := Practice.uid u;
                   Backend.sessionDate := Practice.today e;
                   Backend.questionsAnswered := n;
                   Backend.sessionCorrectAnswers :=
                     right
                     + (if Practice.UserAnswer.isCorrect (judged q r) then 1 else 0);
                   Backend.sessionDuration := 0 |}].
Proof.
  intros Hstart Hlen Hlast Hans questions n right w'.
  pose proof Hstart as (Hl & Hc & He & Hi & Ha & Hu & Hne).
  unfold answers in Hans.
  apply andb_true_iff in Hans. destruct Hans as [Hans Hsf].
  apply andb_true_iff in Hans. destruct Hans as [Hlf Hwf].
  apply negb_true_iff in Hlf, Hwf, Hsf.
  assert (Hrounds : rounds <> []).
  { intros ->. apply Hne. destruct (Practice.questions (Practice.screen w));
      [reflexivity | discriminate]. }
  assert (Hsum : (Practice.currentQuestionIndex (Practice.screen w) + List.length rounds
                  = List.length (Practice.questions (Practice.screen w)))%nat)
    by (rewrite Hi, Hlen; reflexivity).
  destruct (SessionRun.rounds_run u rounds Hrounds w Hl Hc He Hu Hsum)
    as (wpre & r & q & Hr & Hq & Hrun & Hscreen & Hdb & Husers & _ & Hsess & _).
  rewrite Hi in Hscreen, Hdb. cbn [skipn] in Hscreen, Hdb.
  rewrite Ha in Hscreen. cbn [app] in Hscreen.
  fold questions in Hscreen, Hdb, Hq. fold w' in Hrun.
  assert (He' : env r = e).
  { unfold lastEnv in Hlast. unfold lastRound in Hr. rewrite Hr in Hlast.
    injection Hlast as <-. reflexivity. }
  rewrite He' in Hrun.
  assert (Hcomp : Completes e wpre u q).
  { unfold Completes. rewrite Hscreen. repeat split; assumption. }
  assert (Hprev : recordOf u wpre = recordOf u w).
  { unfold recordOf, Backend.users_list. rewrite Husers. reflexivity. }
  assert (Htot : mergedTotal wpre = n) by (unfold mergedTotal; rewrite Hscreen; reflexivity).
  assert (Hcor : mergedCorrect wpre q
                 = right + (if Practice.UserAnswer.isCorrect (judged q r) then 1 else 0)).
  { unfold mergedCorrect, Practice.sessionCorrectCount. rewrite Hscreen.
    cbn [screenBeforeCompletion Practice.userAnswers Practice.selectedAnswer Js.strictEq
         judged Practice.UserAnswer.isCorrect].
    unfold right, countTrue. rewrite <- filter_outcomes. reflexivity. }
  destruct (completeSession_written e wpre u q Hcomp)
    as (d & _ & _ & Hda & Hds & _ & Hw').
  rewrite Hsf, Htot, Hcor in Hw'. rewrite <- Hrun in Hw'.
  assert (Hfinal : Practice.screen w' = Practice.setSessionComplete true (Practice.screen wpre))
    by (rewrite Hw'; reflexivity).
  split; [rewrite Hfinal, Hscreen; reflexivity|].
  split; [rewrite Hw'; cbn [Practice.db Backend.studySessions_create Backend.userAnswers];
          rewrite Hda; exact Hdb|].
  split.
  { rewrite Hfinal, Hscreen. unfold Practice.render.
    cbn [screenBeforeCompletion Practice.setSessionComplete Practice.loading
         Practice.questions Practice.sessionComplete Practice.userAnswers].
    destruct (Z.eqb_spec (Z.of_nat (List.length questions)) 0) as [E|_].
    - exfalso. unfold questions in E.
      destruct (Practice.questions (Practice.screen w)); [contradiction | cbn in E; lia].
    - unfold Practice.sessionResults, right, countTrue.
      rewrite <- filter_outcomes. reflexivity. }
  pose proof (completeSession_record e wpre u q Hcomp) as Hrec.
  rewrite <- Hrun, Hprev, Htot, Hcor in Hrec.
  assert (Hrow : exists row,
             recordOf u w' = [row]
             /\ Backend.totalQuestionsAnswered row = fst (countersOf (recordOf u w)) + n
             /\ Backend.correctAnswers row
                = snd (countersOf (recordOf u w)) + right
                  + (if Practice.UserAnswer.isCorrect (judged q r) then 1 else 0)).
  { destruct (recordOf u w) as [|existingUser others]; eexists;
      (split; [exact Hrec|]);
      cbn [Practice.updatedUser Practice.createdUser Backend.totalQuestionsAnswered
           Backend.correctAnswers countersOf fst snd]; split; lia. }
  destruct Hrow as (row & Hrow & Ht & Hk).
  exists row, r, q.
  split; [exact Hr|]. split; [exact Hq|]. split; [exact Hrow|].
  split; [exact Ht|]. split; [exact Hk|].
  rewrite Hw'. cbn [Practice.db Backend.studySessions_create Backend.studySessions].
  rewrite Hds, Hsess. reflexivity.
Qed.

(** C10.  When the write of an answer fails in [submitAnswer], the failure
    is only logged on the console: no alert, no change to the record
    collections; the answer is in the session list all the same, the
    explanation is shown, and whatever happens next the screen, the users'
    records and the study sessions are those of the run in which the write
    succeeded.  And over a whole session, whichever of the writes of the
    answers fail: every answer is in the session list and in the counts of
    the results view, only the rows of the writes that succeeded are in
    the log, and the record and the session row that [completeSession]
    writes count every question and every right answer of the session (the
    last one, when it is right, once more). *)
Theorem unsaved_answer_still_counts :
  (forall now w sel u currentQuestion,
     Practice.selectedAnswer (Practice.screen w) = Some sel ->
     sel <> EmptyString ->
     Practice.user (Practice.screen w) = Some u ->
     nth_error (Practice.questions (Practice.screen w))
               (Practice.currentQuestionIndex (Practice.screen w)) = Some currentQuestion ->
     let saved := Practice.submitAnswer now true w in
     let unsaved := Practice.submitAnswer now false w in
     Practice.userAnswers (Practice.screen unsaved)
     = Practice.userAnswers (Practice.screen w)
       ++ [{| Practice.UserAnswer.questionId := Backend.questionKey currentQuestion;
              Practice.UserAnswer.selectedAnswer := sel;
              Practice.UserAnswer.isCorrect :=
                String.eqb sel (Backend.correctAnswer currentQuestion) |}]
     /\ Practice.showExplanation (Practice.screen unsaved) = true
     /\ Practice.screen unsaved = Practice.screen saved
     /\ Practice.db unsaved = Practice.db w
     /\ Practice.console unsaved = Practice.console w ++ ["Error saving answer:"%string]
     /\ Practice.alerts unsaved = Practice.alerts w
     /\ (forall e,
           recordOf u (Practice.completeSession e unsaved)
           = recordOf u (Practice.completeSession e saved)
           /\ Backend.studySessions (Practice.db (Practice.completeSession e unsaved))
              = Backend.studySessions (Practice.db (Practice.completeSession e saved)))
     /\ (forall evs, sameSession (Practice.run unsaved evs) (Practice.run saved evs)))
  /\ (forall w u rounds e,
        sessionStarts w u ->
        List.length rounds = List.length (Practice.questions (Practice.screen w)) ->
        lastEnv rounds = Some e ->
        answers e = true ->
        let questions := Practice.questions (Practice.screen w) in
        let n := Z.of_nat (List.length questions) in
        let right := countTrue (outcomes (judgedAll questions rounds)) in
        let w' := Practice.run w (sessionEvents rounds) in
        (forall q r, In (q, r) (combine questions rounds) ->
           In (judged q r) (Practice.userAnswers (Practice.screen w')))
        /\ Practice.userAnswers (Practice.screen w') = judgedAll questions rounds
        /\ Backend.userAnswers (Practice.db w')
           = Backend.userAnswers (Practice.db w) ++ loggedAll u questions rounds
        /\ Practice.render (Practice.screen w')
           = Practice.ResultsView right n (Js.percentOf right n)
        /\ exists row r q,
             lastRound rounds = Some r
             /\ nth_error questions (Nat.pred (List.length questions)) = Some q
             /\ recordOf u w' = [row]
             /\ Backend.totalQuestionsAnswered row = fst (countersOf (recordOf u w)) + n
             /\ Backend.correctAnswers row
                = snd (countersOf (recordOf u w)) + right
                  + (if Practice.UserAnswer.isCorrect (judged q r) then 1 else 0)
             /\ Backend.studySessions (Practice.db w')
                = Backend.studySessions (Practice.db w)
                  ++ [{| Backend.sessionUserId := Practice.uid u;
                         Backend.sessionDate := Practice.today e;
                         Backend.questionsAnswered := n;
                         Backend.sessionCorrectAnswers :=
                           right
                           + (if Practice.UserAnswer.isCorrect (judged q r) then 1 else 0);
                         Backend.sessionDuration := 0 |}]).
Proof.
  split; [exact unsaved_submit_same_session|].
  intros w u rounds e Hstart Hlen Hlast Hans questions n right w'.
  destruct (session_outcome w u rounds e Hstart Hlen Hlast Hans)
    as (Hlist & Hlog & Hview & Hrecord).
  fold questions in Hlist, Hlog, Hview, Hrecord. fold w' in Hlist, Hlog, Hview, Hrecord.
  split; [|split; [exact Hlist | split; [exact Hlog | split; [exact Hview | exact Hrecord]]]].
  intros q r Hin. rewrite Hlist. unfold judgedAll.
  change (judged q r) with ((fun qr => judged (fst qr) (snd qr)) (q, r)).
  apply in_map, Hin.
Qed.

Lemma unsaved_answer_still_counts_witness :
  let w := Practice.run (Sample.world [])
             [Practice.AuthStateChanged (Some Sample.alice) false Sample.inOrder] in
  let rounds := secondUnsaved Sample.mar01 Sample.fiveOfFive in
  let w' := Practice.run w (sessionEvents rounds) in
  List.length (Backend.userAnswers (Practice.db w')) = 4%nat
  /\ Practice.render (Practice.screen w') = Practice.ResultsView 5 5 (Js.RInt 100)
  /\ exists row,
       recordOf Sample.alice w' = [row]
       /\ Backend.totalQuestionsAnswered row = 5.
Proof.
  intros w rounds w'.
  assert (Hstart : sessionStarts w Sample.alice)
    by (vm_compute; repeat split; discriminate).
  assert (Hlen : List.length rounds = List.length (Practice.questions (Practice.screen w)))
    by (vm_compute; reflexivity).
  assert (Hlast : lastEnv rounds = Some (Sample.sessionAt Sample.mar01)) by reflexivity.
  assert (Hans : answers (Sample.sessionAt Sample.mar01) = true) by reflexivity.
  destruct (proj2 unsaved_answer_still_counts w Sample.alice rounds
              (Sample.sessionAt Sample.mar01) Hstart Hlen Hlast Hans)
    as (_ & _ & Hlog & Hview & row & r & q & _ & _ & Hrow & Ht & _).
  fold w' in Hlog, Hview, Hrow.
  assert (Hprev : fst (countersOf (recordOf Sample.alice w)) = 0) by (vm_compute; reflexivity).
  split; [rewrite Hlog; vm_compute; reflexivity|].
  split; [rewrite Hview; vm_compute; reflexivity|].
  exists row. split; [exact Hrow|]. rewrite Ht, Hprev. vm_compute. reflexivity.
Defined.
